(** * DailyNews: feed ingestion and admission pipeline

    A shallow embedding of the Go sources
      - [internal/infrastructure/rss_fetcher.go]  (field extractor, feed fetcher)
      - the image downloader of package [infrastructure] (image qualifier)
      - [internal/usecase/fetch_news.go]          (admission pipeline)
      - [internal/delivery/http/page_handlers.go] (pattern detector)
      - [pkg/config/config.go]                    (quota resolution)
    and the properties of the specification stated over it.

    Go strings are byte sequences: they are modelled by [string] (a list of
    8-bit [ascii]).  Go [int] values that come from configuration are [Z];
    lengths and counters are [nat] or [Z] as the code compares them. *)

From Stdlib Require Import ZArith Ascii String List Bool Lia.
From Stdlib Require Import Floats Uint63.
From stdpp Require Import base option list gmap strings.

Local Open Scope string_scope.
Local Open Scope Z_scope.

(** ** Go's [strings] package, byte level *)

Module GoStrings.

(** [len(s)]. *)
Definition len (s : string) : Z := Z.of_nat (String.length s).

(** [strings.HasPrefix(s, p)]. *)
Fixpoint HasPrefix (s p : string) : bool :=
  match p, s with
  | EmptyString, _ => true
  | String c p', String d s' => if Ascii.eqb c d then HasPrefix s' p' else false
  | String _ _, EmptyString => false
  end.

(** [strings.Index(s, sub)]: first position of [sub] in [s], or [-1]. *)
Fixpoint Index (s sub : string) : Z :=
  if HasPrefix s sub then 0
  else match s with
       | EmptyString => -1
       | String _ s' =>
           let i := Index s' sub in
           if i <? 0 then -1 else i + 1
       end.

(** [strings.Contains(s, sub)]. *)
Definition Contains (s sub : string) : bool := 0 <=? Index s sub.

(** [s[i:]] and [s[:j]] for indices that the caller has checked. *)
Fixpoint sliceFrom (n : nat) (s : string) : string :=
  match n, s with
  | O, _ => s
  | S n', String _ s' => sliceFrom n' s'
  | S _, EmptyString => EmptyString
  end.

Fixpoint sliceTo (n : nat) (s : string) : string :=
  match n, s with
  | O, _ => EmptyString
  | S n', String c s' => String c (sliceTo n' s')
  | S _, EmptyString => EmptyString
  end.

(** [strings.Split(s, sep)] for a one-byte separator: always at least one
    piece, [n+1] pieces for [n] separators. *)
Fixpoint Split (s : string) (sep : ascii) : list string :=
  match s with
  | EmptyString => [EmptyString]
  | String c s' =>
      if Ascii.eqb c sep then EmptyString :: Split s' sep
      else match Split s' sep with
           | piece :: rest => String c piece :: rest
           | [] => [String c EmptyString]
           end
  end.

(** [strings.SplitN(s, sep, 2)] for a one-byte separator given as a string. *)
Definition SplitN2 (s sep : string) : list string :=
  let i := Index s sep in
  if i <? 0 then [s]
  else [sliceTo (Z.to_nat i) s; sliceFrom (Z.to_nat i + String.length sep) s].

Definition byte (n : N) : ascii := ascii_of_N n.
Definition code (c : ascii) : N := N_of_ascii c.

(** White space as [unicode.IsSpace] sees it, on the UTF-8 encoding.
    One byte: TAB LF VT FF CR SPACE. *)
Definition isSpace1 (a : ascii) : bool :=
  let n := code a in
  ((9 <=? n) && (n <=? 13))%N || (n =? 32)%N.

(** Two bytes: U+0085 (C2 85) and U+00A0 (C2 A0). *)
Definition isSpace2 (a b : ascii) : bool :=
  (code a =? 194)%N && ((code b =? 133)%N || (code b =? 160)%N).

(** Three bytes: U+1680, U+2000..U+200A, U+2028, U+2029, U+202F, U+205F,
    U+3000. *)
Definition isSpace3 (a b c : ascii) : bool :=
  let x := code a in let y := code b in let z := code c in
  ((x =? 225) && (y =? 154) && (z =? 128))%N
  || ((x =? 226) && (y =? 128)
      && (((128 <=? z) && (z <=? 138)) || (z =? 168) || (z =? 169) || (z =? 175)))%N
  || ((x =? 226) && (y =? 129) && (z =? 159))%N
  || ((x =? 227) && (y =? 128) && (z =? 128))%N.

(** Leading white space removed. *)
Fixpoint TrimLeftSpace (s : string) : string :=
  match s with
  | EmptyString => EmptyString
  | String a r1 =>
      if isSpace1 a then TrimLeftSpace r1
      else match r1 with
           | EmptyString => s
           | String b r2 =>
               if isSpace2 a b then TrimLeftSpace r2
               else match r2 with
                    | EmptyString => s
                    | String c r3 =>
                        if isSpace3 a b c then TrimLeftSpace r3 else s
                    end
           end
  end.

Fixpoint revAcc (s acc : string) : string :=
  match s with
  | EmptyString => acc
  | String c s' => revAcc s' (String c acc)
  end.

Definition rev (s : string) : string := revAcc s EmptyString.

(** Trailing white space removed; the argument is the reversed string, so
    the bytes of a rune arrive last byte first. *)
Fixpoint TrimLeftSpaceRev (s : string) : string :=
  match s with
  | EmptyString => EmptyString
  | String a r1 =>
      if isSpace1 a then TrimLeftSpaceRev r1
      else match r1 with
           | EmptyString => s
           | String b r2 =>
               if isSpace2 b a then TrimLeftSpaceRev r2
               else match r2 with
                    | EmptyString => s
                    | String c r3 =>
                        if isSpace3 c b a then TrimLeftSpaceRev r3 else s
                    end
           end
  end.

Definition TrimRightSpace (s : string) : string := rev (TrimLeftSpaceRev (rev s)).

(** [strings.TrimSpace(s)]. *)
Definition TrimSpace (s : string) : string := TrimRightSpace (TrimLeftSpace s).

(** [strings.TrimPrefix(s, p)] and [strings.TrimSuffix(s, p)]. *)
Definition TrimPrefix (s p : string) : string :=
  if HasPrefix s p then sliceFrom (String.length p) s else s.

Definition TrimSuffix (s p : string) : string :=
  if HasPrefix (rev s) (rev p)
  then sliceTo (String.length s - String.length p) s else s.

(** [strings.IndexRune(s, rune(b))] for a rune obtained from one byte [b]:
    below 0x80 it is a byte search, from 0x80 to 0xFF the rune is searched
    in its two-byte UTF-8 encoding. *)
Definition runeBytes (b : ascii) : string :=
  let n := code b in
  if (n <? 128)%N then String b EmptyString
  else String (byte (192 + n / 64)) (String (byte (128 + n mod 64)) EmptyString).

Definition IndexRune (s : string) (b : ascii) : Z := Index s (runeBytes b).

End GoStrings.

Import GoStrings.

(** ** Results of Go calls *)

(** A Go function either returns or panics at run time (index out of range). *)
Inductive outcome (A : Type) : Type :=
| Returns (a : A)
| Panics (msg : string).
Arguments Returns {A} a.
Arguments Panics {A} msg.

(** A Go [error] value is represented by its message. *)
Definition error := string.

(** [time.Time] as an instant, in nanoseconds since the Unix epoch; a
    [time.Duration] is a signed 64-bit count of nanoseconds. *)
Definition Time := Z.
Definition Duration := Z.

(** ** Logging

    The warnings and errors of [pkg/utils] that record why something was
    skipped.  Purely informational entries are not part of the model. *)

Inductive Reason :=
| RBlacklisted            (* "título en lista negra" *)
| RTitleLength (n : Z)    (* "título inválido por longitud: n caracteres" *)
| RDuplicateLink          (* "duplicada o paquete lleno", on the link *)
| RDuplicateTitle         (* "duplicada o paquete lleno", on the title *)
| RTooOld (maxDays : Z)   (* "noticia antigua, ..." *)
| RNoFallback             (* "sin imagen y sin fallback configurado" *)
| RNoImage                (* "imagen no encontrada" *)
| RImageError (e : error) (* "error al procesar imagen: e" *)
| RImageInvalid           (* "imagen inválida" *)
| RFallbackMissing.       (* "imagen de fallback no encontrada en disco" *)

Inductive Event :=
| EvAppWarn (component message : string) (err : error)
| EvAppError (component message : string) (err : error)
| EvAppDiscard (component title : string) (r : Reason)
| EvSourceError (url : string) (err : error)
| EvEntryDropped (newsNum : nat) (what format : string)
| EvNewsWarn (cat lang title : string) (r : Reason)
| EvNewsError (cat lang title : string) (r : Reason)
| EvStorageError (cat lang title : string) (err : error)
| EvLimitReached (cat lang : string)
| EvSourceLimitReached (sourceName : string) (maxPerSource : Z)
| EvNoValidNews (sourceName : string)
| EvNewsAdded (cat lang title sourceName : string) (count : nat).

(** ** Effects

    Everything outside the process (clock, network, database, file system) is
    reached through calls that read and change a world [W]; the log is kept
    next to it. *)

Record State (W : Type) := mkState { world : W; logs : list Event }.
Arguments mkState {W} world logs.
Arguments world {W} _.
Arguments logs {W} _.

Definition M (W A : Type) : Type := State W -> A * State W.

Definition ret {W A} (a : A) : M W A := fun s => (a, s).

Definition bind {W A B} (m : M W A) (k : A -> M W B) : M W B :=
  fun s => let (a, s') := m s in k a s'.

Declare Scope go_scope.
Delimit Scope go_scope with go.
Notation "x <- m ;; k" := (bind m (fun x => k))
  (at level 100, m at next level, right associativity) : go_scope.
Notation "m ;;; k" := (bind m (fun _ => k))
  (at level 100, right associativity) : go_scope.

(** A call to the outside world. *)
Definition call {W A} (f : W -> A * W) : M W A :=
  fun s => let (a, w') := f (world s) in (a, mkState w' (logs s)).

(** One more log entry. *)
Definition logEv {W} (e : Event) : M W unit :=
  fun s => (tt, mkState (world s) (logs s ++ [e])).

(** ** Data model ([internal/domain/models.go] and the feed library) *)

Module gofeed.

Record Enclosure := { URL : string; Type_ : string }.

Record Extension := { Attrs : gmap string string }.

Record Item := {
  Title : string;
  Description : string;
  Link : string;
  PublishedParsed : option Time;
  UpdatedParsed : option Time;
  Enclosures : list Enclosure;
  Extensions : gmap string (gmap string (list Extension))
}.

End gofeed.

Module domain.

Record NewsSource := {
  ID : Z;
  CategoryCode : string;       (* News.Code *)
  SourceName : string;
  RSSURL : string;
  Filter : option string;
  TitleField : option string;
  ImageField : option string;
  LinkField : option string;
  CampoFecha : option string;
  LangCode : string;           (* Lang.Code *)
  IsActive : bool;
  UserAdded : bool
}.

Record NewsItem := {
  SourceID : Z;
  Source : option NewsSource;
  Title : string;
  Link : string;
  Image : string;
  PubDate : Time;
  ItemLangCode : string;
  ItemCategoryCode : string
}.

Record FallbackImage := {
  FallbackCategoryCode : string;
  FallbackLanguageCode : string;
  Filename : string
}.

End domain.

(** ** Field extractor and feed fetcher ([rss_fetcher.go]) *)

Record Pattern := {
  PTitleField : string;
  PImageField : string;
  PLinkField : string;
  PDateField : string
}.

Definition extractionPatterns : gmap string Pattern :=
  list_to_map
    [ ("patron1", Build_Pattern "title" "media:content|media:thumbnail" "link" "pubDate");
      ("patron2", Build_Pattern "title" "enclosure|media:content" "link" "pubDate");
      ("patron3", Build_Pattern "title" "description_img" "link" "pubDate");
      ("patron1_no_image", Build_Pattern "title" "" "link" "pubDate");
      ("patron2_no_image", Build_Pattern "title" "" "link" "pubDate");
      ("patron3_no_image", Build_Pattern "title" "" "link" "pubDate") ].

(** [extractionPatterns[filter]]: a missing key gives the zero value. *)
Definition patternOf (filter : string) : Pattern :=
  default (Build_Pattern "" "" "" "") (extractionPatterns !! filter).

Definition nonEmpty (s : string) : bool := negb (String.eqb s "").

(** [getMediaThumbnail] and [getMediaContent]. *)
Definition getMediaThumbnail (item : gofeed.Item) : string :=
  match gofeed.Extensions item !! "media" with
  | Some ext =>
      match ext !! "thumbnail" with
      | Some (t0 :: _) =>
          match gofeed.Attrs t0 !! "url" with
          | Some url => url
          | None => ""
          end
      | _ => ""
      end
  | None => ""
  end.

Definition getMediaContent (item : gofeed.Item) : string :=
  match gofeed.Extensions item !! "media" with
  | Some ext =>
      match ext !! "content" with
      | Some (c0 :: _) =>
          match gofeed.Attrs c0 !! "url" with
          | Some url => url
          | None => ""
          end
      | _ => ""
      end
  | None => ""
  end.

(** [extractImgFromDescription]: the linear scan for the first
    [<img ... src=Q...Q ...>].  The byte read [imgTag[srcIdx+4]] is bounds
    checked by the Go run time. *)
Definition extractImgFromDescription (desc : string) : outcome string :=
  let start := Index desc "<img " in
  if start =? -1 then Returns ""
  else
    let imgTag := sliceFrom (Z.to_nat start) desc in
    let end_ := Index imgTag ">" in
    if end_ =? -1 then Returns ""
    else
      let imgTag := sliceTo (Z.to_nat end_) imgTag in
      let srcIdx := Index imgTag "src=" in
      if srcIdx =? -1 then Returns ""
      else
        match String.get (Z.to_nat (srcIdx + 4)) imgTag with
        | None => Panics "index out of range"
        | Some quote =>
            let rest := sliceFrom (Z.to_nat (srcIdx + 5)) imgTag in
            let endQuote := IndexRune rest quote in
            if endQuote =? -1 then Returns ""
            else Returns (sliceTo (Z.to_nat endQuote) rest)
        end.

(** [cleanCDATA]. *)
Definition cleanCDATA (s : string) : string :=
  let s := TrimSpace s in
  let s := TrimPrefix s "<![CDATA[" in
  let s := TrimSuffix s "]]>" in
  TrimSpace s.

(** The parts of Go's [time] package that the fetcher and the pipeline call.
    Formatting and parsing with the layout [time.RFC3339] belong to the Go
    standard library and are taken as they are. *)
Record TimePkg (W : Type) := {
  Now : W -> Time * W;
  Format_RFC3339 : Time -> string;
  Parse_RFC3339 : string -> option Time   (* [None]: the parse returned an error *)
}.
Arguments Now {W} _.
Arguments Format_RFC3339 {W} _.
Arguments Parse_RFC3339 {W} _.

(** [rssFetcher]: the feed parser behind [f.parser.ParseURLWithContext]. *)
Record rssFetcher (W : Type) := {
  ParseURLWithContext : string -> W -> (error + list gofeed.Item) * W;
  fetcherTime : TimePkg W
}.
Arguments ParseURLWithContext {W} _.
Arguments fetcherTime {W} _.

(** The loop of [extractFieldFromItem] over the alternatives, each trimmed
    and dispatched by the [switch]. *)
Fixpoint extractFieldLoop {W} (tm : TimePkg W) (item : gofeed.Item)
    (alternatives : list string) : outcome string :=
  match alternatives with
  | [] => Returns ""
  | f :: rest =>
      let f := TrimSpace f in
      if String.eqb f "title" then
        if nonEmpty (gofeed.Title item) then Returns (gofeed.Title item)
        else extractFieldLoop tm item rest
      else if String.eqb f "media:content" then
        let result := getMediaContent item in
        if nonEmpty result then Returns result else extractFieldLoop tm item rest
      else if String.eqb f "media:thumbnail" then
        let result := getMediaThumbnail item in
        if nonEmpty result then Returns result else extractFieldLoop tm item rest
      else if String.eqb f "enclosure" then
        match gofeed.Enclosures item with
        | e0 :: _ =>
            if HasPrefix (gofeed.Type_ e0) "image/" then Returns (gofeed.URL e0)
            else extractFieldLoop tm item rest
        | [] => extractFieldLoop tm item rest
        end
      else if String.eqb f "description_img" then
        match extractImgFromDescription (gofeed.Description item) with
        | Panics msg => Panics msg
        | Returns result =>
            if nonEmpty result then Returns result else extractFieldLoop tm item rest
        end
      else if String.eqb f "link" then
        if nonEmpty (gofeed.Link item) then Returns (gofeed.Link item)
        else extractFieldLoop tm item rest
      else if String.eqb f "pubDate" then
        match gofeed.PublishedParsed item with
        | Some t => Returns (Format_RFC3339 tm t)
        | None =>
            match gofeed.UpdatedParsed item with
            | Some t => Returns (Format_RFC3339 tm t)
            | None => extractFieldLoop tm item rest
            end
        end
      else extractFieldLoop tm item rest
  end.

(** [extractFieldFromItem]. *)
Definition extractFieldFromItem {W} (tm : TimePkg W) (item : gofeed.Item)
    (field : string) : outcome string :=
  extractFieldLoop tm item (Split field "|").

(** The date of one entry, as [Fetch] resolves it (section
    "EXTRACCIÓN DE FECHA" of the loop body). *)
Definition resolveDate {W} (tm : TimePkg W) (filter dateField : string)
    (item : gofeed.Item) : M W (outcome Time) :=
  (if nonEmpty dateField then
     match extractFieldFromItem tm item dateField with
     | Panics msg => ret (Panics msg)
     | Returns dateStr =>
         match Parse_RFC3339 tm dateStr with
         | Some t => ret (Returns t)
         | None => t <- call (Now tm) ;; ret (Returns t)
         end
     end
   else
     let pattern := patternOf filter in
     match extractFieldFromItem tm item (PDateField pattern) with
     | Panics msg => ret (Panics msg)
     | Returns dateStr =>
         match Parse_RFC3339 tm dateStr with
         | Some t => ret (Returns t)
         | None =>
             match gofeed.PublishedParsed item with
             | Some t => ret (Returns t)
             | None =>
                 match gofeed.UpdatedParsed item with
                 | Some t => ret (Returns t)
                 | None => t <- call (Now tm) ;; ret (Returns t)
                 end
             end
         end
     end)%go.

(** The candidate that [Fetch] builds from a feed entry. *)
Definition candidate (title link image : string) (pubDate : Time) : domain.NewsItem :=
  {| domain.SourceID := 0; domain.Source := None;
     domain.Title := cleanCDATA title; domain.Link := link; domain.Image := image;
     domain.PubDate := pubDate;
     domain.ItemLangCode := ""; domain.ItemCategoryCode := "" |}.

(** The body of the loop of [Fetch] for the entry number [newsNum]:
    [Returns None] is an entry dropped by [continue]. *)
Definition fetchEntry {W} (tm : TimePkg W)
    (filter titleField imageField linkField dateField : string)
    (newsNum : nat) (item : gofeed.Item) : M W (outcome (option domain.NewsItem)) :=
  (let pattern := patternOf filter in
   let titleFormat := if nonEmpty titleField then titleField else PTitleField pattern in
   match extractFieldFromItem tm item titleFormat with
   | Panics msg => ret (Panics msg)
   | Returns title =>
       if negb (nonEmpty title) then
         logEv (EvEntryDropped newsNum "título" titleFormat) ;;; ret (Returns None)
       else
         match (if nonEmpty imageField then extractFieldFromItem tm item imageField
                else if negb (Contains filter "no_image")
                     then extractFieldFromItem tm item (PImageField pattern)
                     else Returns "") with
         | Panics msg => ret (Panics msg)
         | Returns imageURL =>
             let linkFormat := if nonEmpty linkField then linkField else PLinkField pattern in
             match extractFieldFromItem tm item linkFormat with
             | Panics msg => ret (Panics msg)
             | Returns linkURL =>
                 if negb (nonEmpty linkURL) then
                   logEv (EvEntryDropped newsNum "link" linkFormat) ;;; ret (Returns None)
                 else
                   d <- resolveDate tm filter dateField item ;;
                   match d with
                   | Panics msg => ret (Panics msg)
                   | Returns pubDate =>
                       ret (Returns (Some (candidate title linkURL imageURL pubDate)))
                   end
             end
         end
   end)%go.

(** The loop of [Fetch] over [feed.Items]. *)
Fixpoint fetchEntries {W} (tm : TimePkg W)
    (filter titleField imageField linkField dateField : string)
    (newsNum : nat) (entries : list gofeed.Item) (items : list domain.NewsItem)
    : M W (outcome (list domain.NewsItem)) :=
  match entries with
  | [] => ret (Returns items)
  | item :: rest =>
      (r <- fetchEntry tm filter titleField imageField linkField dateField newsNum item ;;
       match r with
       | Panics msg => ret (Panics msg)
       | Returns None =>
           fetchEntries tm filter titleField imageField linkField dateField
             (S newsNum) rest items
       | Returns (Some newsItem) =>
           fetchEntries tm filter titleField imageField linkField dateField
             (S newsNum) rest (items ++ [newsItem])
       end)%go
  end.

(** [rssFetcher.Fetch]. *)
Definition Fetch {W} (f : rssFetcher W)
    (url filter titleField imageField linkField dateField : string)
    : M W (outcome (error + list domain.NewsItem)) :=
  (let url := TrimSpace url in
   feed <- call (ParseURLWithContext f url) ;;
   match feed with
   | inl err =>
       logEv (EvSourceError url err) ;;;
       ret (Returns (inl ("error al obtener feed RSS: " ++ err)))
   | inr entries =>
       r <- fetchEntries (fetcherTime f) filter titleField imageField linkField
              dateField 1 entries [] ;;
       match r with
       | Panics msg => ret (Panics msg)
       | Returns items => ret (Returns (inr items))
       end
   end)%go.

(** ** Image qualifier (type [imageDownloader] of package [infrastructure])

    Error values carry their message; numbers formatted into a message are
    left out. *)

(** What [image.Decode(resp.Body)] gives: an error, or an image with its
    bounds [Dx] and [Dy]. *)
Inductive Decoded :=
| DecodeError (e : error)
| Image (dx dy : Z).

(** An HTTP response as [ValidateImage] reads it. *)
Record Response := {
  StatusCode : Z;
  ContentType : string;     (* resp.Header.Get("Content-Type") *)
  Body : Decoded
}.

(** [imageDownloader] with the library calls it makes: [http.NewRequest],
    [httpClient.Do], [mime.ExtensionsByType] and [strings.ToLower]. *)
Record imageDownloader (W : Type) := {
  targetAspect : float;
  aspectTolerance : float;
  width : Z;
  height : Z;
  http_NewRequest : string -> option error;
  httpClient_Do : string -> W -> (error + Response) * W;
  mime_ExtensionsByType : string -> list string * option error;
  imgToLower : string -> string
}.
Arguments targetAspect {W} _.
Arguments aspectTolerance {W} _.
Arguments width {W} _.
Arguments height {W} _.
Arguments http_NewRequest {W} _.
Arguments httpClient_Do {W} _.
Arguments mime_ExtensionsByType {W} _.
Arguments imgToLower {W} _.

(** The conversion [float64(n)] of a Go [int]. *)
Definition float64_of_int (n : Z) : float :=
  if n <? 0 then PrimFloat.opp (PrimFloat.of_uint63 (Uint63.of_Z (- n)))
  else PrimFloat.of_uint63 (Uint63.of_Z n).

(** The map [supported] of [isValidImageType]. *)
Definition supported : gmap string bool :=
  list_to_map [ (".jpg", true); (".jpeg", true); (".png", true);
                (".webp", true); (".gif", true) ].

(** [isValidImageType]. *)
Definition isValidImageType {W} (d : imageDownloader W) (mimeType : string) : bool :=
  let '(ext, err) := mime_ExtensionsByType d mimeType in
  match err with
  | Some _ => false
  | None =>
      if (length ext =? 0)%nat then false
      else existsb (fun e => default false (supported !! imgToLower d e)) ext
  end.

Definition minAspect {W} (d : imageDownloader W) : float :=
  (targetAspect d - targetAspect d * aspectTolerance d)%float.

Definition maxAspect {W} (d : imageDownloader W) : float :=
  (targetAspect d + targetAspect d * aspectTolerance d)%float.

(** [imageDownloader.ValidateImage]: the Go pair [(bool, error)]. *)
Definition ValidateImage {W} (d : imageDownloader W) (imageURL : string)
    : M W (bool * option error) :=
  (match http_NewRequest d imageURL with
   | Some err => ret (false, Some ("error creando petición: " ++ err))
   | None =>
       r <- call (httpClient_Do d imageURL) ;;
       match r with
       | inl err => ret (false, Some ("error descargando imagen: " ++ err))
       | inr resp =>
           if negb (StatusCode resp =? 200) then
             ret (false, Some "código de estado inesperado")
           else if negb (isValidImageType d (ContentType resp)) then
             ret (false, Some ("tipo de imagen no soportado: " ++ ContentType resp))
           else
             match Body resp with
             | DecodeError err =>
                 ret (false, Some ("error decodificando imagen: " ++ err))
             | Image width height =>
                 if (width <? 400) || (height <? 225) then ret (false, None)
                 else
                   let aspectRatio :=
                     (float64_of_int width / float64_of_int height)%float in
                   if PrimFloat.ltb aspectRatio (minAspect d)
                      || PrimFloat.ltb (maxAspect d) aspectRatio
                   then ret (false, None)
                   else ret (true, None)
             end
       end
   end)%go.

(** ** Configuration ([pkg/config/config.go]) *)

(** A value of type [interface{}] read from the YAML file. *)
#[warnings="-register-all"]
Inductive Value :=
| VInt (n : Z)
| VFloat (f : float)
| VString (s : string)
| VBool (b : bool)
| VMap (m : gmap string Value).

Record FiltersConfig := {
  MinTitle : Z;
  MaxTitle : Z;
  FiltersMaxDays : Z;
  MaxDaysForNewsWithFewSources : Z;
  AspectTolerance : float;
  TargetAspect : float
}.

(** A Go map field may be [nil]: [None]. *)
Record Config := {
  NewsCount : option (gmap string Value);
  MaxPerSource : option (gmap string Value);
  MaxDays : option (gmap string Value);
  Filters : FiltersConfig
}.

(** [getIntValueFromNestedMap]: lang.category > lang.default > default. *)
Definition getIntValueFromNestedMap (nestedMap : option (gmap string Value))
    (lang category : string) (fallback : Z) : Z :=
  match nestedMap with
  | None => fallback
  | Some nestedMap =>
      let general :=
        match nestedMap !! "default" with
        | Some (VInt intValue) => intValue
        | _ => fallback
        end in
      match nestedMap !! lang with
      | Some (VMap langMapCast) =>
          match langMapCast !! category with
          | Some (VInt intValue) => intValue
          | _ =>
              match langMapCast !! "default" with
              | Some (VInt intValue) => intValue
              | _ => general
              end
          end
      | _ => general
      end
  end.

Definition GetNewsCount (c : Config) (lang category : string) : Z :=
  getIntValueFromNestedMap (NewsCount c) lang category 10.

Definition GetMaxPerSource (c : Config) (lang category : string) : Z :=
  getIntValueFromNestedMap (MaxPerSource c) lang category 7.

Definition GetMaxDays (c : Config) (lang category : string) : Z :=
  getIntValueFromNestedMap (MaxDays c) lang category 5.

(** ** Text cleaning ([fetch_news.go]) *)

Definition blacklist : list string := ["oróscopo"; "horóscopo"].

(** [regexp.MustCompile("<[^>]*>").ReplaceAllString(text, "")]: from each
    [<] that has a [>] after it, everything up to the first such [>] goes. *)
Fixpoint stripTags (inTag : bool) (text : string) : string :=
  match text with
  | EmptyString => EmptyString
  | String c rest =>
      if inTag then
        if Ascii.eqb c ">" then stripTags false rest else stripTags true rest
      else if Ascii.eqb c "<" && Contains rest ">" then stripTags true rest
      else String c (stripTags false rest)
  end.

(** [strings.ReplaceAll(s, old, new)] for a non-empty [old]; [skip] counts
    the bytes of a match still to be passed over. *)
Fixpoint replaceLoop (old new : string) (skip : nat) (s : string) : string :=
  match s with
  | EmptyString => EmptyString
  | String c rest =>
      match skip with
      | S k => replaceLoop old new k rest
      | O =>
          if HasPrefix s old
          then new ++ replaceLoop old new (String.length old - 1) rest
          else String c (replaceLoop old new 0 rest)
      end
  end.

Definition ReplaceAll (s old new : string) : string := replaceLoop old new 0 s.

(** Width in bytes of the white-space rune at the head of [s], [0] if there
    is none. *)
Definition spaceWidth (s : string) : nat :=
  match s with
  | EmptyString => 0
  | String a r1 =>
      if isSpace1 a then 1
      else match r1 with
           | EmptyString => 0
           | String b r2 =>
               if isSpace2 a b then 2
               else match r2 with
                    | EmptyString => 0
                    | String c _ => if isSpace3 a b c then 3 else 0
                    end
           end
  end%nat.

Definition flush (cur : string) : list string :=
  if nonEmpty cur then [cur] else [].

(** [strings.Fields(s)]. *)
Fixpoint fieldsLoop (skip : nat) (cur : string) (s : string) : list string :=
  match s with
  | EmptyString => flush cur
  | String c rest =>
      match skip with
      | S k => fieldsLoop k cur rest
      | O =>
          match spaceWidth s with
          | O => fieldsLoop 0 (cur ++ String c EmptyString) rest
          | S k => flush cur ++ fieldsLoop k EmptyString rest
          end
      end
  end.

Definition Fields (s : string) : list string := fieldsLoop 0 EmptyString s.

(** [strings.Join(elems, sep)]. *)
Fixpoint Join (elems : list string) (sep : string) : string :=
  match elems with
  | [] => EmptyString
  | [e] => e
  | e :: rest => e ++ sep ++ Join rest sep
  end.

Definition dquote : string := String (byte 34) EmptyString.

(** [cleanText]. *)
Definition cleanText (text : string) : string :=
  let text := stripTags false text in
  let text := ReplaceAll text "&nbsp;" " " in
  let text := ReplaceAll text "&#160;" " " in
  let text := ReplaceAll text "&amp;" "&" in
  let text := ReplaceAll text "&quot;" dquote in
  let text := ReplaceAll text "&#39;" "'" in
  let text := ReplaceAll text "&lt;" "<" in
  let text := ReplaceAll text "&gt;" ">" in
  let text := ReplaceAll text "&apos;" "'" in
  let text := Join (Fields text) " " in
  TrimSpace text.

(** [isBlacklisted]; [toLower] is [strings.ToLower]. *)
Definition isBlacklisted (toLower : string -> string) (title : string) : bool :=
  let title := toLower title in
  existsb (fun word => Contains title word) blacklist.

(** [getString]. *)
Definition getString (ptr : option string) : string :=
  match ptr with
  | Some s => s
  | None => ""
  end.

(** ** Interfaces of package [domain]

    A Go call returning [(x, err)] gives the pair as it is; a pointer that may
    be [nil] is an [option]. *)

Module iface.

Record NewsItemRepository (W : Type) := {
  Create : domain.NewsItem -> W -> option error * W;
  DeleteOlderThan : Time -> W -> option error * W
}.

Record NewsSourceRepository (W : Type) := {
  FindByID : Z -> W -> (option domain.NewsSource * option error) * W;
  ListActive : W -> (list domain.NewsSource * option error) * W
}.

Record FallbackImageRepository (W : Type) := {
  GetByCategoryAndLang :
    string -> string -> W -> (option domain.FallbackImage * option error) * W
}.

Record RSSFetcher (W : Type) := {
  Fetch : string -> string -> string -> string -> string -> string ->
          W -> (list domain.NewsItem * option error) * W
}.

Record ImageDownloader (W : Type) := {
  ValidateImage : string -> W -> (bool * option error) * W
}.

Arguments Create {W} _. Arguments DeleteOlderThan {W} _.
Arguments FindByID {W} _. Arguments ListActive {W} _.
Arguments GetByCategoryAndLang {W} _.
Arguments Fetch {W} _. Arguments ValidateImage {W} _.

End iface.

(** ** Admission pipeline ([fetch_news.go]) *)

(** [FetchNewsUseCase], with the library calls of its methods:
    [time.Now], [strings.ToLower], and the test
    [os.IsNotExist(os.Stat(filepath.Join(getProjectRoot(), "frontend",
    "assets", "images", "fallback", filepath.Base(imagen))))].  The last
    stands for the search of [getProjectRoot] in the file system and for the
    [os.Stat] after it; the entries that [getProjectRoot] writes with
    [utils.AppError] when it finds no project root are not in the log of the
    model, which therefore says nothing of the log on this path. *)
Record FetchNewsUseCase (W : Type) := {
  newsItemRepo : iface.NewsItemRepository W;
  newsSourceRepo : iface.NewsSourceRepository W;
  fallbackImageRepo : iface.FallbackImageRepository W;
  rssFetcher_ : iface.RSSFetcher W;
  imageDownloader_ : iface.ImageDownloader W;
  config : Config;
  time_Now : W -> Time * W;
  strings_ToLower : string -> string;
  fallbackFileIsNotExist : string -> W -> bool * W
}.
Arguments newsItemRepo {W} _.
Arguments newsSourceRepo {W} _.
Arguments fallbackImageRepo {W} _.
Arguments rssFetcher_ {W} _.
Arguments imageDownloader_ {W} _.
Arguments config {W} _.
Arguments time_Now {W} _.
Arguments strings_ToLower {W} _.
Arguments fallbackFileIsNotExist {W} _.

(** Signed 64-bit wrap-around of Go's [int64] arithmetic. *)
Definition wrap64 (z : Z) : Z := (z + 2 ^ 63) mod 2 ^ 64 - 2 ^ 63.

Definition minDuration : Duration := - 2 ^ 63.
Definition maxDuration : Duration := 2 ^ 63 - 1.

(** [t.Sub(u)]: the difference, saturated to the range of [Duration]. *)
Definition Sub (t u : Time) : Duration :=
  Z.max minDuration (Z.min maxDuration (t - u)).

(** [time.Since(t)]. *)
Definition Since {W} (uc : FetchNewsUseCase W) (t : Time) : M W Duration :=
  (now <- call (time_Now uc) ;; ret (Sub now t))%go.

Definition Hour : Duration := 3600 * 1000000000.

(** [time.Duration(maxDays)*24*time.Hour]. *)
Definition maxAge (maxDays : Z) : Duration := wrap64 (wrap64 (maxDays * 24) * Hour).

(** The age test of the candidate loop, by the clock reading and the date
    of the candidate:
    [time.Since(fecha) > time.Duration(maxDays)*24*time.Hour]. *)
Definition exceedsMaxAge (maxDays : Z) (now fecha : Time) : bool :=
  Sub now fecha >? maxAge maxDays.

(** The conversion [int(f)] of a [float64]: truncation; outside the range of
    [int] the result is the one of the amd64 conversion instruction. *)
Definition int_of_float64 (f : float) : Z :=
  match Prim2SF f with
  | S754_zero _ => 0
  | S754_finite s m e =>
      let v := if 0 <=? e then Z.pos m * 2 ^ e else Z.quot (Z.pos m) (2 ^ (- e)) in
      let v := if s then - v else v in
      if (- 2 ^ 63 <=? v) && (v <? 2 ^ 63) then v else - 2 ^ 63
  | _ => - 2 ^ 63
  end.

(** [uc.getNewsCount]. *)
Definition getNewsCount {W} (uc : FetchNewsUseCase W) (lang cat : string) : Z :=
  match NewsCount (config uc) with
  | None => 10
  | Some newsCount =>
      let general :=
        match newsCount !! "default" with
        | Some (VInt i) => i
        | Some (VFloat f) => int_of_float64 f
        | _ => 10
        end in
      match newsCount !! lang with
      | Some (VMap m) =>
          match m !! cat with
          | Some (VInt i) => i
          | Some (VFloat f) => int_of_float64 f
          | _ =>
              match m !! "default" with
              | Some (VInt i) => i
              | Some (VFloat f) => int_of_float64 f
              | _ => general
              end
          end
      | _ => general
      end
  end.

(** [uc.cleanOldNews]. *)
Definition cleanOldNews {W} (uc : FetchNewsUseCase W) : M W (option error) :=
  (now <- call (time_Now uc) ;;
   err <- call (iface.DeleteOlderThan (newsItemRepo uc) now) ;;
   match err with
   | Some e => ret (Some ("error limpiando noticias de la BD: " ++ e))
   | None => ret None
   end)%go.

(** [uc.getFallbackImage]. *)
Definition getFallbackImage {W} (uc : FetchNewsUseCase W)
    (categoryCode languageCode : string) : M W string :=
  (r <- call (iface.GetByCategoryAndLang (fallbackImageRepo uc) categoryCode languageCode) ;;
   match r with
   | (_, Some _) => ret ""
   | (None, None) => ret ""
   | (Some fallbackImage, None) =>
       ret ("/images/fallback/" ++ domain.Filename fallbackImage)
   end)%go.

(** What the body of the candidate loop does with one candidate: it leaves by
    one of the [continue]s with a reason, or by the [continue] after a failed
    [Create], or it reaches the end with the stored item. *)
Inductive Verdict :=
| Discarded (r : Reason)
| StorageFailed (e : error)
| Accepted (newsItem : domain.NewsItem).

(** The two loops log the same reasons under different headings. *)
Inductive Heading :=
| NewsLog (cat lang : string)      (* Execute: utils.NewsWarn / utils.NewsError *)
| SourceLog.                       (* ExecuteForSource: "FETCH_NEWS_SOURCE" *)

Definition isImageError (r : Reason) : bool :=
  match r with RImageError _ => true | _ => false end.

Definition report {W} (h : Heading) (title : string) (r : Reason) : M W unit :=
  match h with
  | NewsLog cat lang =>
      if isImageError r then logEv (EvNewsError cat lang title r)
      else logEv (EvNewsWarn cat lang title r)
  | SourceLog => logEv (EvAppDiscard "FETCH_NEWS_SOURCE" title r)
  end.

Definition reportStorage {W} (h : Heading) (title : string) (e : error) : M W unit :=
  match h with
  | NewsLog cat lang => logEv (EvStorageError cat lang title e)
  | SourceLog => logEv (EvAppError "FETCH_NEWS_SOURCE" "Error guardando noticia" e)
  end.

Definition discard {W} (h : Heading) (title : string) (r : Reason) : M W Verdict :=
  (report h title r ;;; ret (Discarded r))%go.

(** The body of the candidate loop, from [titulo := item.Title] to
    [newsItemRepo.Create]; the text is the same in [Execute] and in
    [ExecuteForSource]. *)
Definition admitCandidate {W} (uc : FetchNewsUseCase W) (h : Heading)
    (cat lang : string) (maxDays : Z) (src : domain.NewsSource)
    (linksVistos titulosVistos : gset string) (item : domain.NewsItem)
    : M W Verdict :=
  (let titulo := domain.Title item in
   let imagen := domain.Image item in
   let link := domain.Link item in
   let fecha := domain.PubDate item in
   let tituloLimpio := cleanText titulo in
   if isBlacklisted (strings_ToLower uc) tituloLimpio then
     discard h tituloLimpio RBlacklisted
   else if (len tituloLimpio <? MinTitle (Filters (config uc)))
           || (len tituloLimpio >? MaxTitle (Filters (config uc))) then
     discard h tituloLimpio (RTitleLength (len tituloLimpio))
   else if bool_decide (link ∈ linksVistos) then
     discard h tituloLimpio RDuplicateLink
   else if bool_decide (tituloLimpio ∈ titulosVistos) then
     discard h tituloLimpio RDuplicateTitle
   else
     antiguedad <- Since uc fecha ;;
     if antiguedad >? maxAge maxDays then
       discard h tituloLimpio (RTooOld maxDays)
     else
       resolved <-
         (if negb (nonEmpty imagen) then
            if Contains (getString (domain.Filter src)) "no_image" then
              fallbackImage <- getFallbackImage uc cat lang ;;
              if nonEmpty fallbackImage then ret (inr fallbackImage)
              else ret (inl RNoFallback)
            else ret (inl RNoImage)
          else ret (inr imagen)) ;;
       match resolved with
       | inl r => discard h tituloLimpio r
       | inr imagen =>
           qualified <-
             (if negb (Contains imagen "/images/fallback/") then
                r <- call (iface.ValidateImage (imageDownloader_ uc) imagen) ;;
                match r with
                | (_, Some err) => ret (Some (RImageError err))
                | (false, None) => ret (Some RImageInvalid)
                | (true, None) => ret None
                end
              else
                missing <- call (fallbackFileIsNotExist uc imagen) ;;
                if missing then ret (Some RFallbackMissing) else ret None) ;;
           match qualified with
           | Some r => discard h tituloLimpio r
           | None =>
               let newsItem :=
                 {| domain.SourceID := domain.ID src;
                    domain.Source := Some src;
                    domain.Title := tituloLimpio;
                    domain.Link := link;
                    domain.Image := imagen;
                    domain.PubDate := fecha;
                    domain.ItemLangCode := lang;
                    domain.ItemCategoryCode := cat |} in
               err <- call (iface.Create (newsItemRepo uc) newsItem) ;;
               match err with
               | Some e => reportStorage h tituloLimpio e ;;; ret (StorageFailed e)
               | None => ret (Accepted newsItem)
               end
           end
       end)%go.

(** The state that [Execute] keeps for one group while it goes through the
    sources of the group. *)
Record GroupState := mkGroup {
  noticias : list domain.NewsItem;
  linksVistos : gset string;
  titulosVistos : gset string;
  descartadas : Z;
  sourceCounts : gmap string Z
}.

Definition emptyGroup : GroupState := mkGroup [] ∅ ∅ 0 ∅.

(** [sourceCounts[name]]: a missing key reads as [0]. *)
Definition sourceCount (g : GroupState) (name : string) : Z :=
  default 0 (sourceCounts g !! name).

(** The assignments after the candidate body, by the way the body was left. *)
Definition applyVerdict (src : domain.NewsSource) (g : GroupState) (v : Verdict)
    : GroupState :=
  match v with
  | Discarded _ =>
      mkGroup (noticias g) (linksVistos g) (titulosVistos g) (descartadas g + 1)
        (sourceCounts g)
  | StorageFailed _ => g
  | Accepted newsItem =>
      mkGroup (noticias g ++ [newsItem])
        ({[ domain.Link newsItem ]} ∪ linksVistos g)
        ({[ domain.Title newsItem ]} ∪ titulosVistos g)
        (descartadas g)
        (<[ domain.SourceName src := sourceCount g (domain.SourceName src) + 1 ]>
           (sourceCounts g))
  end.

Definition countVerdict (sourceValidCount : Z) (v : Verdict) : Z :=
  match v with
  | Accepted _ => sourceValidCount + 1
  | _ => sourceValidCount
  end.

(** The loop [for _, item := range feedItems] of [Execute]. *)
Fixpoint processItems {W} (uc : FetchNewsUseCase W) (cat lang : string)
    (tope maxDays maxPerSource : Z) (src : domain.NewsSource)
    (feedItems : list domain.NewsItem) (g : GroupState) (sourceValidCount : Z)
    : M W (GroupState * Z) :=
  match feedItems with
  | [] => ret (g, sourceValidCount)
  | item :: rest =>
      (if Z.of_nat (length (noticias g)) >=? tope then
         logEv (EvLimitReached cat lang) ;;; ret (g, sourceValidCount)
       else if sourceCount g (domain.SourceName src) >=? maxPerSource then
         logEv (EvSourceLimitReached (domain.SourceName src) maxPerSource) ;;;
         ret (g, sourceValidCount)
       else
         v <- admitCandidate uc (NewsLog cat lang) cat lang maxDays src
                (linksVistos g) (titulosVistos g) item ;;
         (match v with
          | Accepted newsItem =>
              logEv (EvNewsAdded cat lang (domain.Title newsItem)
                       (domain.SourceName src) (S (length (noticias g))))
          | _ => ret tt
          end) ;;;
         processItems uc cat lang tope maxDays maxPerSource src rest
           (applyVerdict src g v) (countVerdict sourceValidCount v))%go
  end.

(** The call [uc.rssFetcher.Fetch(ctx, src.RSSURL, getString(src.Filter), ...)]. *)
Definition fetchSource {W} (uc : FetchNewsUseCase W) (src : domain.NewsSource)
    : M W (list domain.NewsItem * option error) :=
  call (iface.Fetch (rssFetcher_ uc) (domain.RSSURL src)
          (getString (domain.Filter src)) (getString (domain.TitleField src))
          (getString (domain.ImageField src)) (getString (domain.LinkField src))
          (getString (domain.CampoFecha src))).

(** The loop [for _, src := range groupSources] of [Execute]. *)
Fixpoint processSources {W} (uc : FetchNewsUseCase W) (cat lang : string)
    (tope maxDays : Z) (groupSources : list domain.NewsSource) (g : GroupState)
    : M W GroupState :=
  match groupSources with
  | [] => ret g
  | src :: rest =>
      (r <- fetchSource uc src ;;
       match r with
       | (_, Some err) =>
           logEv (EvSourceError (domain.RSSURL src) err) ;;;
           processSources uc cat lang tope maxDays rest g
       | (feedItems, None) =>
           let maxPerSource := GetMaxPerSource (config uc) lang cat in
           r <- processItems uc cat lang tope maxDays maxPerSource src feedItems g 0 ;;
           let '(g', sourceValidCount) := r in
           (if sourceValidCount =? 0 then logEv (EvNoValidNews (domain.SourceName src))
            else ret tt) ;;;
           if Z.of_nat (length (noticias g')) >=? tope then ret g'
           else processSources uc cat lang tope maxDays rest g'
       end)%go
  end.

(** The maximum age that [Execute] computes for a group. *)
Definition groupMaxDays {W} (uc : FetchNewsUseCase W) (lang cat : string)
    (groupSources : list domain.NewsSource) : Z :=
  let maxDays := GetMaxDays (config uc) lang cat in
  if (length groupSources <=? 3)%nat then
    let extendedDays := MaxDaysForNewsWithFewSources (Filters (config uc)) in
    if extendedDays >? maxDays then extendedDays else maxDays
  else maxDays.

(** The body of the loop [for key, groupSources := range groups]; [None] is
    the [continue] for a key that does not split in two. *)
Definition processGroup {W} (uc : FetchNewsUseCase W) (key : string)
    (groupSources : list domain.NewsSource) : M W (option GroupState) :=
  match SplitN2 key "_" with
  | [cat; lang] =>
      (let tope := getNewsCount uc lang cat in
       let maxDays := groupMaxDays uc lang cat groupSources in
       g <- processSources uc cat lang tope maxDays groupSources emptyGroup ;;
       ret (Some g))%go
  | _ => ret None
  end.

(** The map [groups], filled in the order of [sources]. *)
Definition groupKey (src : domain.NewsSource) : string :=
  domain.CategoryCode src ++ "_" ++ domain.LangCode src.

Definition addToGroup (groups : gmap string (list domain.NewsSource))
    (src : domain.NewsSource) : gmap string (list domain.NewsSource) :=
  <[ groupKey src := (default [] (groups !! groupKey src) ++ [src])%list ]> groups.

Definition groupSources (sources : list domain.NewsSource)
    : gmap string (list domain.NewsSource) :=
  fold_left addToGroup sources ∅.

(** The loop over the groups, in the order [visit] in which the map is
    ranged over; the result lists what each group ended with. *)
Fixpoint processGroups {W} (uc : FetchNewsUseCase W)
    (visit : list (string * list domain.NewsSource))
    : M W (list (string * option GroupState)) :=
  match visit with
  | [] => ret []
  | (key, srcs) :: rest =>
      (g <- processGroup uc key srcs ;;
       gs <- processGroups uc rest ;;
       ret ((key, g) :: gs))%go
  end.

(** Go ranges over a map in an order it does not specify: [range_] gives the
    order for the run at hand. *)
Definition MapOrder : Type :=
  gmap string (list domain.NewsSource) -> list (string * list domain.NewsSource).

(** [Execute] from [sources, err := uc.newsSourceRepo.ListActive(ctx)] on. *)
Definition listAndProcess {W} (uc : FetchNewsUseCase W) (range_ : MapOrder)
    : M W (option error * list (string * option GroupState)) :=
  (r <- call (iface.ListActive (newsSourceRepo uc)) ;;
   match r with
   | (_, Some e) =>
       ret (Some ("error al obtener las fuentes de noticias: " ++ e), [])
   | (sources, None) =>
       gs <- processGroups uc (range_ (groupSources sources)) ;;
       ret (None, gs)
   end)%go.

(** The warning that [Execute] logs when the purge fails. *)
Definition purgeWarning (e : error) : Event :=
  EvAppWarn "FETCH_NEWS" "Error limpiando noticias anteriores" e.

(** The start of [Execute]: the purge, whose error is only logged. *)
Definition purge {W} (uc : FetchNewsUseCase W) : M W unit :=
  (err <- cleanOldNews uc ;;
   match err with
   | Some e => logEv (purgeWarning e)
   | None => ret tt
   end)%go.

(** [FetchNewsUseCase.Execute], with the final state of every group next to
    the returned error. *)
Definition ExecuteGroups {W} (uc : FetchNewsUseCase W) (range_ : MapOrder)
    : M W (option error * list (string * option GroupState)) :=
  (purge uc ;;; listAndProcess uc range_)%go.

Definition Execute {W} (uc : FetchNewsUseCase W) (range_ : MapOrder)
    : M W (option error) :=
  (r <- ExecuteGroups uc range_ ;; ret (fst r))%go.

(** The loop [for _, item := range feedItems] of [ExecuteForSource]. *)
Fixpoint processSourceItems {W} (uc : FetchNewsUseCase W) (cat lang : string)
    (maxDays maxPerSource : Z) (source : domain.NewsSource)
    (feedItems : list domain.NewsItem) (extractedCount : Z)
    (linksVistos titulosVistos : gset string) (stored : list domain.NewsItem)
    : M W (list domain.NewsItem) :=
  match feedItems with
  | [] => ret stored
  | item :: rest =>
      (if extractedCount >=? maxPerSource then ret stored
       else
         v <- admitCandidate uc SourceLog cat lang maxDays source
                linksVistos titulosVistos item ;;
         match v with
         | Accepted newsItem =>
             processSourceItems uc cat lang maxDays maxPerSource source rest
               (extractedCount + 1)
               ({[ domain.Link newsItem ]} ∪ linksVistos)
               ({[ domain.Title newsItem ]} ∪ titulosVistos)
               (stored ++ [newsItem])
         | _ =>
             processSourceItems uc cat lang maxDays maxPerSource source rest
               extractedCount linksVistos titulosVistos stored
         end)%go
  end.

(** [FetchNewsUseCase.ExecuteForSource], with the items it stored next to the
    returned error. *)
Definition ExecuteForSourceItems {W} (uc : FetchNewsUseCase W) (sourceID : Z)
    : M W (option error * list domain.NewsItem) :=
  (r <- call (iface.FindByID (newsSourceRepo uc) sourceID) ;;
   match r with
   | (_, Some e) => ret (Some ("error al obtener la fuente: " ++ e), [])
   | (None, None) => ret (Some "fuente no encontrada", [])
   | (Some source, None) =>
       let cat := domain.CategoryCode source in
       let lang := domain.LangCode source in
       let maxDays := GetMaxDays (config uc) lang cat in
       let maxPerSource := GetMaxPerSource (config uc) lang cat in
       r <- fetchSource uc source ;;
       match r with
       | (_, Some e) => ret (Some ("error obteniendo RSS: " ++ e), [])
       | (feedItems, None) =>
           stored <- processSourceItems uc cat lang maxDays maxPerSource source
                       feedItems 0 ∅ ∅ [] ;;
           ret (None, stored)
       end
   end)%go.

Definition ExecuteForSource {W} (uc : FetchNewsUseCase W) (sourceID : Z)
    : M W (option error) :=
  (r <- ExecuteForSourceItems uc sourceID ;; ret (fst r))%go.

(** ** Pattern detector ([page_handlers.go]) *)

Record Handler (W : Type) := { RSSFetcher : iface.RSSFetcher W }.
Arguments RSSFetcher {W} _.

(** The test of [testPatternsWithImage] on one item. *)
Definition validWithImage (item : domain.NewsItem) : bool :=
  nonEmpty (domain.Title item) && nonEmpty (domain.Link item)
  && nonEmpty (domain.Image item) && (len (domain.Title item) >? 10).

(** The test of [testPatternsWithoutImage] on one item. *)
Definition validWithoutImage (item : domain.NewsItem) : bool :=
  nonEmpty (domain.Title item) && nonEmpty (domain.Link item)
  && (len (domain.Title item) >? 10).

(** [validItems] after the inner loop. *)
Definition countValid (valid : domain.NewsItem -> bool) (items : list domain.NewsItem) : Z :=
  fold_left (fun validItems item => if valid item then validItems + 1 else validItems)
    items 0.

(** [err == nil]. *)
Definition isNil (err : option error) : bool :=
  match err with None => true | Some _ => false end.

(** [h.testPatternsWithImage]. *)
Fixpoint testPatternsWithImage {W} (h : Handler W) (rssURL : string)
    (patterns : list string) : M W (string * option error) :=
  match patterns with
  | [] => ret ("", Some "no se encontró patrón válido con imagen")
  | pattern :: rest =>
      (r <- call (iface.Fetch (RSSFetcher h) rssURL pattern "" "" "" "") ;;
       let '(items, err) := r in
       if isNil err
          && (0 <? Z.of_nat (length items))
          && (countValid validWithImage items >=? 2)
       then ret (pattern, None)
       else testPatternsWithImage h rssURL rest)%go
  end.

(** [h.testPatternsWithoutImage]. *)
Fixpoint testPatternsWithoutImage {W} (h : Handler W) (rssURL : string)
    (patterns : list string) : M W (string * option error) :=
  match patterns with
  | [] => ret ("", Some "no se encontró patrón válido sin imagen")
  | pattern :: rest =>
      (r <- call (iface.Fetch (RSSFetcher h) rssURL pattern "" "" "" "") ;;
       let '(items, err) := r in
       if isNil err
          && (0 <? Z.of_nat (length items))
          && (countValid validWithoutImage items >=? 2)
       then ret (pattern, None)
       else testPatternsWithoutImage h rssURL rest)%go
  end.

(** [h.detectBestPattern]. *)
Definition detectBestPattern {W} (h : Handler W) (rssURL : string)
    : M W (string * option error) :=
  (let rssURL := TrimSpace rssURL in
   let patternsWithImage := ["patron1"; "patron2"; "patron3"] in
   r <- testPatternsWithImage h rssURL patternsWithImage ;;
   let '(bestPattern, err) := r in
   if isNil err && nonEmpty bestPattern then ret (bestPattern, None)
   else
     let patternsWithoutImage :=
       ["patron1_no_image"; "patron2_no_image"; "patron3_no_image"] in
     r <- testPatternsWithoutImage h rssURL patternsWithoutImage ;;
     let '(bestPattern, err) := r in
     if isNil err && nonEmpty bestPattern then ret (bestPattern, None)
     else ret ("", Some "no se pudo detectar un patrón válido para esta URL"))%go.

(* ================================================================== *)
(** * The specification's wording

    Definitions that follow the sentences of the specification, to be
    compared with the functions above. *)
(* ================================================================== *)

Module Spec.

(** "[enclosure] (first enclosure whose declared type starts with
    [image/])". *)
Fixpoint firstImageEnclosure (enclosures : list gofeed.Enclosure)
    : option gofeed.Enclosure :=
  match enclosures with
  | [] => None
  | e :: rest =>
      if HasPrefix (gofeed.Type_ e) "image/" then Some e else firstImageEnclosure rest
  end.

(** "[description_img] (first [<img src="...">] substring found via a
    minimal linear scan ...)"; "malformed [<img>] tags (missing [src=] or
    unbalanced quote) yield empty string without raising an error". *)
Definition descriptionImg (description : string) : string :=
  match extractImgFromDescription description with
  | Returns url => url
  | Panics _ => ""
  end.

(** Field extractor: what one syntactic field yields on an entry; "unknown
    field names yield empty string". *)
Definition fieldValue {W} (tm : TimePkg W) (item : gofeed.Item) (f : string)
    : outcome string :=
  if String.eqb f "title" then Returns (gofeed.Title item)
  else if String.eqb f "media:content" then Returns (getMediaContent item)
  else if String.eqb f "media:thumbnail" then Returns (getMediaThumbnail item)
  else if String.eqb f "enclosure" then
    match firstImageEnclosure (gofeed.Enclosures item) with
    | Some e => Returns (gofeed.URL e)
    | None => Returns ""
    end
  else if String.eqb f "description_img" then
    Returns (descriptionImg (gofeed.Description item))
  else if String.eqb f "link" then Returns (gofeed.Link item)
  else if String.eqb f "pubDate" then
    match gofeed.PublishedParsed item with
    | Some t => Returns (Format_RFC3339 tm t)
    | None =>
        match gofeed.UpdatedParsed item with
        | Some t => Returns (Format_RFC3339 tm t)
        | None => Returns ""
        end
    end
  else Returns "".

(** "For each alternative in order, attempt extraction; return the first
    non-empty result; return empty string if all fail." *)
Fixpoint firstNonEmpty {W} (tm : TimePkg W) (item : gofeed.Item)
    (alternatives : list string) : outcome string :=
  match alternatives with
  | [] => Returns ""
  | f :: rest =>
      match fieldValue tm item (TrimSpace f) with
      | Panics msg => Panics msg
      | Returns v => if nonEmpty v then Returns v else firstNonEmpty tm item rest
      end
  end.

Definition extract {W} (tm : TimePkg W) (item : gofeed.Item) (fieldSpec : string)
    : outcome string :=
  firstNonEmpty tm item (Split fieldSpec "|").

(** "try explicit/pattern date field parsed against a strict timestamp
    format; on parse failure fall back to the entry's own parsed publish
    time, then update time, then current wall-clock time". *)
Definition dateOf {W} (tm : TimePkg W) (dateStr : string) (item : gofeed.Item)
    : M W Time :=
  match Parse_RFC3339 tm dateStr with
  | Some t => ret t
  | None =>
      match gofeed.PublishedParsed item with
      | Some t => ret t
      | None =>
          match gofeed.UpdatedParsed item with
          | Some t => ret t
          | None => call (Now tm)
          end
      end
  end.

Definition resolveDate {W} (tm : TimePkg W) (filter dateField : string)
    (item : gofeed.Item) : M W (outcome Time) :=
  let field := if nonEmpty dateField then dateField else PDateField (patternOf filter) in
  match extractFieldFromItem tm item field with
  | Panics msg => ret (Panics msg)
  | Returns dateStr => (t <- dateOf tm dateStr item ;; ret (Returns t))%go
  end.

(** Quota resolution: "lang.category → lang.default → global default". *)
Definition intAt (m : gmap string Value) (k : string) : option Z :=
  match m !! k with
  | Some (VInt n) => Some n
  | _ => None
  end.

Definition mapAt (m : gmap string Value) (k : string) : option (gmap string Value) :=
  match m !! k with
  | Some (VMap m') => Some m'
  | _ => None
  end.

Fixpoint firstSome {A} (l : list (option A)) : option A :=
  match l with
  | [] => None
  | Some a :: _ => Some a
  | None :: rest => firstSome rest
  end.

Definition fallbackChain (nested : option (gmap string Value))
    (lang category : string) (fallback : Z) : Z :=
  default fallback
    (firstSome [ (m ← nested; langMap ← mapAt m lang; intAt langMap category);
                 (m ← nested; langMap ← mapAt m lang; intAt langMap "default");
                 (m ← nested; intAt m "default") ]).

(** "if the group has ≤3 active sources, the max of this value and a
    separate few-sources extended-age threshold is used instead". *)
Definition effectiveMaxDays (c : Config) (lang category : string)
    (activeSources : nat) : Z :=
  let base := fallbackChain (MaxDays c) lang category 5 in
  if (activeSources <=? 3)%nat
  then Z.max base (MaxDaysForNewsWithFewSources (Filters c))
  else base.

(** Admission: a candidate as it moves through the checks. *)
Record Cand := mkCand {
  cTitle : string;      (* the cleaned title *)
  cLink : string;
  cImage : string;
  cDate : Time
}.

(** A check passes the candidate on, or fails with a reason. *)
Definition Check (W : Type) : Type := Cand -> M W (Reason + Cand).

(** "[now − pubDate] must not exceed [maxDays]": the candidate is older than
    [maxDays] days of 24 hours. *)
Definition olderThan (maxDays : Z) (now pubDate : Time) : bool :=
  now - pubDate >? maxDays * (24 * Hour).

Section Checks.
Context {W : Type} (uc : FetchNewsUseCase W).
Variables (cat lang : string) (maxDays : Z) (src : domain.NewsSource).
Variables (linksSeen titlesSeen : gset string).

(** The age test of the fifth check, by the current time and the date of
    the candidate: [olderThan maxDays] in the words of the specification. *)
Variable tooOld : Time -> Time -> bool.

(** 1. Blacklist check. *)
Definition blacklistCheck : Check W := fun c =>
  if isBlacklisted (strings_ToLower uc) (cTitle c)
  then ret (inl RBlacklisted) else ret (inr c).

(** 2. Length check. *)
Definition lengthCheck : Check W := fun c =>
  if (MinTitle (Filters (config uc)) <=? len (cTitle c))
     && (len (cTitle c) <=? MaxTitle (Filters (config uc)))
  then ret (inr c) else ret (inl (RTitleLength (len (cTitle c)))).

(** 3. Link-duplicate check. *)
Definition linkDuplicateCheck : Check W := fun c =>
  if bool_decide (cLink c ∈ linksSeen)
  then ret (inl RDuplicateLink) else ret (inr c).

(** 4. Title-duplicate check. *)
Definition titleDuplicateCheck : Check W := fun c =>
  if bool_decide (cTitle c ∈ titlesSeen)
  then ret (inl RDuplicateTitle) else ret (inr c).

(** 5. Age check. *)
Definition ageCheck : Check W := fun c =>
  (now <- call (time_Now uc) ;;
   if tooOld now (cDate c) then ret (inl (RTooOld maxDays)) else ret (inr c))%go.

(** 6. Image presence, with fallback resolution for no-image patterns. *)
Definition imagePresenceCheck : Check W := fun c =>
  (if nonEmpty (cImage c) then ret (inr c)
   else if Contains (getString (domain.Filter src)) "no_image" then
     fallback <- getFallbackImage uc cat lang ;;
     if nonEmpty fallback
     then ret (inr (mkCand (cTitle c) (cLink c) fallback (cDate c)))
     else ret (inl RNoFallback)
   else ret (inl RNoImage))%go.

(** 7. Image qualification. *)
Definition imageQualificationCheck : Check W := fun c =>
  (if Contains (cImage c) "/images/fallback/" then
     missing <- call (fallbackFileIsNotExist uc (cImage c)) ;;
     if missing then ret (inl RFallbackMissing) else ret (inr c)
   else
     r <- call (iface.ValidateImage (imageDownloader_ uc) (cImage c)) ;;
     match r with
     | (_, Some err) => ret (inl (RImageError err))
     | (false, None) => ret (inl RImageInvalid)
     | (true, None) => ret (inr c)
     end)%go.

(** The seven checks, in the order of the specification. *)
Definition admissionChecks : list (Check W) :=
  [ blacklistCheck; lengthCheck; linkDuplicateCheck; titleDuplicateCheck;
    ageCheck; imagePresenceCheck; imageQualificationCheck ].

(** The item that is stored for a candidate that passed. *)
Definition itemOf (c : Cand) : domain.NewsItem :=
  {| domain.SourceID := domain.ID src;
     domain.Source := Some src;
     domain.Title := cTitle c;
     domain.Link := cLink c;
     domain.Image := cImage c;
     domain.PubDate := cDate c;
     domain.ItemLangCode := lang;
     domain.ItemCategoryCode := cat |}.

End Checks.

(** "evaluated in this exact order (first failing check discards the
    candidate and records a reason)". *)
Fixpoint firstFailure {W} (checks : list (Check W)) (c : Cand)
    : M W (Reason + Cand) :=
  match checks with
  | [] => ret (inr c)
  | check :: rest =>
      (r <- check c ;;
       match r with
       | inl reason => ret (inl reason)
       | inr c' => firstFailure rest c'
       end)%go
  end.

Definition candOf (item : domain.NewsItem) : Cand :=
  mkCand (cleanText (domain.Title item)) (domain.Link item)
    (domain.Image item) (domain.PubDate item).

(** The candidate loop body: the checks in order, then the store. *)
Definition admission {W} (uc : FetchNewsUseCase W) (h : Heading) (cat lang : string)
    (maxDays : Z) (src : domain.NewsSource) (linksSeen titlesSeen : gset string)
    (tooOld : Time -> Time -> bool) (item : domain.NewsItem) : M W Verdict :=
  (r <- firstFailure (admissionChecks uc cat lang maxDays src linksSeen titlesSeen tooOld)
         (candOf item) ;;
   match r with
   | inl reason => discard h (cleanText (domain.Title item)) reason
   | inr c =>
       err <- call (iface.Create (newsItemRepo uc) (itemOf cat lang src c)) ;;
       match err with
       | Some e =>
           reportStorage h (cleanText (domain.Title item)) e ;;; ret (StorageFailed e)
       | None => ret (Accepted (itemOf cat lang src c))
       end
   end)%go.

(** Image qualifier: the aspect ratio is "outside
    [[targetAspect·(1−tolerance), targetAspect·(1+tolerance)]]" or lies
    within it. *)
Definition band {W} (d : imageDownloader W) : float * float :=
  ((targetAspect d * (1 - aspectTolerance d))%float,
   (targetAspect d * (1 + aspectTolerance d))%float).

Definition liesWithin (lo hi ratio : float) : bool :=
  PrimFloat.leb lo ratio && PrimFloat.leb ratio hi.

(** The characters of a text: the code points of its UTF-8 encoding, that
    is, its bytes other than the continuation bytes [10xxxxxx]. *)
Fixpoint characters (s : string) : Z :=
  match s with
  | EmptyString => 0
  | String b rest =>
      (if ((128 <=? code b) && (code b <? 192))%N then 0 else 1) + characters rest
  end.

(** Pattern detector: "a pattern passes if fetching with it yields at least
    2 candidates having non-empty title (>10 chars), non-empty link, and
    non-empty image"; the no-image variants omit the image requirement.
    [size] measures a title: [characters] in the words of the
    specification. *)
Definition goodCandidate (size : string -> Z) (needImage : bool)
    (item : domain.NewsItem) : bool :=
  nonEmpty (domain.Title item) && (10 <? size (domain.Title item))
  && nonEmpty (domain.Link item)
  && (if needImage then nonEmpty (domain.Image item) else true).

Definition passes (size : string -> Z) (needImage : bool)
    (r : list domain.NewsItem * option error) : bool :=
  isNil (snd r)
  && (2 <=? length (filter (fun i => goodCandidate size needImage i = true) (fst r)))%nat.

Definition probingOrder : list (string * bool) :=
  [ ("patron1", true); ("patron2", true); ("patron3", true);
    ("patron1_no_image", false); ("patron2_no_image", false);
    ("patron3_no_image", false) ].

(** "The first passing pattern (in probing order) is returned". *)
Fixpoint firstPassing {W} (size : string -> Z) (h : Handler W) (url : string)
    (probes : list (string * bool)) : M W (option string) :=
  match probes with
  | [] => ret None
  | (pattern, needImage) :: rest =>
      (r <- call (iface.Fetch (RSSFetcher h) url pattern "" "" "" "") ;;
       if passes size needImage r then ret (Some pattern)
       else firstPassing size h url rest)%go
  end.

End Spec.

(** No two admitted items of a group share a link or a cleaned title. *)
Definition DuplicateFree (items : list domain.NewsItem) : Prop :=
  NoDup (map domain.Link items) /\ NoDup (map domain.Title items).


(** The tag that the scan cuts out of a description: from the first
    [<img ] up to, not including, the next [>]. *)
Definition imgTagOf (desc : string) : string :=
  let imgTag := sliceFrom (Z.to_nat (Index desc "<img ")) desc in
  sliceTo (Z.to_nat (Index imgTag ">")) imgTag.

(** An entry whose first enclosure is an image without a URL, and whose
    media extension carries an image URL. *)
Definition mediaExtension (url : string) : gmap string (gmap string (list gofeed.Extension)) :=
  {[ "media" := {[ "content" := [ {| gofeed.Attrs := {[ "url" := url ]} |} ] ]} ]}.

Definition entryWithEmptyEnclosure : gofeed.Item :=
  {| gofeed.Title := "Example Headline Today";
     gofeed.Description := "";
     gofeed.Link := "http://x/1";
     gofeed.PublishedParsed := Some 1000;
     gofeed.UpdatedParsed := None;
     gofeed.Enclosures := [ {| gofeed.URL := ""; gofeed.Type_ := "image/jpeg" |} ];
     gofeed.Extensions := mediaExtension "http://x/a.jpg" |}.

(* ================================================================== *)
(** * An executable environment

    A concrete world, with a clock that ticks, scripted answers of the
    database and of the network, and the [time.RFC3339] layout for UTC
    instants with whole seconds.  It serves to run the functions above on
    concrete inputs. *)
(* ================================================================== *)

Module Run.

(** Days since 1970-01-01 of a civil date, and back (proleptic Gregorian). *)
Definition daysFromCivil (y m d : Z) : Z :=
  let y := if m <=? 2 then y - 1 else y in
  let era := y / 400 in
  let yoe := y - era * 400 in
  let doy := (153 * (if 2 <? m then m - 3 else m + 9) + 2) / 5 + d - 1 in
  let doe := yoe * 365 + yoe / 4 - yoe / 100 + doy in
  era * 146097 + doe - 719468.

Definition civilFromDays (z : Z) : Z * Z * Z :=
  let z := z + 719468 in
  let era := z / 146097 in
  let doe := z - era * 146097 in
  let yoe := (doe - doe / 1460 + doe / 36524 - doe / 146096) / 365 in
  let doy := doe - (365 * yoe + yoe / 4 - yoe / 100) in
  let mp := (5 * doy + 2) / 153 in
  let d := doy - (153 * mp + 2) / 5 + 1 in
  let m := if mp <? 10 then mp + 3 else mp - 9 in
  ((if m <=? 2 then yoe + era * 400 + 1 else yoe + era * 400), m, d).

Definition digit (n : Z) : ascii := byte (Z.to_N (48 + n mod 10)).

Definition digits2 (n : Z) : string :=
  String (digit (n / 10)) (String (digit n) EmptyString).

Definition digits4 (n : Z) : string := digits2 (n / 100) ++ digits2 (n mod 100).

Definition second : Z := 1000000000.

(** [t.Format(time.RFC3339)] for an instant taken in UTC. *)
Definition formatUTC (t : Time) : string :=
  let secs := t / second in
  let '(y, m, d) := civilFromDays (secs / 86400) in
  let sod := secs mod 86400 in
  digits4 y ++ "-" ++ digits2 m ++ "-" ++ digits2 d ++ "T"
  ++ digits2 (sod / 3600) ++ ":" ++ digits2 (sod mod 3600 / 60) ++ ":"
  ++ digits2 (sod mod 60) ++ "Z".

Definition digitValue (c : ascii) : option Z :=
  let n := Z.of_N (code c) in
  if (48 <=? n) && (n <=? 57) then Some (n - 48) else None.

Fixpoint number (acc : Z) (s : string) : option Z :=
  match s with
  | EmptyString => Some acc
  | String c rest =>
      match digitValue c with
      | Some d => number (acc * 10 + d) rest
      | None => None
      end
  end.

Definition field (from n : nat) (s : string) : option Z :=
  number 0 (sliceTo n (sliceFrom from s)).

Definition separatorsOk (s : string) : bool :=
  String.eqb (sliceTo 1 (sliceFrom 4 s)) "-" && String.eqb (sliceTo 1 (sliceFrom 7 s)) "-"
  && String.eqb (sliceTo 1 (sliceFrom 10 s)) "T" && String.eqb (sliceTo 1 (sliceFrom 13 s)) ":"
  && String.eqb (sliceTo 1 (sliceFrom 16 s)) ":" && String.eqb (sliceFrom 19 s) "Z".

(** [time.Parse(time.RFC3339, s)] on the strings [YYYY-MM-DDTHH:MM:SSZ]. *)
Definition parseUTC (s : string) : option Time :=
  if negb ((String.length s =? 20)%nat && separatorsOk s) then None
  else
    y ← field 0 4 s; m ← field 5 2 s; d ← field 8 2 s;
    hh ← field 11 2 s; mm ← field 14 2 s; ss ← field 17 2 s;
    if (1 <=? m) && (m <=? 12) && (1 <=? d) && (hh <? 24) && (mm <? 60) && (ss <? 60)
       && (let '(y', m', d') := civilFromDays (daysFromCivil y m d) in
           (y' =? y) && (m' =? m) && (d' =? d))
    then Some ((daysFromCivil y m d * 86400 + hh * 3600 + mm * 60 + ss) * second)
    else None.

(** The world: a clock, the answers that the next calls of [Create] will
    get, what was stored, and whether the purge and the listing fail. *)
Record World := mkWorld {
  clock : Time;
  createAnswers : list (option error);
  stored : list domain.NewsItem;
  purgeFails : bool;
  listFails : bool
}.

Definition tick (w : World) : Time * World :=
  (clock w, mkWorld (clock w + second) (createAnswers w) (stored w)
              (purgeFails w) (listFails w)).

Definition utc : TimePkg World :=
  {| Now := tick; Format_RFC3339 := formatUTC; Parse_RFC3339 := parseUTC |}.

(** ASCII lower case. *)
Definition lowerByte (c : ascii) : ascii :=
  let n := code c in
  if ((65 <=? n) && (n <=? 90))%N then byte (n + 32) else c.

Fixpoint lower (s : string) : string :=
  match s with
  | EmptyString => EmptyString
  | String c rest => String (lowerByte c) (lower rest)
  end.

(** [Create] takes the next scripted answer; with none left it succeeds. *)
Definition create (n : domain.NewsItem) (w : World) : option error * World :=
  match createAnswers w with
  | Some e :: rest =>
      (Some e, mkWorld (clock w) rest (stored w) (purgeFails w) (listFails w))
  | None :: rest =>
      (None, mkWorld (clock w) rest (stored w ++ [n]) (purgeFails w) (listFails w))
  | [] =>
      (None, mkWorld (clock w) [] (stored w ++ [n]) (purgeFails w) (listFails w))
  end.

Definition deleteOlderThan (t : Time) (w : World) : option error * World :=
  if purgeFails w then (Some "connection refused", w)
  else (None, mkWorld (clock w) (createAnswers w) [] (purgeFails w) (listFails w)).

Definition newsItems : iface.NewsItemRepository World :=
  {| iface.Create := create; iface.DeleteOlderThan := deleteOlderThan |}.

Definition source (id : Z) (name url filter : string) : domain.NewsSource :=
  {| domain.ID := id; domain.CategoryCode := "technology"; domain.SourceName := name;
     domain.RSSURL := url; domain.Filter := Some filter;
     domain.TitleField := None; domain.ImageField := None;
     domain.LinkField := None; domain.CampoFecha := None;
     domain.LangCode := "es"; domain.IsActive := true; domain.UserAdded := false |}.

Definition sourceA : domain.NewsSource := source 1 "A" "http://a/rss" "patron1".
Definition sourceB : domain.NewsSource := source 2 "B" "http://b/rss" "patron1".

Definition newsSources : iface.NewsSourceRepository World :=
  {| iface.FindByID := fun id w =>
       if id =? 1 then ((Some sourceA, None), w)
       else if id =? 2 then ((Some sourceB, None), w)
       else ((None, None), w);
     iface.ListActive := fun w =>
       if listFails w then (([], Some "connection refused"), w)
       else (([sourceA; sourceB], None), w) |}.

Definition fallbackImages : iface.FallbackImageRepository World :=
  {| iface.GetByCategoryAndLang := fun cat lang w =>
       if String.eqb cat "technology"
       then ((Some {| domain.FallbackCategoryCode := cat;
                      domain.FallbackLanguageCode := lang;
                      domain.Filename := "tech.png" |}, None), w)
       else ((None, None), w) |}.

Definition hour : Z := 3600 * second.

(** The instant at which the runs start: 2024-01-01T00:00:00Z. *)
Definition start : Time := 1704067200 * second.

Definition item (title link image : string) (pubDate : Time) : domain.NewsItem :=
  {| domain.SourceID := 0; domain.Source := None; domain.Title := title;
     domain.Link := link; domain.Image := image; domain.PubDate := pubDate;
     domain.ItemLangCode := ""; domain.ItemCategoryCode := "" |}.

Definition headline : domain.NewsItem :=
  item "Example Headline Today" "http://x/1" "http://x/a.jpg" (start - hour).

Definition second_headline : domain.NewsItem :=
  item "Another Headline Tomorrow" "http://x/2" "http://x/b.jpg" (start - hour).

(** Feed of source A: the same entry twice; feed of source B: unreachable
    with [patron1], one more entry with a custom pattern; any other URL
    gives two entries without image. *)
Definition feeds : iface.RSSFetcher World :=
  {| iface.Fetch := fun url filter _ _ _ _ w =>
       if String.eqb url "http://a/rss" then (([headline; headline], None), w)
       else if String.eqb url "http://b/rss" then (([], Some "timeout"), w)
       else if Contains filter "no_image"
            then (([item "Example Headline Today" "http://x/1" "" (start - hour);
                    item "Another Headline Tomorrow" "http://x/2" "" (start - hour)],
                   None), w)
            else (([item "Example Headline Today" "http://x/1" "" (start - hour)],
                   None), w) |}.

Definition images : iface.ImageDownloader World :=
  {| iface.ValidateImage := fun url w =>
       if HasPrefix url "http://x/" then ((true, None), w)
       else ((false, Some "error descargando imagen"), w) |}.

Definition filters : FiltersConfig :=
  {| MinTitle := 10; MaxTitle := 200; FiltersMaxDays := 5;
     MaxDaysForNewsWithFewSources := 7;
     AspectTolerance := 0.25%float; TargetAspect := 1.75%float |}.

Definition maxDaysTable : gmap string Value :=
  {[ "default" := VInt 5;
     "es" := VMap {[ "default" := VInt 4; "technology" := VInt 3 ]} ]}.

Definition configuration : Config :=
  {| NewsCount := None; MaxPerSource := None; MaxDays := Some maxDaysTable;
     Filters := filters |}.

Definition useCase : FetchNewsUseCase World :=
  {| newsItemRepo := newsItems; newsSourceRepo := newsSources;
     fallbackImageRepo := fallbackImages; rssFetcher_ := feeds;
     imageDownloader_ := images; config := configuration;
     time_Now := tick; strings_ToLower := lower;
     fallbackFileIsNotExist := fun _ w => (false, w) |}.

Definition world (answers : list (option error)) (purge list_ : bool) : World :=
  mkWorld start answers [] purge list_.

Definition initial (answers : list (option error)) : State World :=
  mkState (world answers false false) [].

End Run.

(** The aspect ratio that [ValidateImage] computes. *)
Definition aspectRatioOf (width height : Z) : float :=
  (float64_of_int width / float64_of_int height)%float.

(** The test that [ValidateImage] makes of it, the negation of
    [aspectRatio < minAspect || aspectRatio > maxAspect] with Go's [float64]
    comparisons: both are false when a bound is NaN, so that the test then
    holds of every ratio. *)
Definition notOutsideBand {W} (d : imageDownloader W) (aspectRatio : float) : Prop :=
  PrimFloat.ltb aspectRatio (minAspect d) = false
  /\ PrimFloat.ltb (maxAspect d) aspectRatio = false.

(** The extensions of the supported image types. *)
Definition supportedExtensions : list string :=
  [".jpg"; ".jpeg"; ".png"; ".webp"; ".gif"].

(** The download of [ValidateImage] gave the response [resp]. *)
Definition downloaded {W} (d : imageDownloader W) (url : string) (st : State W)
    (resp : Response) : Prop :=
  http_NewRequest d url = None /\ fst (httpClient_Do d url (world st)) = inr resp.

(** An image server for the executable environment. *)
Module RunImages.

Definition respond (status : Z) (type : string) (body : Decoded) : error + Response :=
  inr {| StatusCode := status; ContentType := type; Body := body |}.

Definition withTarget (target : float) : imageDownloader Run.World :=
  {| targetAspect := target; aspectTolerance := 0.25%float;
     width := 800; height := 450;
     http_NewRequest := fun url =>
       if Contains url " " then Some "invalid character in URL" else None;
     httpClient_Do := fun url w =>
       (if String.eqb url "http://x/wide.jpg" then respond 200 "image/jpeg" (Image 1600 900)
        else if String.eqb url "http://x/square.png" then respond 200 "image/PNG" (Image 500 500)
        else if String.eqb url "http://x/small.gif" then respond 200 "image/gif" (Image 300 200)
        else if String.eqb url "http://x/page.html" then respond 200 "text/html" (Image 1600 900)
        else if String.eqb url "http://x/broken.jpg" then respond 200 "image/jpeg" (DecodeError "unexpected EOF")
        else if String.eqb url "http://x/gone.jpg" then respond 404 "image/jpeg" (Image 1600 900)
        else inl "no such host", w);
     mime_ExtensionsByType := fun type =>
       if String.eqb (Run.lower type) "image/jpeg" then ([".JPG"; ".jpe"; ".jpeg"], None)
       else if String.eqb (Run.lower type) "image/png" then ([".png"], None)
       else if String.eqb (Run.lower type) "image/gif" then ([".gif"], None)
       else if String.eqb (Run.lower type) "text/html" then ([".htm"; ".html"], None)
       else ([], None);
     imgToLower := Run.lower |}.

Definition downloader : imageDownloader Run.World := withTarget 1.75%float.

End RunImages.

(** The Go pair [(pattern, err)] for the outcome of a probing sequence. *)
Definition answer (failure : error) (r : option string) : string * option error :=
  match r with
  | Some pattern => (pattern, None)
  | None => ("", Some failure)
  end.



(** A feed for the executable environment: one entry with a media image, one
    without title, and, under another URL, one entry whose description holds
    a tag that ends after [src=]. *)
Module RunFeed.

Definition plainEntry (title description link : string) : gofeed.Item :=
  {| gofeed.Title := title; gofeed.Description := description; gofeed.Link := link;
     gofeed.PublishedParsed := None; gofeed.UpdatedParsed := Some (Run.start + 5);
     gofeed.Enclosures := []; gofeed.Extensions := ∅ |}.

Definition fetcher : rssFetcher Run.World :=
  {| ParseURLWithContext := fun url w =>
       if String.eqb url "http://a/rss"
       then (inr [entryWithEmptyEnclosure; plainEntry "" "" "http://x/2"], w)
       else if String.eqb url "http://c/rss"
       then (inr [plainEntry "  <![CDATA[Third Headline]]> " "<p><img src=></p>" "http://x/3"], w)
       else (inl "no such host", w);
     fetcherTime := Run.utc |}.

End RunFeed.

(* ================================================================== *)
(** * Further notions used by the properties of the pipeline *)
(* ================================================================== *)



(** What [Execute] has checked of an item it stored for the group
    [cat]/[lang] with the sources [srcs]. *)
Definition itemChecked {W} (uc : FetchNewsUseCase W) (cat lang : string)
    (srcs : list domain.NewsSource) (n : domain.NewsItem) : Prop :=
  isBlacklisted (strings_ToLower uc) (domain.Title n) = false
  /\ MinTitle (Filters (config uc)) <= len (domain.Title n) <= MaxTitle (Filters (config uc))
  /\ domain.Image n <> ""
  /\ domain.ItemLangCode n = lang /\ domain.ItemCategoryCode n = cat
  /\ exists src, src ∈ srcs /\ domain.Source n = Some src /\ domain.SourceID n = domain.ID src.

(** The use case with another image downloader. *)
Definition withImageDownloader {W} (uc : FetchNewsUseCase W)
    (d : iface.ImageDownloader W) : FetchNewsUseCase W :=
  {| newsItemRepo := newsItemRepo uc; newsSourceRepo := newsSourceRepo uc;
     fallbackImageRepo := fallbackImageRepo uc; rssFetcher_ := rssFetcher_ uc;
     imageDownloader_ := d; config := config uc;
     time_Now := time_Now uc; strings_ToLower := strings_ToLower uc;
     fallbackFileIsNotExist := fallbackFileIsNotExist uc |}.

(** The cap of a group and the cap per source, as the loops of [Execute]
    compare them: a negative cap admits nothing. *)
Definition capOf (limit : Z) : Z := Z.max 0 limit.



(** What [Fetch] guarantees of a candidate it returns for the given filter
    and image override. *)
Definition candidateOk (filter imageField : string) (n : domain.NewsItem) : Prop :=
  domain.Link n <> ""
  /\ (imageField = "" -> Contains filter "no_image" = true -> domain.Image n = "").

(** A field specification names the description scan. *)
Definition usesDescriptionImg (field : string) : bool :=
  existsb (fun f => String.eqb (TrimSpace f) "description_img") (Split field "|").

(** The field names that the [switch] of [extractFieldFromItem] knows. *)
Definition knownFields : list string :=
  ["title"; "media:content"; "media:thumbnail"; "enclosure"; "description_img";
   "link"; "pubDate"].

Definition isKnownField (f : string) : bool :=
  existsb (String.eqb (TrimSpace f)) knownFields.

(** The four field specifications that [Fetch] extracts with, as its loop
    body chooses them between the overrides and the pattern. *)
Definition effectiveFields (filter titleField imageField linkField dateField : string)
    : list string :=
  let pattern := patternOf filter in
  [ if nonEmpty titleField then titleField else PTitleField pattern;
    if nonEmpty imageField then imageField
    else if negb (Contains filter "no_image") then PImageField pattern else "";
    if nonEmpty linkField then linkField else PLinkField pattern;
    if nonEmpty dateField then dateField else PDateField pattern ].

(* ================================================================== *)
(** * Quota lookups, search and pagination of the HTTP handlers
      ([pkg/config/config.go], [internal/delivery/http/handler.go],
      [internal/delivery/http/page_handlers.go]) *)
(* ================================================================== *)

(** The conversion [int(f)] applied to the [float64] values of a quota
    table, one level down into the table of each language. *)
Definition truncateLeaf (v : Value) : Value :=
  match v with
  | VFloat f => VInt (int_of_float64 f)
  | _ => v
  end.

Definition truncateEntry (v : Value) : Value :=
  match v with
  | VMap m => VMap (truncateLeaf <$> m)
  | _ => truncateLeaf v
  end.

Definition truncateFloats (nested : option (gmap string Value))
    : option (gmap string Value) :=
  fmap (M := option) (fmap (M := gmap string) truncateEntry) nested.

(** [s[i:j]] for [i <= j <= len(s)]. *)
Definition slice (s : string) (i j : nat) : string :=
  sliceTo (j - i) (sliceFrom i s).

(** The loop of [containsSubstring] from index [i], with [todo] rounds
    left before [i] exceeds [len(s)-len(substr)]. *)
Fixpoint containsSubstringLoop (s substr : string) (i todo : nat) : bool :=
  match todo with
  | O => false
  | S todo' =>
      if String.eqb (slice s i (i + String.length substr)) substr then true
      else containsSubstringLoop s substr (S i) todo'
  end.

(** [containsSubstring]: the loop runs for [i] from [0] to
    [len(s)-len(substr)], not at all when that is negative. *)
Definition containsSubstring (s substr : string) : bool :=
  containsSubstringLoop s substr 0 (Z.to_nat (len s - len substr + 1)).

(** [contains] of [handler.go]; [&&] and [||] evaluate from the left, so the
    slices are taken only when [len(s) >= len(substr)]. *)
Definition contains (s substr : string) : bool :=
  (len substr <=? len s)
  && ((len s =? len substr)
      || (String.eqb (slice s 0 (String.length substr)) substr
          || String.eqb (slice s (String.length s - String.length substr)
                               (String.length s)) substr
          || containsSubstring s substr)).

(** [make([]int, n)] and the loop that fills the slice with [first],
    [first+1], ...; a negative length makes [make] panic. *)
Definition pagesFrom (first n : Z) : outcome (list Z) :=
  if n <? 0 then Panics "makeslice: len out of range"
  else Returns (map (fun i => wrap64 (first + Z.of_nat i)) (seq 0 (Z.to_nat n))).

Definition maxPages : Z := 7.

(** [calculatePageRange]. *)
Definition calculatePageRange (currentPage totalPages : Z) : outcome (list Z) :=
  if totalPages <=? maxPages then pagesFrom 1 totalPages
  else
    let start := wrap64 (currentPage - 3) in
    let start := if start <? 1 then 1 else start in
    let end_ := wrap64 (wrap64 (start + maxPages) - 1) in
    let '(start, end_) :=
      if totalPages <? end_ then
        let end_ := totalPages in
        let start := wrap64 (wrap64 (end_ - maxPages) + 1) in
        ((if start <? 1 then 1 else start), end_)
      else (start, end_) in
    pagesFrom start (wrap64 (wrap64 (end_ - start) + 1)).

Record PaginationData := {
  CurrentPage : Z;
  TotalPages : Z;
  TotalItems : Z;
  HasNext : bool;
  HasPrev : bool;
  NextPage : Z;
  PrevPage : Z;
  PageRange : list Z
}.

(** The offset that [getFilteredNews] asks the repository for. *)
Definition pageOffset (page limit : Z) : Z := wrap64 (wrap64 (page - 1) * limit).

(** The block [// Calcular paginación] that ends [getFilteredNews], for the
    count [totalCount] that the repository returned; the division panics
    for a zero [limit]. *)
Definition pagination (page limit totalCount : Z) : outcome PaginationData :=
  if limit =? 0 then Panics "integer divide by zero"
  else
    let totalPages :=
      wrap64 (Z.quot (wrap64 (wrap64 (totalCount + limit) - 1)) limit) in
    match calculatePageRange page totalPages with
    | Panics msg => Panics msg
    | Returns pages =>
        Returns {| CurrentPage := page;
                   TotalPages := totalPages;
                   TotalItems := totalCount;
                   HasNext := page <? totalPages;
                   HasPrev := 1 <? page;
                   NextPage := wrap64 (page + 1);
                   PrevPage := wrap64 (page - 1);
                   PageRange := pages |}
    end.

(** [filepath.Ext] where [/] is the path separator: the loop runs over the
    bytes from the last one backwards, [suffix] being [path[i+1:]]. *)
Fixpoint extLoop (backwards suffix : string) : string :=
  match backwards with
  | EmptyString => EmptyString
  | String c before =>
      if Ascii.eqb c "/" then EmptyString
      else if Ascii.eqb c "." then String c suffix
      else extLoop before (String c suffix)
  end.

Definition Ext (path : string) : string := extLoop (rev path) EmptyString.

(** [getFileExtension]. *)
Definition getFileExtension (filename : string) : string :=
  let ext := Ext filename in
  if String.eqb ext "" then ".jpg" else ext.

(** ** Further notions of the pipeline *)

(** The pattern [<[^>]*>] matches somewhere in [text]: there is a [<] with
    a [>] after it. *)
Fixpoint hasTag (text : string) : bool :=
  match text with
  | EmptyString => false
  | String c rest => (Ascii.eqb c "<" && Contains rest ">") || hasTag rest
  end.

(** The warning or error entry that the body of the candidate loop writes
    for the way it was left. *)
Definition verdictLog (h : Heading) (title : string) (v : Verdict) : list Event :=
  match v, h with
  | Accepted _, _ => []
  | Discarded r, NewsLog cat lang =>
      if isImageError r then [EvNewsError cat lang title r]
      else [EvNewsWarn cat lang title r]
  | Discarded r, SourceLog => [EvAppDiscard "FETCH_NEWS_SOURCE" title r]
  | StorageFailed e, NewsLog cat lang => [EvStorageError cat lang title e]
  | StorageFailed e, SourceLog =>
      [EvAppError "FETCH_NEWS_SOURCE" "Error guardando noticia" e]
  end.

(* ================================================================== *)
(** * Two more executable environments *)
(* ================================================================== *)

(** A group whose category code holds an underscore: four sources of the
    category [world_news] in Spanish, the first with one entry that is four
    days old, and a configuration with a maximum age of three days for that
    category and language. *)
Module RunWorldNews.

Definition source (id : Z) (name url : string) : domain.NewsSource :=
  {| domain.ID := id; domain.CategoryCode := "world_news"; domain.SourceName := name;
     domain.RSSURL := url; domain.Filter := Some "patron1";
     domain.TitleField := None; domain.ImageField := None;
     domain.LinkField := None; domain.CampoFecha := None;
     domain.LangCode := "es"; domain.IsActive := true; domain.UserAdded := false |}.

Definition sources : list domain.NewsSource :=
  [ source 1 "A" "http://a/rss"; source 2 "B" "http://b/rss";
    source 3 "C" "http://c/rss"; source 4 "D" "http://d/rss" ].

Definition oldHeadline : domain.NewsItem :=
  Run.item "Example Headline Today" "http://x/1" "http://x/a.jpg"
    (Run.start - 4 * (24 * Run.hour)).

Definition feeds : iface.RSSFetcher Run.World :=
  {| iface.Fetch := fun url _ _ _ _ _ w =>
       if String.eqb url "http://a/rss" then (([oldHeadline], None), w)
       else (([], Some "timeout"), w) |}.

Definition newsSources : iface.NewsSourceRepository Run.World :=
  {| iface.FindByID := fun id w =>
       if id =? 1 then ((Some (source 1 "A" "http://a/rss"), None), w)
       else ((None, None), w);
     iface.ListActive := fun w => ((sources, None), w) |}.

Definition configuration : Config :=
  {| NewsCount := None; MaxPerSource := None;
     MaxDays := Some {[ "es" := VMap {[ "world_news" := VInt 3 ]} ]};
     Filters := Run.filters |}.

Definition useCase : FetchNewsUseCase Run.World :=
  {| newsItemRepo := Run.newsItems; newsSourceRepo := newsSources;
     fallbackImageRepo := Run.fallbackImages; rssFetcher_ := feeds;
     imageDownloader_ := Run.images; config := configuration;
     time_Now := Run.tick; strings_ToLower := Run.lower;
     fallbackFileIsNotExist := fun _ w => (false, w) |}.

End RunWorldNews.

(** A feed whose titles have six accented letters each: six characters,
    twelve bytes. *)
Module RunAccents.

Definition feeds : iface.RSSFetcher Run.World :=
  {| iface.Fetch := fun _ _ _ _ _ _ w =>
       (([Run.item "áéíóúñ" "http://x/1" "http://x/a.jpg" Run.start;
          Run.item "ñúóíéá" "http://x/2" "http://x/b.jpg" Run.start], None), w) |}.

Definition handler : Handler Run.World := {| RSSFetcher := feeds |}.

End RunAccents.

(* ================================================================== *)
(** * Properties *)
(* ================================================================== *)

(** ** Sanity checks of the string primitives *)

Example Split_three : Split "a|b||c" "|" = ["a"; "b"; ""; "c"].
Proof. reflexivity. Qed.

Example Split_empty : Split "" "|" = [""].
Proof. reflexivity. Qed.

Example Index_img : Index "x <img src='u'>" "<img " = 2 /\ Index "abc" "z" = -1.
Proof. split; reflexivity. Qed.

Example TrimSpace_ascii : TrimSpace "  media:content	 " = "media:content".
Proof. reflexivity. Qed.

Example SplitN2_key : SplitN2 "tech_es" "_" = ["tech"; "es"]
                      /\ SplitN2 "a_b_c" "_" = ["a"; "b_c"].
Proof. split; reflexivity. Qed.

Example cleanText_entities : cleanText "Title&nbsp;&amp;&nbsp;More" = "Title & More".
Proof. vm_compute. reflexivity. Qed.

Example cleanText_tags : cleanText " <b>Hello</b>   <i>big</i> world < 3 " = "Hello big world < 3".
Proof. vm_compute. reflexivity. Qed.

Example blacklist_bytes : String.length "oróscopo" = 9%nat.
Proof. reflexivity. Qed.

(** ** Field extractor *)

Lemma nonEmpty_true (s : string) : nonEmpty s = true <-> s <> "".
Proof.
  unfold nonEmpty. destruct (String.eqb_spec s ""); simpl; split; congruence.
Qed.

Lemma nonEmpty_false (s : string) : nonEmpty s = false <-> s = "".
Proof.
  unfold nonEmpty. destruct (String.eqb_spec s ""); simpl; split; congruence.
Qed.

Lemma get_None_iff (s : string) (n : nat) :
  String.get n s = None <-> (String.length s <= n)%nat.
Proof.
  revert n. induction s as [|c s IH]; intros n; simpl.
  - split; [lia | reflexivity].
  - destruct n as [|n]; [split; [discriminate | lia] |].
    rewrite IH. lia.
Qed.

(** The scan panics exactly when the tag it cut out has nothing after its
    first [src=]. *)
Lemma extractImg_panics_iff (desc : string) :
  (exists msg, extractImgFromDescription desc = Panics msg)
  <-> Index desc "<img " <> -1
      /\ Index (sliceFrom (Z.to_nat (Index desc "<img ")) desc) ">" <> -1
      /\ Index (imgTagOf desc) "src=" <> -1
      /\ (String.length (imgTagOf desc)
          <= Z.to_nat (Index (imgTagOf desc) "src=" + 4))%nat.
Proof.
  unfold extractImgFromDescription, imgTagOf.
  destruct (Z.eqb_spec (Index desc "<img ") (-1)) as [E1|E1].
  { split; [intros [m Hm]; discriminate | intros [H _]; contradiction]. }
  set (tag0 := sliceFrom (Z.to_nat (Index desc "<img ")) desc).
  destruct (Z.eqb_spec (Index tag0 ">") (-1)) as [E2|E2].
  { split; [intros [m Hm]; discriminate | intros (_ & H & _); contradiction]. }
  set (tag := sliceTo (Z.to_nat (Index tag0 ">")) tag0).
  destruct (Z.eqb_spec (Index tag "src=") (-1)) as [E3|E3].
  { split; [intros [m Hm]; discriminate | intros (_ & _ & H & _); contradiction]. }
  destruct (String.get (Z.to_nat (Index tag "src=" + 4)) tag) as [q|] eqn:G.
  - split.
    + intros [m Hm]. destruct (IndexRune _ q =? -1); discriminate.
    + intros (_ & _ & _ & H). apply get_None_iff in H. congruence.
  - split; [|intros _; eauto].
    intros _. repeat split; try assumption. now apply get_None_iff.
Qed.

(** A description without [<img ], a tag without [src=], and a tag whose
    opening quote is never closed give the empty string. *)
Lemma extractImg_no_img (desc : string) :
  Index desc "<img " = -1 -> extractImgFromDescription desc = Returns "".
Proof. intros H. unfold extractImgFromDescription. now rewrite H. Qed.

Example extractImg_quoted :
  extractImgFromDescription ("<p><img class='a' src=" ++ dquote ++ "http://x/a.jpg"
                             ++ dquote ++ " alt=''></p>") = Returns "http://x/a.jpg".
Proof. vm_compute. reflexivity. Qed.

Example extractImg_missing_src :
  extractImgFromDescription "<img alt='a'>" = Returns "".
Proof. vm_compute. reflexivity. Qed.

Example extractImg_unbalanced_quote :
  extractImgFromDescription "<img src='http://x/a.jpg>" = Returns "".
Proof. vm_compute. reflexivity. Qed.

Example extractImg_unquoted :
  extractImgFromDescription "<img src=abca>" = Returns "bc".
Proof. vm_compute. reflexivity. Qed.

(** C4. The scan of a description for [<img src>] is not total: on the
    malformed tag [<img src=>], where nothing follows [src=], the read of the
    quote byte [imgTag[srcIdx+4]] is out of range and the call panics instead
    of returning the empty string. *)
Theorem extractImg_bare_src_panics :
  extractImgFromDescription "<img src=>" = Panics "index out of range".
Proof. vm_compute. reflexivity. Qed.

(** The extractor does what the specification says on an entry whose first
    enclosure is its first image enclosure and has a URL, and whose
    description the scan gets through, for a timestamp layout that never
    formats to the empty string. *)
Lemma extractFieldLoop_firstNonEmpty {W} (tm : TimePkg W) (item : gofeed.Item)
    (alternatives : list string) :
  (forall t, Format_RFC3339 tm t <> "") ->
  (forall e0 rest, gofeed.Enclosures item = e0 :: rest ->
     if HasPrefix (gofeed.Type_ e0) "image/" then gofeed.URL e0 <> ""
     else Spec.firstImageEnclosure rest = None) ->
  (forall msg, extractImgFromDescription (gofeed.Description item) <> Panics msg) ->
  extractFieldLoop tm item alternatives = Spec.firstNonEmpty tm item alternatives.
Proof.
  intros Hfmt Henc Hscan.
  induction alternatives as [|f rest IH]; [reflexivity|].
  cbn [extractFieldLoop Spec.firstNonEmpty]. unfold Spec.fieldValue.
  rewrite IH.
  repeat match goal with
         | |- context [String.eqb ?a ?b] => destruct (String.eqb a b)
         end; try reflexivity.
  - destruct (gofeed.Enclosures item) as [|e0 l] eqn:E; [reflexivity|].
    specialize (Henc e0 l eq_refl). cbn [Spec.firstImageEnclosure].
    destruct (HasPrefix (gofeed.Type_ e0) "image/") eqn:P.
    + apply nonEmpty_true in Henc as ->. reflexivity.
    + rewrite Henc. reflexivity.
  - unfold Spec.descriptionImg.
    destruct (extractImgFromDescription (gofeed.Description item)) as [v|msg] eqn:E;
      [reflexivity|]. exfalso. exact (Hscan msg eq_refl).
  - destruct (gofeed.PublishedParsed item) as [t|].
    { specialize (Hfmt t). apply nonEmpty_true in Hfmt as ->. reflexivity. }
    destruct (gofeed.UpdatedParsed item) as [t|]; [|reflexivity].
    specialize (Hfmt t). apply nonEmpty_true in Hfmt as ->. reflexivity.
Qed.

Lemma extractFieldFromItem_extract {W} (tm : TimePkg W) (item : gofeed.Item)
    (field : string) :
  (forall t, Format_RFC3339 tm t <> "") ->
  (forall e0 rest, gofeed.Enclosures item = e0 :: rest ->
     if HasPrefix (gofeed.Type_ e0) "image/" then gofeed.URL e0 <> ""
     else Spec.firstImageEnclosure rest = None) ->
  (forall msg, extractImgFromDescription (gofeed.Description item) <> Panics msg) ->
  extractFieldFromItem tm item field = Spec.extract tm item field.
Proof. intros. now apply extractFieldLoop_firstNonEmpty. Qed.

(** C3. On the field list [enclosure|media:content] and an entry whose first
    enclosure is an image with an empty URL, the extractor returns the empty
    string from the [enclosure] alternative without trying [media:content],
    which yields a non-empty value: the first non-empty alternative of the
    specification is [http://x/a.jpg]. *)
Theorem extractField_enclosure_stops_early {W} (tm : TimePkg W) :
  extractFieldFromItem tm entryWithEmptyEnclosure "enclosure|media:content" = Returns ""
  /\ Spec.extract tm entryWithEmptyEnclosure "enclosure|media:content"
     = Returns "http://x/a.jpg".
Proof. split; vm_compute; reflexivity. Qed.

(** ** The executable environment *)

Example formatUTC_start : Run.formatUTC Run.start = "2024-01-01T00:00:00Z".
Proof. vm_compute. reflexivity. Qed.

Example parseUTC_start : Run.parseUTC "2024-01-01T00:00:00Z" = Some Run.start.
Proof. vm_compute. reflexivity. Qed.

Example parseUTC_leap : Run.parseUTC "2023-02-29T00:00:00Z" = None
                        /\ Run.parseUTC "" = None
                        /\ Run.parseUTC "Example Headline Today" = None.
Proof. repeat split; vm_compute; reflexivity. Qed.

(** ** Feed fetcher: the publication date *)

(** With a named pattern and no override, the date is resolved by the chain
    of the specification: the parsed date field, then the entry's publish
    time, then its update time, then the clock. *)
Lemma resolveDate_pattern_case {W} (tm : TimePkg W) (filter : string)
    (item : gofeed.Item) (st : State W) :
  resolveDate tm filter "" item st = Spec.resolveDate tm filter "" item st.
Proof.
  unfold resolveDate, Spec.resolveDate, Spec.dateOf. cbn [nonEmpty String.eqb negb].
  destruct (extractFieldFromItem tm item (PDateField (patternOf filter))) as [dateStr|msg];
    [|reflexivity].
  destruct (Parse_RFC3339 tm dateStr); [reflexivity|].
  destruct (gofeed.PublishedParsed item); [reflexivity|].
  destruct (gofeed.UpdatedParsed item); [reflexivity|].
  unfold bind, call, ret. destruct (Now tm (world st)). reflexivity.
Qed.

(** With an override field, a date string that parses is the date, as in the
    specification. *)
Lemma resolveDate_override_parsed {W} (tm : TimePkg W) (filter dateField dateStr : string)
    (item : gofeed.Item) (t : Time) (st : State W) :
  dateField <> "" ->
  extractFieldFromItem tm item dateField = Returns dateStr ->
  Parse_RFC3339 tm dateStr = Some t ->
  resolveDate tm filter dateField item st = (Returns t, st)
  /\ Spec.resolveDate tm filter dateField item st = (Returns t, st).
Proof.
  intros Hne Hx Hp. apply nonEmpty_true in Hne.
  unfold resolveDate, Spec.resolveDate, Spec.dateOf. rewrite Hne, Hx, Hp.
  split; reflexivity.
Qed.

(** C5. In the explicit-override case the fallback chain is not followed: when
    the override date field does not parse, [Fetch] takes the clock at once,
    also for an entry that has its own parsed publish time [t], which is what
    the chain of the specification gives. *)
Theorem resolveDate_override_skips_entry_times {W} (tm : TimePkg W)
    (filter dateField dateStr : string) (item : gofeed.Item) (t : Time) (st : State W) :
  dateField <> "" ->
  extractFieldFromItem tm item dateField = Returns dateStr ->
  Parse_RFC3339 tm dateStr = None ->
  gofeed.PublishedParsed item = Some t ->
  resolveDate tm filter dateField item st
  = (Returns (fst (Now tm (world st))), mkState (snd (Now tm (world st))) (logs st))
  /\ Spec.resolveDate tm filter dateField item st = (Returns t, st).
Proof.
  intros Hne Hx Hp Hpub. apply nonEmpty_true in Hne.
  unfold resolveDate, Spec.resolveDate, Spec.dateOf. rewrite Hne, Hx, Hp, Hpub.
  split; [|reflexivity].
  unfold bind, call, ret. destruct (Now tm (world st)). reflexivity.
Qed.

(** The entry of the example was published at instant [1000]; with the
    override field [dc:date], which is no field of the extractor, the date is
    the clock reading. *)
Lemma resolveDate_override_skips_entry_times_witness :
  resolveDate Run.utc "patron1" "dc:date" entryWithEmptyEnclosure (Run.initial [])
  = (Returns Run.start,
     mkState (snd (Run.tick (Run.world [] false false))) [])
  /\ Spec.resolveDate Run.utc "patron1" "dc:date" entryWithEmptyEnclosure (Run.initial [])
     = (Returns 1000, Run.initial []).
Proof.
  apply (resolveDate_override_skips_entry_times Run.utc "patron1" "dc:date" ""
           entryWithEmptyEnclosure 1000 (Run.initial [])).
  - discriminate.
  - vm_compute. reflexivity.
  - vm_compute. reflexivity.
  - reflexivity.
Defined.

(** ** Image qualifier *)

Lemma supported_lookup (k : string) :
  default false (supported !! k) = true <-> k ∈ supportedExtensions.
Proof.
  unfold supported, supportedExtensions. cbn [list_to_map foldr fst snd uncurry].
  repeat (rewrite lookup_insert; case_decide; [subst; cbn; split; [set_solver | done] |]).
  rewrite lookup_empty. cbn. split; [discriminate|].
  rewrite !elem_of_cons, elem_of_nil.
  intros Hk. repeat destruct Hk as [Hk|Hk]; first [congruence | contradiction].
Qed.

(** The MIME type is accepted exactly when, ignoring case, one of its
    extensions is [.jpg], [.jpeg], [.png], [.webp] or [.gif]. *)
Lemma isValidImageType_iff {W} (d : imageDownloader W) (mimeType : string) :
  isValidImageType d mimeType = true
  <-> snd (mime_ExtensionsByType d mimeType) = None
      /\ exists e, e ∈ fst (mime_ExtensionsByType d mimeType)
                   /\ imgToLower d e ∈ supportedExtensions.
Proof.
  unfold isValidImageType.
  destruct (mime_ExtensionsByType d mimeType) as [ext [err|]]; cbn [fst snd].
  { split; [discriminate | intros [? _]; discriminate]. }
  destruct ext as [|e0 ext]; cbn [length Nat.eqb].
  { split; [discriminate | intros [_ (e & He & _)]; inversion He]. }
  rewrite existsb_exists. split.
  - intros (e & Hin & He). split; [reflexivity|]. exists e.
    split; [now apply list_elem_of_In | now apply supported_lookup].
  - intros [_ (e & Hin & He)]. exists e.
    split; [now apply list_elem_of_In | now apply supported_lookup].
Qed.

Example validate_wide :
  fst (ValidateImage RunImages.downloader "http://x/wide.jpg" (Run.initial [])) = (true, None).
Proof. vm_compute. reflexivity. Qed.

Example validate_square :
  fst (ValidateImage RunImages.downloader "http://x/square.png" (Run.initial [])) = (false, None).
Proof. vm_compute. reflexivity. Qed.

Example validate_small :
  fst (ValidateImage RunImages.downloader "http://x/small.gif" (Run.initial [])) = (false, None).
Proof. vm_compute. reflexivity. Qed.

Example validate_wrong_type :
  fst (ValidateImage RunImages.downloader "http://x/page.html" (Run.initial []))
  = (false, Some "tipo de imagen no soportado: text/html").
Proof. vm_compute. reflexivity. Qed.

Example validate_not_found :
  fst (ValidateImage RunImages.downloader "http://x/gone.jpg" (Run.initial []))
  = (false, Some "código de estado inesperado").
Proof. vm_compute. reflexivity. Qed.

(** The three kinds of result of [ValidateImage]. *)
Lemma ValidateImage_cases {W} (d : imageDownloader W) (url : string) (st : State W) :
  let r := fst (ValidateImage d url st) in
  (fst r = true <->
     exists resp w h,
       downloaded d url st resp /\ StatusCode resp = 200
       /\ isValidImageType d (ContentType resp) = true /\ Body resp = Image w h
       /\ 400 <= w /\ 225 <= h /\ notOutsideBand d (aspectRatioOf w h))
  /\ (r = (false, None) <->
        exists resp w h,
          downloaded d url st resp /\ StatusCode resp = 200
          /\ isValidImageType d (ContentType resp) = true /\ Body resp = Image w h
          /\ (w < 400 \/ h < 225 \/ ~ notOutsideBand d (aspectRatioOf w h)))
  /\ ((exists e, snd r = Some e) <->
        (exists e, http_NewRequest d url = Some e)
        \/ (http_NewRequest d url = None
            /\ ((exists e, fst (httpClient_Do d url (world st)) = inl e)
                \/ exists resp, fst (httpClient_Do d url (world st)) = inr resp
                   /\ (StatusCode resp <> 200
                       \/ isValidImageType d (ContentType resp) = false
                       \/ exists e, Body resp = DecodeError e))))
  /\ ((exists e, snd r = Some e) -> fst r = false).
Proof.
  unfold ValidateImage, downloaded, notOutsideBand, aspectRatioOf, bind, call, ret.
  destruct (http_NewRequest d url) as [e0|]; cbn -[minAspect maxAspect float64_of_int].
  { repeat split; try (intros; discriminate); try (intros (? & ? & ? & [? _] & _); discriminate); eauto. }
  destruct (httpClient_Do d url (world st)) as [[e1|resp] w']; cbn -[minAspect maxAspect float64_of_int].
  { repeat split; try (intros; discriminate);
      try (intros (? & ? & ? & [_ ?] & _); discriminate); eauto. }
  destruct (Z.eqb_spec (StatusCode resp) 200) as [Hs|Hs]; cbn -[minAspect maxAspect float64_of_int].
  2:{ repeat split; try (intros; discriminate);
        try (intros (? & ? & ? & [_ ?] & ? & _); congruence); eauto 10. }
  destruct (isValidImageType d (ContentType resp)) eqn:Ht; cbn -[minAspect maxAspect float64_of_int].
  2:{ repeat split; try (intros; discriminate);
        try (intros (? & ? & ? & [_ ?] & ? & ? & _); congruence); eauto 10. }
  destruct (Body resp) as [e2|iw ih] eqn:Hb; cbn -[minAspect maxAspect float64_of_int].
  { repeat split; try (intros; discriminate);
      try (intros (? & ? & ? & [_ ?] & ? & ? & ? & _); congruence); eauto 10. }
  assert (Hinj : forall r' w h, inr resp = @inr error Response r' -> Body r' = Image w h ->
                                w = iw /\ h = ih).
  { intros r' w h Hr Hb'. inversion Hr; subst r'. rewrite Hb in Hb'.
    inversion Hb'. split; reflexivity. }
  assert (Hno : ~ ((exists e : error, @inr error Response resp = inl e)
                   \/ (exists r', @inr error Response resp = inr r'
                        /\ (StatusCode r' <> 200 \/ isValidImageType d (ContentType r') = false
                            \/ exists e, Body r' = DecodeError e)))).
  { intros [[e He]|(r' & Hr & Hc)]; [discriminate|].
    inversion Hr; subst r'. destruct Hc as [?|[?|[e He]]]; congruence. }
  destruct (Z.ltb_spec iw 400) as [Hw|Hw]; cbn -[minAspect maxAspect float64_of_int].
  { repeat split; try (intros; discriminate); try (intros [e He]; discriminate).
    - intros (r' & w & h & [_ Hr] & _ & _ & Hb' & ? & ? & _).
      destruct (Hinj _ _ _ Hr Hb'); lia.
    - intros _. exists resp, iw, ih. repeat split; auto.
    - intros [[e He]|[_ H]]; [discriminate | contradiction]. }
  destruct (Z.ltb_spec ih 225) as [Hh|Hh]; cbn -[minAspect maxAspect float64_of_int].
  { repeat split; try (intros; discriminate); try (intros [e He]; discriminate).
    - intros (r' & w & h & [_ Hr] & _ & _ & Hb' & ? & ? & _).
      destruct (Hinj _ _ _ Hr Hb'); lia.
    - intros _. exists resp, iw, ih. repeat split; auto.
    - intros [[e He]|[_ H]]; [discriminate | contradiction]. }
  destruct (PrimFloat.ltb (float64_of_int iw / float64_of_int ih) (minAspect d)) eqn:Hlo; cbn -[minAspect maxAspect float64_of_int].
  { repeat split; try (intros; discriminate); try (intros [e He]; discriminate).
    - intros (r' & w & h & [_ Hr] & _ & _ & Hb' & _ & _ & Hl & _).
      destruct (Hinj _ _ _ Hr Hb'); subst. congruence.
    - intros _. exists resp, iw, ih. repeat split; auto.
      right. right. intros [Hl _]. congruence.
    - intros [[e He]|[_ H]]; [discriminate | contradiction]. }
  destruct (PrimFloat.ltb (maxAspect d) (float64_of_int iw / float64_of_int ih)) eqn:Hhi; cbn -[minAspect maxAspect float64_of_int].
  { repeat split; try (intros; discriminate); try (intros [e He]; discriminate).
    - intros (r' & w & h & [_ Hr] & _ & _ & Hb' & _ & _ & _ & Hu).
      destruct (Hinj _ _ _ Hr Hb'); subst. congruence.
    - intros _. exists resp, iw, ih. repeat split; auto.
      right. right. intros [_ Hu]. congruence.
    - intros [[e He]|[_ H]]; [discriminate | contradiction]. }
  repeat split; try (intros; discriminate); try (intros [e He]; discriminate).
  - intros _. exists resp, iw, ih. repeat split; auto.
  - intros (r' & w & h & [_ Hr] & _ & _ & Hb' & Hc).
    destruct (Hinj _ _ _ Hr Hb'); subst.
    destruct Hc as [?|[?|Hc]]; [lia | lia |]. exfalso. apply Hc. split; assumption.
  - intros [[e He]|[_ H]]; [discriminate | contradiction].
Qed.

(** ** Comparisons of [float64] values *)

Lemma SFcompare_antisym (x y : spec_float) :
  SFcompare y x = option_map CompOpp (SFcompare x y).
Proof.
  destruct x as [sx|sx| |sx mx ex], y as [sy|sy| |sy my ey]; cbn;
    try reflexivity;
    try (destruct sx; reflexivity); try (destruct sy; reflexivity);
    try (destruct sx, sy; reflexivity).
  destruct sx, sy; cbn; try reflexivity;
    rewrite (Z.compare_antisym ex ey); destruct (ex ?= ey)%Z; cbn; try reflexivity;
    rewrite (Pos.compare_cont_antisym mx my Eq); cbn;
    destruct (Pos.compare_cont Eq mx my); reflexivity.
Qed.

Lemma SFcompare_None (x y : spec_float) :
  SFcompare x y = None -> x = S754_nan \/ y = S754_nan.
Proof.
  destruct x as [sx|sx| |sx mx ex], y as [sy|sy| |sy my ey]; cbn; auto; discriminate.
Qed.

Lemma is_nan_false (x : float) : is_nan x = false -> Prim2SF x <> S754_nan.
Proof.
  unfold is_nan. rewrite FloatAxioms.eqb_spec. unfold SFeqb. intros H E. rewrite E in H. discriminate.
Qed.

(** Of two numbers, the first is not below the second exactly when the
    second is at most the first. *)
Lemma not_ltb_leb (x y : float) :
  is_nan x = false -> is_nan y = false ->
  PrimFloat.ltb x y = false <-> PrimFloat.leb y x = true.
Proof.
  intros Hx Hy. apply is_nan_false in Hx, Hy.
  rewrite FloatAxioms.ltb_spec, FloatAxioms.leb_spec. unfold SFltb, SFleb.
  rewrite (SFcompare_antisym (Prim2SF x) (Prim2SF y)).
  destruct (SFcompare (Prim2SF x) (Prim2SF y)) as [[]|] eqn:E; cbn;
    try (split; congruence).
  apply SFcompare_None in E. tauto.
Qed.

(** For a ratio and bounds that are numbers, the test of the code is lying
    within the bounds. *)
Lemma notOutsideBand_liesWithin {W} (d : imageDownloader W) (ratio : float) :
  is_nan ratio = false -> is_nan (minAspect d) = false -> is_nan (maxAspect d) = false ->
  notOutsideBand d ratio <-> Spec.liesWithin (minAspect d) (maxAspect d) ratio = true.
Proof.
  intros Hr Hlo Hhi. unfold notOutsideBand, Spec.liesWithin.
  rewrite (not_ltb_leb ratio (minAspect d) Hr Hlo), (not_ltb_leb (maxAspect d) ratio Hhi Hr).
  rewrite andb_true_iff. reflexivity.
Qed.

(** C6 (as amended). [ValidateImage] returns [true] exactly when the
    download succeeds with status 200, the MIME type is a supported image
    type, the image decodes, its width is at least 400 and its height at
    least 225, and its aspect ratio is neither below
    [targetAspect - targetAspect*tolerance] nor above
    [targetAspect + targetAspect*tolerance] in [float64] comparison; it
    returns [false] without error exactly on an image that decoded and is too
    small or fails that test; and it returns an error, with [false], exactly
    when the request or the download fails, the status is not 200, the type is
    unsupported or the image does not decode.  A MIME type is supported when,
    lower-cased, one of its extensions is [.jpg], [.jpeg], [.png], [.webp] or
    [.gif].  For a ratio and bounds that are numbers, the test on the ratio
    is lying within the two bounds. *)
Theorem ValidateImage_result {W} (d : imageDownloader W) (url : string) (st : State W) :
  let r := fst (ValidateImage d url st) in
  (fst r = true <->
     exists resp w h,
       downloaded d url st resp /\ StatusCode resp = 200
       /\ isValidImageType d (ContentType resp) = true /\ Body resp = Image w h
       /\ 400 <= w /\ 225 <= h /\ notOutsideBand d (aspectRatioOf w h))
  /\ (r = (false, None) <->
        exists resp w h,
          downloaded d url st resp /\ StatusCode resp = 200
          /\ isValidImageType d (ContentType resp) = true /\ Body resp = Image w h
          /\ (w < 400 \/ h < 225 \/ ~ notOutsideBand d (aspectRatioOf w h)))
  /\ ((exists e, snd r = Some e) <->
        (exists e, http_NewRequest d url = Some e)
        \/ (http_NewRequest d url = None
            /\ ((exists e, fst (httpClient_Do d url (world st)) = inl e)
                \/ exists resp, fst (httpClient_Do d url (world st)) = inr resp
                   /\ (StatusCode resp <> 200
                       \/ isValidImageType d (ContentType resp) = false
                       \/ exists e, Body resp = DecodeError e))))
  /\ ((exists e, snd r = Some e) -> fst r = false)
  /\ (forall mimeType,
        isValidImageType d mimeType = true
        <-> snd (mime_ExtensionsByType d mimeType) = None
            /\ exists e, e ∈ fst (mime_ExtensionsByType d mimeType)
                         /\ imgToLower d e ∈ supportedExtensions)
  /\ (forall ratio,
        is_nan ratio = false -> is_nan (minAspect d) = false ->
        is_nan (maxAspect d) = false ->
        notOutsideBand d ratio
        <-> Spec.liesWithin (minAspect d) (maxAspect d) ratio = true).
Proof.
  pose proof (ValidateImage_cases d url st) as (Htrue & Hfalse & Herr & Hboth).
  intros r. split; [exact Htrue|]. split; [exact Hfalse|]. split; [exact Herr|].
  split; [exact Hboth|]. split; [intros mimeType; apply isValidImageType_iff|].
  intros ratio. apply notOutsideBand_liesWithin.
Qed.

(** The original wording of C6 does not hold: with an infinite target
    aspect, or one that is not a number, a square image of 500 by 500 is
    accepted although its ratio does not lie within
    [[targetAspect·(1−tolerance), targetAspect·(1+tolerance)]]. *)
Lemma ValidateImage_true_outside_band :
  let accepted (d : imageDownloader Run.World) :=
    fst (ValidateImage d "http://x/square.png" (Run.initial [])) = (true, None)
    /\ Spec.liesWithin (fst (Spec.band d)) (snd (Spec.band d)) (aspectRatioOf 500 500)
       = false in
  accepted (RunImages.withTarget infinity) /\ accepted (RunImages.withTarget nan).
Proof. cbv zeta. repeat split; vm_compute; reflexivity. Qed.

(** ** Quota resolution *)

Lemma getIntValueFromNestedMap_chain (nested : option (gmap string Value))
    (lang category : string) (fallback : Z) :
  getIntValueFromNestedMap nested lang category fallback
  = Spec.fallbackChain nested lang category fallback.
Proof.
  unfold getIntValueFromNestedMap, Spec.fallbackChain, Spec.mapAt, Spec.intAt.
  destruct nested as [m|]; [|reflexivity]. cbn.
  destruct (m !! lang) as [[| | | |langMap]|]; cbn;
    try (destruct (m !! "default") as [[]|]; reflexivity).
  destruct (langMap !! category) as [[]|]; cbn; try reflexivity;
    destruct (langMap !! "default") as [[]|]; cbn; try reflexivity;
    destruct (m !! "default") as [[]|]; reflexivity.
Qed.

Lemma groupMaxDays_effective {W} (uc : FetchNewsUseCase W) (lang cat : string)
    (srcs : list domain.NewsSource) :
  groupMaxDays uc lang cat srcs = Spec.effectiveMaxDays (config uc) lang cat (length srcs).
Proof.
  unfold groupMaxDays, Spec.effectiveMaxDays, GetMaxDays.
  rewrite getIntValueFromNestedMap_chain.
  destruct (length srcs <=? 3)%nat; [|reflexivity].
  destruct (Z.gtb_spec (MaxDaysForNewsWithFewSources (Filters (config uc)))
              (Spec.fallbackChain (MaxDays (config uc)) lang cat 5)); lia.
Qed.

Lemma Index_lower_bound (s sub : string) : -1 <= Index s sub.
Proof.
  induction s as [|c s IH]; cbn [Index].
  - destruct (HasPrefix "" sub); lia.
  - destruct (HasPrefix (String c s) sub); [lia|].
    destruct (Z.ltb_spec (Index s sub) 0); lia.
Qed.

Lemma append_nil_l (s : string) : "" ++ s = s.
Proof. reflexivity. Qed.

Lemma append_cons (c : ascii) (s t : string) : String c s ++ t = String c (s ++ t).
Proof. reflexivity. Qed.

Lemma append_assoc (s t u : string) : (s ++ t) ++ u = s ++ t ++ u.
Proof. induction s as [|c s IH]; [reflexivity|]. rewrite !append_cons. now rewrite IH. Qed.

Lemma length_append (s t : string) :
  String.length (s ++ t) = (String.length s + String.length t)%nat.
Proof. induction s as [|c s IH]; [reflexivity|]. rewrite append_cons. cbn. now rewrite IH. Qed.

Lemma Index_append_separator (cat rest : string) (sep : ascii) :
  Index cat (String sep "") < 0 ->
  Index (cat ++ String sep rest) (String sep "") = Z.of_nat (String.length cat).
Proof.
  induction cat as [|c cat IH]; intros H.
  - rewrite append_nil_l. cbn. rewrite Ascii.eqb_refl. destruct rest; reflexivity.
  - rewrite append_cons. cbn [Index] in H. cbn [Index String.length].
    cbn [HasPrefix] in *.
    destruct (Ascii.eqb sep c) eqn:E.
    + exfalso. destruct cat; cbn in H; lia.
    + destruct (Z.ltb_spec (Index cat (String sep "")) 0) as [Hn|Hn]; [|lia].
      rewrite (IH Hn). destruct (Z.ltb_spec (Z.of_nat (String.length cat)) 0); lia.
Qed.

Lemma sliceTo_append (s rest : string) : sliceTo (String.length s) (s ++ rest) = s.
Proof.
  induction s as [|c s IH]; [now destruct rest|].
  rewrite append_cons. cbn. now rewrite IH.
Qed.

Lemma sliceFrom_append (s rest : string) : sliceFrom (String.length s) (s ++ rest) = rest.
Proof. induction s as [|c s IH]; [reflexivity|]. rewrite append_cons. exact IH. Qed.

(** The key of a group splits back into its category and language when the
    category code has no underscore. *)
Lemma SplitN2_groupKey (cat lang : string) :
  Contains cat "_" = false -> SplitN2 (cat ++ "_" ++ lang) "_" = [cat; lang].
Proof.
  intros H. unfold Contains in H. apply Z.leb_gt in H.
  unfold SplitN2. change ("_" ++ lang) with (String "_" lang).
  rewrite (Index_append_separator cat lang "_" H).
  destruct (Z.ltb_spec (Z.of_nat (String.length cat)) 0); [lia|].
  rewrite Nat2Z.id, sliceTo_append. f_equal. f_equal.
  change (String "_" lang) with ("_" ++ lang).
  rewrite <- append_assoc.
  replace (String.length cat + String.length "_")%nat with (String.length (cat ++ "_"))
    by apply length_append.
  apply sliceFrom_append.
Qed.

Example GetMaxDays_chain :
  GetMaxDays Run.configuration "es" "technology" = 3
  /\ GetMaxDays Run.configuration "es" "sports" = 4
  /\ GetMaxDays Run.configuration "fr" "sports" = 5
  /\ groupMaxDays Run.useCase "es" "technology" [Run.sourceA; Run.sourceB] = 7.
Proof. repeat split; vm_compute; reflexivity. Qed.

(** For a category code without underscore, the maximum age of a group in
    a full run is the value of the chain lang.category, lang.default, global
    default (5 when nothing is configured), replaced by the maximum of that
    value and the few-sources threshold when the group has at most 3
    sources. *)
Lemma max_age_resolution {W} (uc : FetchNewsUseCase W) (cat lang : string)
    (srcs : list domain.NewsSource) (st : State W) :
  Contains cat "_" = false ->
  processGroup uc (cat ++ "_" ++ lang) srcs st
  = (let (g, st') :=
       processSources uc cat lang (getNewsCount uc lang cat)
         (Spec.effectiveMaxDays (config uc) lang cat (length srcs)) srcs emptyGroup st in
     (Some g, st')).
Proof.
  intros Hcat. unfold processGroup. rewrite (SplitN2_groupKey cat lang Hcat).
  rewrite groupMaxDays_effective. unfold bind, ret.
  destruct (processSources _ _ _ _ _ _ _ _). reflexivity.
Qed.

(** A single-source run that finds its source and fetches its feed uses the
    value of the chain as it is, for the category and language of the
    source. *)
Lemma max_age_single_source {W} (uc : FetchNewsUseCase W) (id : Z)
    (source : domain.NewsSource) (feedItems : list domain.NewsItem)
    (st : State W) (w1 w2 : W) :
  iface.FindByID (newsSourceRepo uc) id (world st) = ((Some source, None), w1) ->
  fetchSource uc source (mkState w1 (logs st)) = ((feedItems, None), mkState w2 (logs st)) ->
  ExecuteForSourceItems uc id st
  = (let (stored, st') :=
       processSourceItems uc (domain.CategoryCode source) (domain.LangCode source)
         (Spec.fallbackChain (MaxDays (config uc)) (domain.LangCode source)
            (domain.CategoryCode source) 5)
         (GetMaxPerSource (config uc) (domain.LangCode source)
            (domain.CategoryCode source))
         source feedItems 0 ∅ ∅ [] (mkState w2 (logs st)) in
     ((None, stored), st')).
Proof.
  intros Hfind Hfetch. unfold ExecuteForSourceItems, bind, ret.
  unfold call at 1. rewrite Hfind. cbn [world logs].
  rewrite Hfetch. unfold GetMaxDays. rewrite getIntValueFromNestedMap_chain.
  destruct (processSourceItems _ _ _ _ _ _ _ _ _ _ _ _). reflexivity.
Qed.

(** C7. A full run finds category and language of a group by splitting the
    key [category_language] at its first underscore.  For the four sources
    of category [world_news] in Spanish, configured with a maximum age of 3
    days, the claim gives 3 days, and so does the single-source run, which
    stores nothing of a feed whose only entry is four days old; the full run
    splits the key into [world] and [news_es], resolves the maximum age of
    that pair, the global default 5, and stores the entry. *)
Theorem underscore_category_max_age :
  let uc := RunWorldNews.useCase in
  let st := Run.initial [] in
  Spec.effectiveMaxDays (config uc) "es" "world_news" (length RunWorldNews.sources) = 3
  /\ fst (ExecuteForSourceItems uc 1 st) = (None, [])
  /\ Forall (fun src => groupKey src = "world_news_es") RunWorldNews.sources
  /\ SplitN2 "world_news_es" "_" = ["world"; "news_es"]
  /\ groupMaxDays uc "news_es" "world" RunWorldNews.sources = 5
  /\ fst (fst (ExecuteGroups uc map_to_list st)) = None
  /\ map (fun kg => (fst kg, option_map (fun g => map domain.Title (noticias g)) (snd kg)))
       (snd (fst (ExecuteGroups uc map_to_list st)))
     = [("world_news_es", Some ["Example Headline Today"])]
  /\ map domain.PubDate (Run.stored (world (snd (ExecuteGroups uc map_to_list st))))
     = [Run.start - 4 * (24 * Run.hour)].
Proof.
  cbv zeta. split; [vm_compute; reflexivity|]. split; [vm_compute; reflexivity|].
  split; [repeat (apply Forall_cons; split; [vm_compute; reflexivity|]); apply Forall_nil; exact I|].
  repeat split; vm_compute; reflexivity.
Qed.

(** ** Pattern detector *)

Lemma countValid_filter (valid : domain.NewsItem -> bool) (items : list domain.NewsItem) :
  countValid valid items = Z.of_nat (length (filter (fun i => valid i = true) items)).
Proof.
  unfold countValid.
  enough (H : forall acc,
             fold_left (fun validItems item => if valid item then validItems + 1 else validItems)
               items acc
             = acc + Z.of_nat (length (filter (fun i => valid i = true) items))).
  { rewrite H. lia. }
  induction items as [|i items IH]; intros acc; cbn [fold_left].
  - cbn. lia.
  - rewrite IH. rewrite filter_cons. destruct (valid i) eqn:V.
    + rewrite decide_True by reflexivity. cbn [length]. lia.
    + rewrite decide_False by discriminate. lia.
Qed.

Lemma valid_goodCandidate (needImage : bool) (i : domain.NewsItem) :
  (if needImage then validWithImage i else validWithoutImage i)
  = Spec.goodCandidate len needImage i.
Proof.
  unfold validWithImage, validWithoutImage, Spec.goodCandidate.
  rewrite Z.gtb_ltb.
  destruct needImage, (nonEmpty (domain.Title i)), (nonEmpty (domain.Link i)),
    (nonEmpty (domain.Image i)), (10 <? len (domain.Title i)); reflexivity.
Qed.

(** The test of the two probing loops is the "passes" of the specification. *)
Lemma probe_test_passes (needImage : bool) (items : list domain.NewsItem)
    (err : option error) :
  isNil err && (0 <? Z.of_nat (length items))
  && (countValid (if needImage then validWithImage else validWithoutImage) items >=? 2)
  = Spec.passes len needImage (items, err).
Proof.
  unfold Spec.passes. cbn [fst snd]. rewrite countValid_filter.
  assert (E : filter (fun i => (if needImage then validWithImage else validWithoutImage) i = true) items
              = filter (fun i => Spec.goodCandidate len needImage i = true) items).
  { apply list_filter_iff. intros i. rewrite <- valid_goodCandidate.
    destruct needImage; reflexivity. }
  rewrite E. clear E.
  set (good := filter _ items).
  assert (Hle : (length good <= length items)%nat) by apply length_filter.
  destruct (isNil err); cbn [andb]; [|reflexivity].
  destruct (Nat.leb_spec 2 (length good)) as [H2|H2].
  - destruct (Z.ltb_spec 0 (Z.of_nat (length items))); [|lia].
    cbn [andb]. apply Z.geb_le. lia.
  - destruct (0 <? Z.of_nat (length items)); cbn [andb]; [|reflexivity].
    destruct (Z.geb_spec (Z.of_nat (length good)) 2); [lia | reflexivity].
Qed.

Lemma testPatternsWithImage_firstPassing {W} (h : Handler W) (url : string)
    (patterns : list string) (st : State W) :
  testPatternsWithImage h url patterns st
  = (let (r, st') := Spec.firstPassing len h url (map (fun p => (p, true)) patterns) st in
     (answer "no se encontró patrón válido con imagen" r, st')).
Proof.
  revert st. induction patterns as [|p rest IH]; intros st; [reflexivity|].
  cbn [testPatternsWithImage Spec.firstPassing map]. unfold bind.
  destruct (call _ st) as [[items err] st1].
  rewrite <- (probe_test_passes true).
  destruct (isNil err && _ && _); [reflexivity | apply IH].
Qed.

Lemma testPatternsWithoutImage_firstPassing {W} (h : Handler W) (url : string)
    (patterns : list string) (st : State W) :
  testPatternsWithoutImage h url patterns st
  = (let (r, st') := Spec.firstPassing len h url (map (fun p => (p, false)) patterns) st in
     (answer "no se encontró patrón válido sin imagen" r, st')).
Proof.
  revert st. induction patterns as [|p rest IH]; intros st; [reflexivity|].
  cbn [testPatternsWithoutImage Spec.firstPassing map]. unfold bind.
  destruct (call _ st) as [[items err] st1].
  rewrite <- (probe_test_passes false).
  destruct (isNil err && _ && _); [reflexivity | apply IH].
Qed.

Lemma firstPassing_app {W} (size : string -> Z) (h : Handler W) (url : string)
    (l1 l2 : list (string * bool)) (st : State W) :
  Spec.firstPassing size h url (l1 ++ l2) st
  = (let (r, st') := Spec.firstPassing size h url l1 st in
     match r with
     | Some p => (Some p, st')
     | None => Spec.firstPassing size h url l2 st'
     end).
Proof.
  revert st. induction l1 as [|[p b] l1 IH]; intros st; [reflexivity|].
  cbn [app Spec.firstPassing]. unfold bind.
  destruct (call _ st) as [r st1].
  destruct (Spec.passes size b r); [reflexivity | apply IH].
Qed.

Lemma firstPassing_elem {W} (size : string -> Z) (h : Handler W) (url : string)
    (probes : list (string * bool)) (st st' : State W) (p : string) :
  Spec.firstPassing size h url probes st = (Some p, st') -> p ∈ map fst probes.
Proof.
  revert st. induction probes as [|[q b] probes IH]; intros st; [discriminate|].
  cbn [Spec.firstPassing map fst]. unfold bind.
  destruct (call _ st) as [r st1].
  destruct (Spec.passes size b r).
  - intros [= -> _]. apply list_elem_of_here.
  - intros H. apply list_elem_of_further. exact (IH _ H).
Qed.

(** C8 (as amended). Pattern detection probes patron1, patron2, patron3 with
    the image requirement and then patron1_no_image, patron2_no_image,
    patron3_no_image without it, returns the first pattern whose fetch passes
    (no error and at least 2 candidates with a title of more than 10 bytes in
    its UTF-8 encoding and a link, and an image where required), and returns
    an error exactly when none passes. *)
Theorem detectBestPattern_first_passing {W} (h : Handler W) (rssURL : string)
    (st : State W) :
  detectBestPattern h rssURL st
  = (let (r, st') := Spec.firstPassing len h (TrimSpace rssURL) Spec.probingOrder st in
     (answer "no se pudo detectar un patrón válido para esta URL" r, st'))
  /\ (snd (fst (detectBestPattern h rssURL st)) <> None
      <-> fst (Spec.firstPassing len h (TrimSpace rssURL) Spec.probingOrder st) = None).
Proof.
  assert (E : detectBestPattern h rssURL st
              = (let (r, st') := Spec.firstPassing len h (TrimSpace rssURL) Spec.probingOrder st in
                 (answer "no se pudo detectar un patrón válido para esta URL" r, st'))).
  { unfold detectBestPattern, bind.
    rewrite testPatternsWithImage_firstPassing.
    change Spec.probingOrder
      with (map (fun p => (p, true)) ["patron1"; "patron2"; "patron3"]
            ++ map (fun p => (p, false))
                 ["patron1_no_image"; "patron2_no_image"; "patron3_no_image"])%list.
    rewrite firstPassing_app.
    destruct (Spec.firstPassing len h (TrimSpace rssURL) (map _ ["patron1"; "patron2"; "patron3"]) st)
      as [[p|] st1] eqn:E1.
    - apply firstPassing_elem in E1. cbn [answer isNil andb].
      assert (Hp : nonEmpty p = true).
      { cbn in E1. rewrite !elem_of_cons, elem_of_nil in E1.
        destruct E1 as [->|[->|[->|[]]]]; reflexivity. }
      rewrite Hp. reflexivity.
    - cbn [answer isNil andb]. rewrite testPatternsWithoutImage_firstPassing.
      destruct (Spec.firstPassing len h (TrimSpace rssURL) (map _ _) st1) as [[p|] st2] eqn:E2.
      + apply firstPassing_elem in E2. cbn [answer isNil andb].
        assert (Hp : nonEmpty p = true).
        { cbn in E2. rewrite !elem_of_cons, elem_of_nil in E2.
          destruct E2 as [->|[->|[->|[]]]]; reflexivity. }
        rewrite Hp. reflexivity.
      + reflexivity. }
  split; [exact E|]. rewrite E.
  destruct (Spec.firstPassing len h (TrimSpace rssURL) Spec.probingOrder st) as [[p|] st'];
    cbn; split; congruence.
Qed.

(** The original wording of C8 does not hold: two candidates whose titles
    have six accented letters, six characters in twelve bytes, make patron1
    pass, although no pattern yields a candidate with a title longer than 10
    characters, for which the claim gives an error. *)
Lemma detect_measures_bytes :
  let st := Run.initial [] in
  fst (detectBestPattern RunAccents.handler "http://x/rss" st) = ("patron1", None)
  /\ fst (Spec.firstPassing Spec.characters RunAccents.handler "http://x/rss"
            Spec.probingOrder st) = None
  /\ Spec.characters "áéíóúñ" = 6 /\ len "áéíóúñ" = 12.
Proof. cbv zeta. repeat split; vm_compute; reflexivity. Qed.

Example detect_no_image_only :
  fst (detectBestPattern {| RSSFetcher := Run.feeds |} " http://c/rss " (Run.initial []))
  = ("patron1_no_image", None).
Proof. vm_compute. reflexivity. Qed.

Example detect_nothing :
  fst (detectBestPattern {| RSSFetcher := Run.feeds |} "http://b/rss" (Run.initial []))
  = ("", Some "no se pudo detectar un patrón válido para esta URL").
Proof. vm_compute. reflexivity. Qed.

(** ** Admission pipeline: one candidate *)

Lemma lengthCheck_test (minTitle maxTitle n : Z) :
  (n <? minTitle) || (n >? maxTitle) = negb ((minTitle <=? n) && (n <=? maxTitle)).
Proof.
  rewrite Z.gtb_ltb.
  destruct (Z.ltb_spec n minTitle), (Z.leb_spec minTitle n), (Z.ltb_spec maxTitle n),
    (Z.leb_spec n maxTitle); cbn; try reflexivity; lia.
Qed.

(** Simplification after a case of a test or of a call has been taken. *)
Ltac go_simp :=
  cbv beta iota zeta delta [Spec.cTitle Spec.cLink Spec.cImage Spec.cDate negb].

(** The candidate body of the two loops runs the seven checks in their order
    and stops at the first that fails; a candidate that passed all of them
    is handed to [Create].  The age test of the fifth check is any test that
    decides as the code does on the date of the candidate. *)
Lemma admitCandidate_admission_with {W} (uc : FetchNewsUseCase W) (h : Heading)
    (cat lang : string) (maxDays : Z) (src : domain.NewsSource)
    (linksSeen titlesSeen : gset string) (tooOld : Time -> Time -> bool)
    (item : domain.NewsItem) (st : State W) :
  (forall now, tooOld now (domain.PubDate item)
               = exceedsMaxAge maxDays now (domain.PubDate item)) ->
  admitCandidate uc h cat lang maxDays src linksSeen titlesSeen item st
  = Spec.admission uc h cat lang maxDays src linksSeen titlesSeen tooOld item st.
Proof.
  intros Hold.
  unfold admitCandidate, Spec.admission, Spec.admissionChecks.
  cbn [Spec.firstFailure].
  unfold Spec.blacklistCheck, Spec.lengthCheck, Spec.linkDuplicateCheck,
    Spec.titleDuplicateCheck, Spec.ageCheck, Spec.imagePresenceCheck,
    Spec.imageQualificationCheck, Spec.candOf, Spec.itemOf.
  cbn [Spec.cTitle Spec.cLink Spec.cImage Spec.cDate].
  rewrite lengthCheck_test.
  unfold bind, ret.
  destruct (isBlacklisted _ _); [reflexivity|].
  destruct (_ && _); go_simp; [|reflexivity].
  destruct (bool_decide (domain.Link item ∈ linksSeen)); go_simp; [reflexivity|].
  destruct (bool_decide (_ ∈ titlesSeen)); go_simp; [reflexivity|].
  unfold Since, bind, ret.
  destruct (call (time_Now uc) st) as [now st1].
  rewrite Hold. unfold exceedsMaxAge.
  destruct (Sub now (domain.PubDate item) >? maxAge maxDays); go_simp; [reflexivity|].
  destruct (nonEmpty (domain.Image item)) eqn:Himg; go_simp.
  - destruct (Contains (domain.Image item) "/images/fallback/"); go_simp.
    + destruct (call _ st1) as [[|] st2]; go_simp; reflexivity.
    + destruct (call _ st1) as [[[|] [e|]] st2]; go_simp; reflexivity.
  - destruct (Contains (getString (domain.Filter src)) "no_image"); go_simp; [|reflexivity].
    destruct (getFallbackImage uc cat lang st1) as [fb st2].
    destruct (nonEmpty fb); go_simp; [|reflexivity].
    destruct (Contains fb "/images/fallback/"); go_simp.
    + destruct (call _ st2) as [[|] st3]; go_simp; reflexivity.
    + destruct (call _ st2) as [[[|] [e|]] st3]; go_simp; reflexivity.
Qed.

(** The same with the age test as the code computes it. *)
Lemma admitCandidate_admission {W} (uc : FetchNewsUseCase W) (h : Heading) (cat lang : string)
    (maxDays : Z) (src : domain.NewsSource) (linksSeen titlesSeen : gset string)
    (item : domain.NewsItem) (st : State W) :
  admitCandidate uc h cat lang maxDays src linksSeen titlesSeen item st
  = Spec.admission uc h cat lang maxDays src linksSeen titlesSeen
      (exceedsMaxAge maxDays) item st.
Proof. apply admitCandidate_admission_with. reflexivity. Qed.

(** Up to 106751 days the limit in nanoseconds fits a [time.Duration], and
    the age test of the code decides as the specification says. *)
Lemma maxAge_days (maxDays : Z) :
  - 106751 <= maxDays <= 106751 -> maxAge maxDays = maxDays * (24 * Hour).
Proof.
  intros H. unfold maxAge, wrap64, Hour.
  rewrite (Z.mod_small (maxDays * 24 + 2 ^ 63)) by lia.
  replace (maxDays * 24 + 2 ^ 63 - 2 ^ 63) with (maxDays * 24) by lia.
  rewrite Z.mod_small by lia. lia.
Qed.

Lemma exceedsMaxAge_olderThan (maxDays : Z) (now pubDate : Time) :
  - 106751 <= maxDays <= 106751 ->
  exceedsMaxAge maxDays now pubDate = Spec.olderThan maxDays now pubDate.
Proof.
  intros H. unfold exceedsMaxAge, Spec.olderThan. rewrite (maxAge_days maxDays H).
  unfold Sub, minDuration, maxDuration, Hour.
  destruct (Z.gtb_spec (Z.max (- 2 ^ 63) (Z.min (2 ^ 63 - 1) (now - pubDate)))
              (maxDays * (24 * (3600 * 1000000000))));
    destruct (Z.gtb_spec (now - pubDate) (maxDays * (24 * (3600 * 1000000000))));
    try reflexivity; lia.
Qed.

Lemma discard_verdict {W} (h : Heading) (title : string) (r : Reason) (st : State W) :
  fst (discard h title r st) = Discarded r.
Proof.
  unfold discard, report, bind, ret, logEv.
  destruct h; [destruct (isImageError r)|]; reflexivity.
Qed.

(** What [Spec.admission] returns, by the result of the checks and of [Create]. *)
Lemma admission_Accepted {W} (uc : FetchNewsUseCase W) (h : Heading) (cat lang : string)
    (maxDays : Z) (src : domain.NewsSource) (linksSeen titlesSeen : gset string)
    (tooOld : Time -> Time -> bool)
    (item : domain.NewsItem) (st st' : State W) (n : domain.NewsItem) :
  Spec.admission uc h cat lang maxDays src linksSeen titlesSeen tooOld item st
  = (Accepted n, st')
  <-> exists c st1,
        Spec.firstFailure
          (Spec.admissionChecks uc cat lang maxDays src linksSeen titlesSeen tooOld)
          (Spec.candOf item) st = (inr c, st1)
        /\ call (iface.Create (newsItemRepo uc) (Spec.itemOf cat lang src c)) st1 = (None, st')
        /\ n = Spec.itemOf cat lang src c.
Proof.
  unfold Spec.admission, bind.
  destruct (Spec.firstFailure _ _ st) as [[reason|c] st1].
  - split.
    + intros H. apply (f_equal fst) in H. rewrite discard_verdict in H. discriminate.
    + intros (c & st2 & [=] & _).
  - destruct (call _ st1) as [[e|] st2] eqn:HC.
    + split.
      * unfold reportStorage, ret, logEv. destruct h; discriminate.
      * intros (c' & st3 & [= <- <-] & HC' & _). rewrite HC in HC'. discriminate.
    + unfold ret. split.
      * intros [= <- <-]. exists c, st1. auto.
      * intros (c' & st3 & [= <- <-] & HC' & ->). rewrite HC in HC'.
        injection HC' as <-. reflexivity.
Qed.

(** C1 (as amended). For a maximum age between -106751 and 106751 days, the
    range in which the limit in nanoseconds fits a [time.Duration], every
    candidate
    that the loop processes goes through the seven admission checks in the
    order blacklist, title length, link duplicate, title duplicate, age
    ([now − pubDate] must not exceed [maxDays] days), image presence with
    fallback resolution, image qualification; the first failing check
    discards it; it is stored exactly when it passes all seven and [Create]
    succeeds, and it is counted exactly when it is stored. *)
Theorem admission_by_ordered_checks {W} (uc : FetchNewsUseCase W) (h : Heading)
    (cat lang : string) (maxDays : Z) (src : domain.NewsSource)
    (g : GroupState) (item : domain.NewsItem) (st : State W) :
  - 106751 <= maxDays <= 106751 ->
  let verdict := admitCandidate uc h cat lang maxDays src (linksVistos g) (titulosVistos g) item in
  let checks := Spec.admissionChecks uc cat lang maxDays src (linksVistos g) (titulosVistos g)
                  (Spec.olderThan maxDays) in
  verdict st = Spec.admission uc h cat lang maxDays src (linksVistos g) (titulosVistos g)
                 (Spec.olderThan maxDays) item st
  /\ (forall reason st1,
        Spec.firstFailure checks (Spec.candOf item) st = (inl reason, st1) ->
        fst (verdict st) = Discarded reason)
  /\ (forall n st',
        verdict st = (Accepted n, st')
        <-> exists c st1,
              Spec.firstFailure checks (Spec.candOf item) st = (inr c, st1)
              /\ call (iface.Create (newsItemRepo uc) (Spec.itemOf cat lang src c)) st1
                 = (None, st')
              /\ n = Spec.itemOf cat lang src c)
  /\ (forall sourceValidCount,
        match fst (verdict st) with
        | Accepted n =>
            noticias (applyVerdict src g (fst (verdict st))) = (noticias g ++ [n])%list
            /\ countVerdict sourceValidCount (fst (verdict st)) = sourceValidCount + 1
            /\ sourceCount (applyVerdict src g (fst (verdict st))) (domain.SourceName src)
               = sourceCount g (domain.SourceName src) + 1
        | _ =>
            noticias (applyVerdict src g (fst (verdict st))) = noticias g
            /\ countVerdict sourceValidCount (fst (verdict st)) = sourceValidCount
            /\ sourceCount (applyVerdict src g (fst (verdict st))) (domain.SourceName src)
               = sourceCount g (domain.SourceName src)
        end).
Proof.
  intros Hdays verdict checks. subst verdict checks.
  assert (E : admitCandidate uc h cat lang maxDays src (linksVistos g) (titulosVistos g) item st
              = Spec.admission uc h cat lang maxDays src (linksVistos g) (titulosVistos g)
                  (Spec.olderThan maxDays) item st).
  { apply admitCandidate_admission_with. intros now. symmetry.
    apply exceedsMaxAge_olderThan. exact Hdays. }
  repeat split.
  - exact E.
  - intros reason st1 H. rewrite E. unfold Spec.admission, bind.
    rewrite H. apply discard_verdict.
  - rewrite E. apply admission_Accepted.
  - rewrite E. apply admission_Accepted.
  - intros svc. destruct (fst (admitCandidate _ _ _ _ _ _ _ _ _ _)); cbn; repeat split.
    unfold sourceCount. cbn. rewrite lookup_insert_eq. reflexivity.
Qed.

Lemma admission_by_ordered_checks_witness :
  let st := Run.initial [] in
  let g := emptyGroup in
  let verdict := admitCandidate Run.useCase (NewsLog "technology" "es") "technology" "es" 7
                   Run.sourceA (linksVistos g) (titulosVistos g) Run.headline in
  let checks := Spec.admissionChecks Run.useCase "technology" "es" 7 Run.sourceA
                  (linksVistos g) (titulosVistos g) (Spec.olderThan 7) in
  verdict st = Spec.admission Run.useCase (NewsLog "technology" "es") "technology" "es" 7
                 Run.sourceA (linksVistos g) (titulosVistos g) (Spec.olderThan 7)
                 Run.headline st
  /\ (forall reason st1,
        Spec.firstFailure checks (Spec.candOf Run.headline) st = (inl reason, st1) ->
        fst (verdict st) = Discarded reason)
  /\ (forall n st',
        verdict st = (Accepted n, st')
        <-> exists c st1,
              Spec.firstFailure checks (Spec.candOf Run.headline) st = (inr c, st1)
              /\ call (iface.Create (newsItemRepo Run.useCase)
                         (Spec.itemOf "technology" "es" Run.sourceA c)) st1
                 = (None, st')
              /\ n = Spec.itemOf "technology" "es" Run.sourceA c)
  /\ (forall sourceValidCount,
        match fst (verdict st) with
        | Accepted n =>
            noticias (applyVerdict Run.sourceA g (fst (verdict st))) = (noticias g ++ [n])%list
            /\ countVerdict sourceValidCount (fst (verdict st)) = sourceValidCount + 1
            /\ sourceCount (applyVerdict Run.sourceA g (fst (verdict st)))
                 (domain.SourceName Run.sourceA)
               = sourceCount g (domain.SourceName Run.sourceA) + 1
        | _ =>
            noticias (applyVerdict Run.sourceA g (fst (verdict st))) = noticias g
            /\ countVerdict sourceValidCount (fst (verdict st)) = sourceValidCount
            /\ sourceCount (applyVerdict Run.sourceA g (fst (verdict st)))
                 (domain.SourceName Run.sourceA)
               = sourceCount g (domain.SourceName Run.sourceA)
        end).
Proof.
  apply (admission_by_ordered_checks Run.useCase (NewsLog "technology" "es")
           "technology" "es" 7 Run.sourceA emptyGroup Run.headline (Run.initial [])).
  lia.
Defined.

(** The original wording of C1 does not hold: a candidate can pass all seven
    checks and still not be stored, when [Create] fails. *)
Lemma all_checks_passed_not_stored :
  let st := Run.initial [Some "deadlock"] in
  (exists c st1,
     Spec.firstFailure
       (Spec.admissionChecks Run.useCase "technology" "es" 7 Run.sourceA ∅ ∅
          (Spec.olderThan 7))
       (Spec.candOf Run.headline) st = (inr c, st1))
  /\ ~ (exists n st',
          admitCandidate Run.useCase (NewsLog "technology" "es") "technology" "es" 7
            Run.sourceA ∅ ∅ Run.headline st = (Accepted n, st')).
Proof.
  split.
  - eexists. eexists. vm_compute. reflexivity.
  - intros (n & st' & H). vm_compute in H. discriminate.
Qed.

(** What is known of a candidate that passed the seven checks. *)
Lemma checks_passed {W} (uc : FetchNewsUseCase W) (cat lang : string) (maxDays : Z)
    (src : domain.NewsSource) (linksSeen titlesSeen : gset string)
    (tooOld : Time -> Time -> bool) (c c' : Spec.Cand) (st st' : State W) :
  Spec.firstFailure
    (Spec.admissionChecks uc cat lang maxDays src linksSeen titlesSeen tooOld) c st
  = (inr c', st') ->
  Spec.cTitle c' = Spec.cTitle c /\ Spec.cLink c' = Spec.cLink c
  /\ Spec.cDate c' = Spec.cDate c
  /\ (Spec.cLink c ∉ linksSeen) /\ (Spec.cTitle c ∉ titlesSeen)
  /\ isBlacklisted (strings_ToLower uc) (Spec.cTitle c) = false
  /\ MinTitle (Filters (config uc)) <= len (Spec.cTitle c) <= MaxTitle (Filters (config uc))
  /\ Spec.cImage c' <> "".
Proof.
  unfold Spec.admissionChecks. cbn [Spec.firstFailure].
  unfold Spec.blacklistCheck, Spec.lengthCheck, Spec.linkDuplicateCheck,
    Spec.titleDuplicateCheck, Spec.ageCheck, Spec.imagePresenceCheck,
    Spec.imageQualificationCheck, bind, ret.
  destruct (isBlacklisted _ _) eqn:Hb; [discriminate|].
  destruct (_ && _) eqn:Hl; [|discriminate].
  destruct (bool_decide (Spec.cLink c ∈ linksSeen)) eqn:Hk; [discriminate|].
  destruct (bool_decide (Spec.cTitle c ∈ titlesSeen)) eqn:Ht; [discriminate|].
  apply bool_decide_eq_false in Hk, Ht. apply andb_true_iff in Hl as [Hl1 Hl2].
  apply Z.leb_le in Hl1, Hl2.
  destruct (call (time_Now uc) st) as [now st1].
  destruct (tooOld now (Spec.cDate c)); [discriminate|].
  assert (Hq : forall c0 s0,
             (let (a, s') := Spec.imageQualificationCheck uc c0 s0 in
              match a with
              | inl reason => fun s => (inl reason, s)
              | inr c'0 => fun s => (@inr Reason _ c'0, s)
              end s') = (inr c', st') -> c' = c0).
  { intros c0 s0. unfold Spec.imageQualificationCheck, bind, ret.
    destruct (Contains (Spec.cImage c0) "/images/fallback/").
    - destruct (call _ s0) as [[|] s1]; [discriminate|]. now intros [= <- _].
    - destruct (call _ s0) as [[[|] [e|]] s1]; try discriminate. now intros [= <- _]. }
  unfold Spec.imageQualificationCheck, bind, ret in Hq.
  destruct (nonEmpty (Spec.cImage c)) eqn:Hi.
  - intros H. apply Hq in H. subst c'. apply nonEmpty_true in Hi. auto 10.
  - destruct (Contains (getString (domain.Filter src)) "no_image"); [|discriminate].
    destruct (getFallbackImage uc cat lang st1) as [fb st2].
    destruct (nonEmpty fb) eqn:Hf; [|discriminate].
    intros H. apply Hq in H. subst c'. cbn. apply nonEmpty_true in Hf. auto 10.
Qed.

(** What is known of an admitted item. *)
Lemma admitted_item {W} (uc : FetchNewsUseCase W) (h : Heading) (cat lang : string)
    (maxDays : Z) (src : domain.NewsSource) (linksSeen titlesSeen : gset string)
    (item n : domain.NewsItem) (st st' : State W) :
  admitCandidate uc h cat lang maxDays src linksSeen titlesSeen item st = (Accepted n, st') ->
  domain.Link n = domain.Link item /\ domain.Title n = cleanText (domain.Title item)
  /\ (domain.Link n ∉ linksSeen) /\ (domain.Title n ∉ titlesSeen)
  /\ MinTitle (Filters (config uc)) <= len (domain.Title n) <= MaxTitle (Filters (config uc))
  /\ domain.Image n <> "".
Proof.
  rewrite admitCandidate_admission, admission_Accepted.
  intros (c & st1 & Hc & _ & ->). apply checks_passed in Hc. cbn in *.
  destruct Hc as (-> & -> & _ & ? & ? & _ & ? & ?). auto 10.
Qed.

(** ** Admission pipeline: the group invariant *)


Lemma NoDup_map_snoc {A B} (f : A -> B) (l : list A) (x : A) :
  NoDup (map f l) -> (forall y, y ∈ l -> f y <> f x) -> NoDup (map f (l ++ [x])).
Proof.
  intros Hnd Hfresh. rewrite map_app. apply NoDup_app. split; [exact Hnd|]. split.
  - intros b Hb Hx. cbn in Hx. apply list_elem_of_singleton in Hx. subst b.
    apply list_elem_of_In, in_map_iff in Hb as (y & Hy & Hin).
    apply (Hfresh y); [now apply list_elem_of_In | exact Hy].
  - cbn. apply NoDup_singleton.
Qed.







(** ** Admission pipeline: errors *)

Lemma admission_StorageFailed {W} (uc : FetchNewsUseCase W) (h : Heading) (cat lang : string)
    (maxDays : Z) (src : domain.NewsSource) (linksSeen titlesSeen : gset string)
    (item : domain.NewsItem) (st st' : State W) (e : error) :
  admitCandidate uc h cat lang maxDays src linksSeen titlesSeen item st = (StorageFailed e, st') ->
  exists c st1,
    Spec.firstFailure
      (Spec.admissionChecks uc cat lang maxDays src linksSeen titlesSeen
         (exceedsMaxAge maxDays))
      (Spec.candOf item) st = (inr c, st1)
    /\ fst (iface.Create (newsItemRepo uc) (Spec.itemOf cat lang src c) (world st1)) = Some e.
Proof.
  rewrite admitCandidate_admission. unfold Spec.admission, bind.
  destruct (Spec.firstFailure _ _ st) as [[reason|c] st1].
  - intros H. apply (f_equal fst) in H. rewrite discard_verdict in H. discriminate.
  - unfold call. destruct (iface.Create _ _ (world st1)) as [[e'|] w'] eqn:HC.
    + unfold reportStorage, logEv, ret. intros H. exists c, st1. split; [reflexivity|].
      rewrite HC. cbn [fst]. destruct h; injection H as -> _; reflexivity.
    + discriminate.
Qed.

Lemma processItems_step {W} (uc : FetchNewsUseCase W) (cat lang : string)
    (tope maxDays maxPerSource : Z) (src : domain.NewsSource) (item : domain.NewsItem)
    (rest : list domain.NewsItem) (g : GroupState) (svc : Z) (st st1 : State W)
    (v : Verdict) :
  Z.of_nat (length (noticias g)) < tope ->
  sourceCount g (domain.SourceName src) < maxPerSource ->
  admitCandidate uc (NewsLog cat lang) cat lang maxDays src (linksVistos g) (titulosVistos g)
    item st = (v, st1) ->
  (forall n, v <> Accepted n) ->
  processItems uc cat lang tope maxDays maxPerSource src (item :: rest) g svc st
  = processItems uc cat lang tope maxDays maxPerSource src rest (applyVerdict src g v)
      (countVerdict svc v) st1.
Proof.
  intros Ht Hs Hv Hn. cbn [processItems]. unfold bind.
  destruct (Z.geb_spec (Z.of_nat (length (noticias g))) tope); [lia|].
  destruct (Z.geb_spec (sourceCount g (domain.SourceName src)) maxPerSource); [lia|].
  rewrite Hv. destruct v as [r|e|n]; [reflexivity | reflexivity |].
  exfalso. exact (Hn n eq_refl).
Qed.

(** C9. A full run returns an error exactly when listing the active sources
    fails.  A failure of the purge is logged as a warning and the run goes on
    with the listing; a source whose feed cannot be fetched is logged and the
    loop goes on with the next source; a candidate whose [Create] fails is
    logged and the loop goes on with the next candidate. *)
Theorem Execute_error_iff_listing_fails {W} (uc : FetchNewsUseCase W) (range_ : MapOrder)
    (st : State W) :
  (is_Some (fst (Execute uc range_ st))
   <-> is_Some (snd (fst (iface.ListActive (newsSourceRepo uc) (world (snd (purge uc st)))))))
  /\ (forall e st0,
        cleanOldNews uc st = (Some e, st0) ->
        ExecuteGroups uc range_ st
        = listAndProcess uc range_ (mkState (world st0) (logs st0 ++ [purgeWarning e])))
  /\ (forall cat lang tope maxDays src rest g feedItems e st0 st1,
        fetchSource uc src st0 = ((feedItems, Some e), st1) ->
        processSources uc cat lang tope maxDays (src :: rest) g st0
        = processSources uc cat lang tope maxDays rest g
            (mkState (world st1) (logs st1 ++ [EvSourceError (domain.RSSURL src) e])))
  /\ (forall cat lang tope maxDays maxPerSource src item rest g svc e st0 st1,
        Z.of_nat (length (noticias g)) < tope ->
        sourceCount g (domain.SourceName src) < maxPerSource ->
        admitCandidate uc (NewsLog cat lang) cat lang maxDays src (linksVistos g)
          (titulosVistos g) item st0 = (StorageFailed e, st1) ->
        processItems uc cat lang tope maxDays maxPerSource src (item :: rest) g svc st0
        = processItems uc cat lang tope maxDays maxPerSource src rest g svc st1).
Proof.
  repeat split.
  - unfold Execute, ExecuteGroups, listAndProcess, bind, ret, call.
    destruct (purge uc st) as [[] st1]. cbn [snd].
    destruct (iface.ListActive _ (world st1)) as [[sources [e|]] w2]; cbn [fst snd].
    + intros _. eauto.
    + destruct (processGroups _ _ _). cbn. intros [x Hx]. discriminate.
  - unfold Execute, ExecuteGroups, listAndProcess, bind, ret, call.
    destruct (purge uc st) as [[] st1]. cbn [snd].
    destruct (iface.ListActive _ (world st1)) as [[sources [e|]] w2]; cbn [fst snd].
    + intros _. eauto.
    + intros [x Hx]. discriminate.
  - intros e st0 Hc. unfold ExecuteGroups, purge, bind. rewrite Hc. reflexivity.
  - intros cat lang tope maxDays src rest g feedItems e st0 st1 Hf.
    cbn [processSources]. unfold bind. rewrite Hf. reflexivity.
  - intros cat lang tope maxDays maxPerSource src item rest g svc e st0 st1 Ht Hs Hv.
    now rewrite (processItems_step uc cat lang tope maxDays maxPerSource src item rest g svc
                   st0 st1 (StorageFailed e) Ht Hs Hv).
Qed.

(** A run whose purge fails and whose second source cannot be fetched: no
    error is returned. *)
Lemma Execute_error_iff_listing_fails_witness :
  ExecuteGroups Run.useCase map_to_list (mkState (Run.world [] true false) [])
  = listAndProcess Run.useCase map_to_list
      (mkState (snd (Run.tick (Run.world [] true false)))
         [purgeWarning "error limpiando noticias de la BD: connection refused"])
  /\ fst (Execute Run.useCase map_to_list (mkState (Run.world [] true false) [])) = None.
Proof.
  split.
  - apply (proj1 (proj2 (Execute_error_iff_listing_fails Run.useCase map_to_list
                           (mkState (Run.world [] true false) [])))
             "error limpiando noticias de la BD: connection refused"
             (mkState (snd (Run.tick (Run.world [] true false))) [])).
    vm_compute. reflexivity.
  - vm_compute. reflexivity.
Defined.

Example Execute_listing_fails :
  fst (Execute Run.useCase map_to_list (mkState (Run.world [] false true) []))
  = Some "error al obtener las fuentes de noticias: connection refused".
Proof. vm_compute. reflexivity. Qed.

(** C10. When [Create] fails for a candidate, the state of the group is what
    it was before the candidate: nothing is added to the admitted items, to
    the links seen or to the titles seen, no counter moves, and the link and
    the cleaned title of the candidate are still unseen, so that a later
    candidate with the same link or title is not taken for a duplicate. *)
Theorem storage_failure_leaves_group_unchanged {W} (uc : FetchNewsUseCase W)
    (cat lang : string) (tope maxDays maxPerSource : Z) (src : domain.NewsSource)
    (item : domain.NewsItem) (rest : list domain.NewsItem) (g : GroupState) (svc : Z)
    (e : error) (st st1 : State W) :
  Z.of_nat (length (noticias g)) < tope ->
  sourceCount g (domain.SourceName src) < maxPerSource ->
  admitCandidate uc (NewsLog cat lang) cat lang maxDays src (linksVistos g) (titulosVistos g)
    item st = (StorageFailed e, st1) ->
  let g' := applyVerdict src g (StorageFailed e) in
  g' = g
  /\ countVerdict svc (StorageFailed e) = svc
  /\ (domain.Link item ∉ linksVistos g')
  /\ (cleanText (domain.Title item) ∉ titulosVistos g')
  /\ processItems uc cat lang tope maxDays maxPerSource src (item :: rest) g svc st
     = processItems uc cat lang tope maxDays maxPerSource src rest g svc st1.
Proof.
  intros Ht Hs Hv g'. subst g'. cbn [applyVerdict countVerdict].
  destruct (admission_StorageFailed _ _ _ _ _ _ _ _ _ _ _ _ Hv) as (c & st0 & Hc & _).
  apply checks_passed in Hc as (_ & _ & _ & Hl & Htl & _).
  repeat split; try assumption.
  now rewrite (processItems_step uc cat lang tope maxDays maxPerSource src item rest g svc
                 st st1 (StorageFailed e) Ht Hs Hv).
Qed.

(** The first candidate passes the checks and [Create] fails; the same
    candidate comes again and the loop goes on from the unchanged group. *)
Lemma storage_failure_leaves_group_unchanged_witness :
  let st := Run.initial [Some "deadlock"] in
  let st1 := snd (admitCandidate Run.useCase (NewsLog "technology" "es") "technology" "es" 7
                    Run.sourceA (linksVistos emptyGroup) (titulosVistos emptyGroup)
                    Run.headline st) in
  let g' := applyVerdict Run.sourceA emptyGroup (StorageFailed "deadlock") in
  g' = emptyGroup
  /\ countVerdict 0 (StorageFailed "deadlock") = 0
  /\ (domain.Link Run.headline ∉ linksVistos g')
  /\ (cleanText (domain.Title Run.headline) ∉ titulosVistos g')
  /\ processItems Run.useCase "technology" "es" 10 7 7 Run.sourceA
       [Run.headline; Run.headline] emptyGroup 0 st
     = processItems Run.useCase "technology" "es" 10 7 7 Run.sourceA
         [Run.headline] emptyGroup 0 st1.
Proof.
  intros st st1.
  apply (storage_failure_leaves_group_unchanged Run.useCase "technology" "es" 10 7 7
           Run.sourceA Run.headline [Run.headline] emptyGroup 0 "deadlock" st st1).
  - vm_compute. reflexivity.
  - vm_compute. reflexivity.
  - vm_compute. reflexivity.
Defined.

(** After the failed [Create], the same candidate is admitted at its second
    appearance. *)
Example retry_after_storage_failure :
  let r := processItems Run.useCase "technology" "es" 10 7 7 Run.sourceA
             [Run.headline; Run.headline] emptyGroup 0 (Run.initial [Some "deadlock"]) in
  map domain.Link (noticias (fst (fst r))) = ["http://x/1"]
  /\ snd (fst r) = 1
  /\ logs (snd r)
     = [EvStorageError "technology" "es" "Example Headline Today" "deadlock";
        EvNewsAdded "technology" "es" "Example Headline Today" "A" 1].
Proof. vm_compute. repeat split. Qed.

(** The scenarios of the specification: an entry with an image, a title of 22
    bytes and a date one hour old is admitted with its image; a horoscope is
    discarded at the blacklist step. *)
Example scenario_admitted :
  fst (admitCandidate Run.useCase (NewsLog "technology" "es") "technology" "es" 5
         Run.sourceA ∅ ∅ Run.headline (Run.initial []))
  = Accepted (Spec.itemOf "technology" "es" Run.sourceA
                (Spec.mkCand "Example Headline Today" "http://x/1" "http://x/a.jpg"
                   (Run.start - Run.hour))).
Proof. vm_compute. reflexivity. Qed.

Example scenario_blacklisted :
  admitCandidate Run.useCase (NewsLog "technology" "es") "technology" "es" 5
    Run.sourceA ∅ ∅
    (Run.item "Horóscopo semanal" "http://x/1" "http://x/a.jpg" (Run.start - Run.hour))
    (Run.initial [])
  = (Discarded RBlacklisted,
     mkState (Run.world [] false false)
       [EvNewsWarn "technology" "es" "Horóscopo semanal" RBlacklisted]).
Proof. vm_compute. reflexivity. Qed.

Example full_run :
  let r := ExecuteGroups Run.useCase map_to_list (Run.initial []) in
  fst (fst r) = None
  /\ map (fun kg => (fst kg, option_map (fun g => map domain.Title (noticias g)) (snd kg)))
       (snd (fst r))
     = [("technology_es", Some ["Example Headline Today"])]
  /\ logs (snd r)
     = [EvNewsAdded "technology" "es" "Example Headline Today" "A" 1;
        EvNewsWarn "technology" "es" "Example Headline Today" RDuplicateLink;
        EvSourceError "http://b/rss" "timeout"].
Proof. vm_compute. repeat split. Qed.

(** ** Feed fetcher: runs *)

Example cleanCDATA_wrapped : cleanCDATA "  <![CDATA[Third Headline]]> " = "Third Headline".
Proof. vm_compute. reflexivity. Qed.

Example Fetch_patron1 :
  Fetch RunFeed.fetcher " http://a/rss " "patron1" "" "" "" "" (Run.initial [])
  = (Returns (inr [Run.item "Example Headline Today" "http://x/1" "http://x/a.jpg" 0]),
     mkState (Run.world [] false false) [EvEntryDropped 2 "título" "title"]).
Proof. vm_compute. reflexivity. Qed.

(** The date goes through the timestamp layout, which keeps whole seconds. *)
Example Fetch_no_image :
  fst (Fetch RunFeed.fetcher "http://c/rss" "patron3_no_image" "" "" "" "" (Run.initial []))
  = Returns (inr [Run.item "Third Headline" "http://x/3" "" Run.start]).
Proof. vm_compute. reflexivity. Qed.

Example Fetch_patron3_panics :
  fst (Fetch RunFeed.fetcher "http://c/rss" "patron3" "" "" "" "" (Run.initial []))
  = Panics "index out of range".
Proof. vm_compute. reflexivity. Qed.

Example Fetch_unreachable :
  fst (Fetch RunFeed.fetcher "http://nowhere/rss" "patron1" "" "" "" "" (Run.initial []))
  = Returns (inl "error al obtener feed RSS: no such host").
Proof. vm_compute. reflexivity. Qed.

(* ================================================================== *)
(** * Further properties of the code *)
(* ================================================================== *)

(** ** Admission pipeline: quotas *)

(** An invariant of the group state that every processed candidate keeps is
    kept by the candidate loop. *)
Lemma processItems_invariant {W} (uc : FetchNewsUseCase W) (cat lang : string)
    (tope maxDays maxPerSource : Z) (src : domain.NewsSource) (I : GroupState -> Prop) :
  (forall g item st,
     I g -> Z.of_nat (length (noticias g)) < tope ->
     sourceCount g (domain.SourceName src) < maxPerSource ->
     I (applyVerdict src g
          (fst (admitCandidate uc (NewsLog cat lang) cat lang maxDays src (linksVistos g)
                  (titulosVistos g) item st)))) ->
  forall feedItems g svc st,
    I g ->
    I (fst (fst (processItems uc cat lang tope maxDays maxPerSource src feedItems g svc st))).
Proof.
  intros Hstep feedItems. induction feedItems as [|item rest IH]; intros g svc st Hg; [exact Hg|].
  cbn [processItems]. unfold bind, ret.
  destruct (Z.geb_spec (Z.of_nat (length (noticias g))) tope) as [|Ht]; [exact Hg|].
  destruct (Z.geb_spec (sourceCount g (domain.SourceName src)) maxPerSource) as [|Hs];
    [exact Hg|].
  specialize (Hstep g item st Hg Ht Hs).
  destruct (admitCandidate _ _ _ _ _ _ _ _ _ st) as [v st1]. cbn [fst] in Hstep.
  destruct v; unfold logEv, ret; cbv beta iota; apply IH; exact Hstep.
Qed.

(** The same for the loop over the sources of a group. *)
Lemma processSources_invariant {W} (uc : FetchNewsUseCase W) (cat lang : string)
    (tope maxDays : Z) (I : GroupState -> Prop) (srcs : list domain.NewsSource) :
  (forall src g item st,
     src ∈ srcs -> I g -> Z.of_nat (length (noticias g)) < tope ->
     sourceCount g (domain.SourceName src) < GetMaxPerSource (config uc) lang cat ->
     I (applyVerdict src g
          (fst (admitCandidate uc (NewsLog cat lang) cat lang maxDays src (linksVistos g)
                  (titulosVistos g) item st)))) ->
  forall g st, I g -> I (fst (processSources uc cat lang tope maxDays srcs g st)).
Proof.
  induction srcs as [|src rest IH]; intros Hstep g st Hg; [exact Hg|].
  assert (Hrest : forall g st, I g -> I (fst (processSources uc cat lang tope maxDays rest g st))).
  { apply IH. intros src' g' item st' Hin. apply Hstep. now apply list_elem_of_further. }
  cbn [processSources]. unfold bind, ret.
  destruct (fetchSource uc src st) as [[feedItems [err|]] st1].
  - unfold logEv. cbv beta iota. apply Hrest. exact Hg.
  - pose proof (processItems_invariant uc cat lang tope maxDays
                  (GetMaxPerSource (config uc) lang cat) src I
                  (fun g item st => Hstep src g item st (list_elem_of_here _ _))
                  feedItems g 0 st1 Hg) as Hitems.
    destruct (processItems _ _ _ _ _ _ _ _ _ _ st1) as [[g' svc] st2]. cbn [fst] in Hitems.
    destruct (svc =? 0); unfold logEv; cbv beta iota;
      (destruct (_ >=? tope); [exact Hitems | apply Hrest; exact Hitems]).
Qed.


Lemma length_applyVerdict (src : domain.NewsSource) (g : GroupState) (v : Verdict) :
  (length (noticias (applyVerdict src g v)) <= S (length (noticias g)))%nat.
Proof. destruct v; cbn; [lia | lia | rewrite length_app; cbn; lia]. Qed.

(** What the stored item carries besides its title and link. *)
Lemma admitted_item_fields {W} (uc : FetchNewsUseCase W) (h : Heading) (cat lang : string)
    (maxDays : Z) (src : domain.NewsSource) (linksSeen titlesSeen : gset string)
    (item n : domain.NewsItem) (st st' : State W) :
  admitCandidate uc h cat lang maxDays src linksSeen titlesSeen item st = (Accepted n, st') ->
  isBlacklisted (strings_ToLower uc) (domain.Title n) = false
  /\ domain.Source n = Some src /\ domain.SourceID n = domain.ID src
  /\ domain.ItemLangCode n = lang /\ domain.ItemCategoryCode n = cat
  /\ domain.PubDate n = domain.PubDate item.
Proof.
  rewrite admitCandidate_admission, admission_Accepted.
  intros (c & st1 & Hc & _ & ->). apply checks_passed in Hc. cbn in *.
  destruct Hc as (-> & _ & -> & _ & _ & ? & _). auto 10.
Qed.




(** X2. Every item that the group loop of [Execute] stores is not
    blacklisted, has a cleaned title within the configured length bounds and
    a non-empty image, carries the language and category of the group, and
    belongs to one of the sources of the group. *)
Theorem stored_items_checked {W} (uc : FetchNewsUseCase W) (cat lang : string)
    (tope maxDays : Z) (srcs : list domain.NewsSource) (st : State W) :
  Forall (itemChecked uc cat lang srcs)
    (noticias (fst (processSources uc cat lang tope maxDays srcs emptyGroup st))).
Proof.
  apply (processSources_invariant uc cat lang tope maxDays
           (fun g => Forall (itemChecked uc cat lang srcs) (noticias g)) srcs);
    [|constructor].
  intros src g item st0 Hin Hg _ _.
  destruct (admitCandidate _ _ _ _ _ _ _ _ _ st0) as [[r|e|n] st1] eqn:Hv;
    cbn [fst applyVerdict noticias]; try exact Hg.
  apply Forall_app. split; [exact Hg|]. constructor; [|constructor].
  pose proof (admitted_item _ _ _ _ _ _ _ _ _ _ _ _ Hv) as (_ & _ & _ & _ & Hl & Hi).
  pose proof (admitted_item_fields _ _ _ _ _ _ _ _ _ _ _ _ Hv) as (Hb & Hs & Hid & Hlg & Hc & _).
  unfold itemChecked. repeat split; try assumption; try apply Hl.
  exists src. auto.
Qed.

(** ** Admission pipeline: age *)

Lemma maxAge_exact (maxDays : Z) :
  0 <= maxDays <= 106751 -> maxAge maxDays = maxDays * 24 * Hour.
Proof.
  intros H. unfold maxAge, wrap64, Hour.
  rewrite (Z.mod_small (maxDays * 24 + 2 ^ 63)) by lia.
  replace (maxDays * 24 + 2 ^ 63 - 2 ^ 63) with (maxDays * 24) by lia.
  rewrite Z.mod_small by lia. lia.
Qed.

(** The age that the fifth check computed for a candidate that passed. *)
Lemma checks_passed_age {W} (uc : FetchNewsUseCase W) (cat lang : string) (maxDays : Z)
    (src : domain.NewsSource) (linksSeen titlesSeen : gset string)
    (c c' : Spec.Cand) (st st' : State W) :
  Spec.firstFailure
    (Spec.admissionChecks uc cat lang maxDays src linksSeen titlesSeen
       (exceedsMaxAge maxDays)) c st
  = (inr c', st') ->
  Sub (fst (time_Now uc (world st))) (Spec.cDate c) <= maxAge maxDays.
Proof.
  unfold Spec.admissionChecks. cbn [Spec.firstFailure].
  unfold Spec.blacklistCheck, Spec.lengthCheck, Spec.linkDuplicateCheck,
    Spec.titleDuplicateCheck, Spec.ageCheck, bind, ret.
  destruct (isBlacklisted _ _); [discriminate|].
  destruct (_ && _); [|discriminate].
  destruct (bool_decide (Spec.cLink c ∈ linksSeen)); [discriminate|].
  destruct (bool_decide (Spec.cTitle c ∈ titlesSeen)); [discriminate|].
  unfold call, exceedsMaxAge.
  destruct (time_Now uc (world st)) as [now w1]. cbn [fst].
  destruct (Z.gtb_spec (Sub now (Spec.cDate c)) (maxAge maxDays)); [discriminate|].
  intros _. assumption.
Qed.

(** X3. A candidate is stored only if, at the clock reading that its age
    check took, it was no older than [maxDays] days; this holds for every
    [maxDays] from 0 to 106751, the range in which the limit in nanoseconds
    fits a [time.Duration]. *)
Theorem stored_item_age {W} (uc : FetchNewsUseCase W) (h : Heading) (cat lang : string)
    (maxDays : Z) (src : domain.NewsSource) (linksSeen titlesSeen : gset string)
    (item n : domain.NewsItem) (st st' : State W) :
  0 <= maxDays <= 106751 ->
  admitCandidate uc h cat lang maxDays src linksSeen titlesSeen item st = (Accepted n, st') ->
  fst (time_Now uc (world st)) - domain.PubDate n <= maxDays * 24 * Hour.
Proof.
  intros Hd Hv.
  pose proof (admitted_item_fields _ _ _ _ _ _ _ _ _ _ _ _ Hv) as (_ & _ & _ & _ & _ & ->).
  rewrite admitCandidate_admission, admission_Accepted in Hv.
  destruct Hv as (c & st1 & Hc & _). apply checks_passed_age in Hc.
  rewrite (maxAge_exact maxDays Hd) in Hc. cbn [Spec.candOf Spec.cDate] in Hc.
  unfold Sub, minDuration, maxDuration, Hour in *. lia.
Qed.

Lemma stored_item_age_witness :
  fst (time_Now Run.useCase (world (Run.initial [])))
  - domain.PubDate (Spec.itemOf "technology" "es" Run.sourceA (Spec.candOf Run.headline))
  <= 5 * 24 * Hour.
Proof.
  apply (stored_item_age Run.useCase (NewsLog "technology" "es") "technology" "es" 5
           Run.sourceA ∅ ∅ Run.headline
           (Spec.itemOf "technology" "es" Run.sourceA (Spec.candOf Run.headline))
           (Run.initial [])
           (snd (admitCandidate Run.useCase (NewsLog "technology" "es") "technology" "es" 5
                   Run.sourceA ∅ ∅ Run.headline (Run.initial [])))).
  - lia.
  - vm_compute. reflexivity.
Defined.

(** X4. The age limit [time.Duration(maxDays)*24*time.Hour] is the exact
    number of nanoseconds for 0 to 106751 days; from 106752 to 213503 days the
    64-bit product wraps to a negative limit, so that every candidate whose
    date is not in the future is discarded as too old. *)
Theorem maxAge_range (maxDays : Z) (now pubDate : Time) :
  (0 <= maxDays <= 106751 -> maxAge maxDays = maxDays * 24 * Hour)
  /\ (106752 <= maxDays <= 213503 ->
      maxAge maxDays < 0
      /\ (pubDate <= now -> (Sub now pubDate >? maxAge maxDays) = true)).
Proof.
  split; [apply maxAge_exact|].
  intros H. assert (Hneg : maxAge maxDays < 0).
  { unfold maxAge, wrap64, Hour.
    rewrite (Z.mod_small (maxDays * 24 + 2 ^ 63)) by lia.
    replace (maxDays * 24 + 2 ^ 63 - 2 ^ 63) with (maxDays * 24) by lia.
    replace (maxDays * 24 * (3600 * 1000000000) + 2 ^ 63)
      with (maxDays * 24 * (3600 * 1000000000) - 2 ^ 63 + 1 * 2 ^ 64) by lia.
    rewrite Z.mod_add by lia. rewrite Z.mod_small by lia. lia. }
  split; [exact Hneg|]. intros Hle. apply Z.gtb_lt.
  unfold Sub, minDuration, maxDuration. lia.
Qed.

Example maxAge_wraps : maxAge 106751 = 9223286400000000000 /\ maxAge 106752 = -9223371273709551616.
Proof. split; vm_compute; reflexivity. Qed.

Lemma maxAge_range_witness :
  maxAge 5 = 5 * 24 * Hour
  /\ (Sub Run.start (Run.start - Run.hour) >? maxAge 106752) = true.
Proof.
  split.
  - apply (proj1 (maxAge_range 5 0 0)). lia.
  - apply (proj2 (maxAge_range 106752 Run.start (Run.start - Run.hour))).
    + lia.
    + vm_compute. discriminate.
Defined.

(** ** Admission pipeline: fallback images *)

Lemma HasPrefix_append (p s : string) : HasPrefix (p ++ s) p = true.
Proof.
  induction p as [|c p IH]; [now destruct s|].
  rewrite append_cons. cbn [HasPrefix]. now rewrite Ascii.eqb_refl.
Qed.

Lemma Contains_append (p s : string) : Contains (p ++ s) p = true.
Proof.
  unfold Contains. destruct (p ++ s) as [|c r] eqn:E; cbn [Index];
    rewrite <- E, HasPrefix_append; reflexivity.
Qed.

(** [getFallbackImage] gives the empty string or a path under
    [/images/fallback/]. *)
Lemma getFallbackImage_local {W} (uc : FetchNewsUseCase W) (cat lang : string)
    (st : State W) :
  let fb := fst (getFallbackImage uc cat lang st) in
  fb = "" \/ Contains fb "/images/fallback/" = true.
Proof.
  unfold getFallbackImage, bind, ret, call.
  destruct (iface.GetByCategoryAndLang _ _ _ _) as [[[f|] [e|]] w']; cbn [fst]; auto.
  right. apply Contains_append.
Qed.

(** X5. A candidate that arrives without image is never sent to the image
    downloader: its verdict and the state after it are the same with any
    other downloader, because the only image it can get is the fallback path
    under [/images/fallback/], which is checked on disk. *)
Theorem no_image_candidate_skips_downloader {W} (uc : FetchNewsUseCase W)
    (d : iface.ImageDownloader W) (h : Heading) (cat lang : string) (maxDays : Z)
    (src : domain.NewsSource) (linksSeen titlesSeen : gset string)
    (item : domain.NewsItem) (st : State W) :
  domain.Image item = "" ->
  admitCandidate (withImageDownloader uc d) h cat lang maxDays src linksSeen titlesSeen item st
  = admitCandidate uc h cat lang maxDays src linksSeen titlesSeen item st.
Proof.
  intros Himg. unfold admitCandidate. rewrite Himg.
  cbn [withImageDownloader strings_ToLower config newsItemRepo imageDownloader_
       fallbackFileIsNotExist].
  change (nonEmpty "") with false. cbn [negb].
  unfold bind, ret.
  destruct (isBlacklisted _ _); [reflexivity|].
  destruct (_ || _); [reflexivity|].
  destruct (bool_decide (domain.Link item ∈ linksSeen)); [reflexivity|].
  destruct (bool_decide (_ ∈ titlesSeen)); [reflexivity|].
  change (Since (withImageDownloader uc d)) with (Since uc).
  destruct (Since uc (domain.PubDate item) st) as [age st1].
  destruct (age >? maxAge maxDays); [reflexivity|].
  destruct (Contains (getString (domain.Filter src)) "no_image"); [|reflexivity].
  change (getFallbackImage (withImageDownloader uc d)) with (getFallbackImage uc).
  pose proof (getFallbackImage_local uc cat lang st1) as Hfb. cbv zeta in Hfb.
  destruct (getFallbackImage uc cat lang st1) as [fb st2]. cbn [fst] in Hfb.
  destruct Hfb as [->|Hc]; [reflexivity|].
  destruct (nonEmpty fb); [|reflexivity].
  rewrite Hc. reflexivity.
Qed.

Lemma no_image_candidate_skips_downloader_witness :
  admitCandidate
    (withImageDownloader Run.useCase
       {| iface.ValidateImage := fun _ w => ((false, Some "unreachable"), w) |})
    (NewsLog "technology" "es") "technology" "es" 5
    (Run.source 3 "C" "http://c/rss" "patron1_no_image") ∅ ∅
    (Run.item "Example Headline Today" "http://x/1" "" (Run.start - Run.hour))
    (Run.initial [])
  = admitCandidate Run.useCase (NewsLog "technology" "es") "technology" "es" 5
      (Run.source 3 "C" "http://c/rss" "patron1_no_image") ∅ ∅
      (Run.item "Example Headline Today" "http://x/1" "" (Run.start - Run.hour))
      (Run.initial []).
Proof.
  apply (no_image_candidate_skips_downloader Run.useCase
           {| iface.ValidateImage := fun _ w => ((false, Some "unreachable"), w) |}).
  reflexivity.
Defined.

(** The candidate of the witness gets the fallback image of its group. *)
Example fallback_image_used :
  fst (admitCandidate Run.useCase (NewsLog "technology" "es") "technology" "es" 5
         (Run.source 3 "C" "http://c/rss" "patron1_no_image") ∅ ∅
         (Run.item "Example Headline Today" "http://x/1" "" (Run.start - Run.hour))
         (Run.initial []))
  = Accepted (Spec.itemOf "technology" "es" (Run.source 3 "C" "http://c/rss" "patron1_no_image")
                (Spec.mkCand "Example Headline Today" "http://x/1"
                   "/images/fallback/tech.png" (Run.start - Run.hour))).
Proof. vm_compute. reflexivity. Qed.

(** ** Single-source run *)

(** X6. A single-source run returns an error exactly when the lookup of the
    source fails, the source does not exist, or its feed cannot be fetched:
    unlike in a full run, the fetch error is returned to the caller. *)
Theorem ExecuteForSource_error_iff {W} (uc : FetchNewsUseCase W) (sourceID : Z)
    (st : State W) :
  let found := iface.FindByID (newsSourceRepo uc) sourceID (world st) in
  is_Some (fst (ExecuteForSource uc sourceID st))
  <-> is_Some (snd (fst found))
      \/ fst (fst found) = None
      \/ exists source,
           fst (fst found) = Some source
           /\ is_Some (snd (fst (fetchSource uc source (mkState (snd found) (logs st))))).
Proof.
  unfold ExecuteForSource, ExecuteForSourceItems, bind, ret. unfold call at 1.
  destruct (iface.FindByID _ _ _) as [[[source|] [e|]] w1]; cbn [fst snd].
  - split; [intros _; left; eauto | intros _; eauto].
  - destruct (fetchSource uc source _) as [[feedItems [e|]] st2] eqn:Hf; cbn [fst snd].
    + split; [|intros _; eauto]. intros _. right. right. exists source.
      split; [reflexivity|]. rewrite Hf. cbn. eauto.
    + destruct (processSourceItems _ _ _ _ _ _ _ _ _ _ _ _). cbn [fst snd]. split.
      * intros [x Hx]. discriminate.
      * intros [[x Hx]|[Hn|(s0 & [= <-] & Hs)]]; try discriminate.
        rewrite Hf in Hs. cbn in Hs. destruct Hs as [x Hx]. discriminate.
  - split; [intros _; left; eauto | intros _; eauto].
  - split; [intros _; right; left; reflexivity | intros _; eauto].
Qed.

Example ExecuteForSource_fetch_error :
  fst (ExecuteForSource Run.useCase 2 (Run.initial [])) = Some "error obteniendo RSS: timeout"
  /\ fst (ExecuteForSource Run.useCase 9 (Run.initial [])) = Some "fuente no encontrada"
  /\ fst (ExecuteForSource Run.useCase 1 (Run.initial [])) = None.
Proof. repeat split; vm_compute; reflexivity. Qed.

Lemma processSourceItems_invariant {W} (uc : FetchNewsUseCase W) (cat lang : string)
    (maxDays maxPerSource : Z) (source : domain.NewsSource)
    (feedItems : list domain.NewsItem) (extractedCount : Z)
    (linksSeen titlesSeen : gset string) (stored : list domain.NewsItem) (st : State W) :
  DuplicateFree stored ->
  (forall n, n ∈ stored -> domain.Link n ∈ linksSeen /\ domain.Title n ∈ titlesSeen) ->
  extractedCount = Z.of_nat (length stored) ->
  extractedCount <= capOf maxPerSource ->
  let r := fst (processSourceItems uc cat lang maxDays maxPerSource source feedItems
                  extractedCount linksSeen titlesSeen stored st) in
  DuplicateFree r /\ Z.of_nat (length r) <= capOf maxPerSource.
Proof.
  revert extractedCount linksSeen titlesSeen stored st.
  induction feedItems as [|item rest IH];
    intros count links titles stored st Hd Hseen Hcount Hcap; cbv zeta.
  { cbn. split; [exact Hd | lia]. }
  cbn [processSourceItems]. unfold bind, ret.
  destruct (Z.geb_spec count maxPerSource) as [|Hlt]; [cbn; split; [exact Hd | lia]|].
  destruct (admitCandidate _ _ _ _ _ _ _ _ _ st) as [[r|e|n] st1] eqn:Hv;
    try (apply IH; assumption).
  apply admitted_item in Hv as (_ & _ & Hnl & Hnt & _).
  destruct Hd as [Hl Ht]. apply IH.
  - split.
    + apply NoDup_map_snoc; [exact Hl|]. intros y Hy E.
      apply Hseen in Hy as [Hy _]. rewrite E in Hy. contradiction.
    + apply NoDup_map_snoc; [exact Ht|]. intros y Hy E.
      apply Hseen in Hy as [_ Hy]. rewrite E in Hy. contradiction.
  - intros y Hy. apply elem_of_app in Hy as [Hy|Hy].
    + apply Hseen in Hy as [? ?]. split; apply elem_of_union; right; assumption.
    + apply list_elem_of_singleton in Hy. subst y.
      split; apply elem_of_union; left; apply elem_of_singleton; reflexivity.
  - rewrite length_app. cbn. lia.
  - unfold capOf in *. lia.
Qed.

(** X7. The items that a single-source run stores never share a link or a
    cleaned title, and there are at most [maxPerSource] of them; none is
    stored when the run returns an error: when the lookup of the source
    fails, when the source is not found, and when its feed cannot be
    fetched. *)
Theorem ExecuteForSource_items {W} (uc : FetchNewsUseCase W) (sourceID : Z) (st : State W) :
  let r := fst (ExecuteForSourceItems uc sourceID st) in
  let found := iface.FindByID (newsSourceRepo uc) sourceID (world st) in
  let items := snd r in
  DuplicateFree items
  /\ (is_Some (fst r) -> items = [])
  /\ (is_Some (snd (fst found)) -> items = [])
  /\ match fst (fst found) with
     | Some source =>
         Z.of_nat (length items)
         <= capOf (GetMaxPerSource (config uc) (domain.LangCode source)
                     (domain.CategoryCode source))
         /\ (is_Some (snd (fst (fetchSource uc source (mkState (snd found) (logs st)))))
             -> items = [])
     | None => items = []
     end.
Proof.
  assert (Hnil : DuplicateFree []) by (split; constructor).
  assert (Hn1 : ~ is_Some (@None error)) by (intros [x Hx]; discriminate).
  cbv zeta. unfold ExecuteForSourceItems, bind, ret, call.
  destruct (iface.FindByID _ _ _) as [[[source|] [e0|]] w1]; cbn [fst snd].
  - split; [exact Hnil|]; repeat split; intros; first [reflexivity | apply Z.le_max_l].
  - destruct (fetchSource uc source _) as [[feedItems [e1|]] st2]; cbn [fst snd].
    { split; [exact Hnil|]; repeat split; intros; first [reflexivity | apply Z.le_max_l]. }
    pose proof (processSourceItems_invariant uc (domain.CategoryCode source)
                  (domain.LangCode source)
                  (GetMaxDays (config uc) (domain.LangCode source) (domain.CategoryCode source))
                  (GetMaxPerSource (config uc) (domain.LangCode source)
                     (domain.CategoryCode source))
                  source feedItems 0 ∅ ∅ [] st2 Hnil) as H.
    cbv zeta in H.
    destruct (processSourceItems _ _ _ _ _ _ _ _ _ _ _ _) as [stored st3]. cbn [fst snd] in *.
    destruct H as [H1 H2].
    + intros n Hn. inversion Hn.
    + reflexivity.
    + unfold capOf. lia.
    + split; [exact H1|]. repeat split; try assumption; intros Hs; exfalso; exact (Hn1 Hs).
  - split; [exact Hnil|]; repeat split; intros; reflexivity.
  - split; [exact Hnil|]; repeat split; intros; reflexivity.
Qed.

(** ** Feed fetcher: candidates and panics *)

Lemma fetchEntry_candidate {W} (tm : TimePkg W)
    (filter titleField imageField linkField dateField : string) (newsNum : nat)
    (item : gofeed.Item) (n : domain.NewsItem) (st st' : State W) :
  fetchEntry tm filter titleField imageField linkField dateField newsNum item st
  = (Returns (Some n), st') ->
  candidateOk filter imageField n.
Proof.
  unfold fetchEntry, bind, ret, candidateOk.
  destruct (extractFieldFromItem tm item _) as [title|]; [|discriminate].
  destruct (nonEmpty title); cbn [negb]; [|unfold logEv; discriminate].
  destruct (nonEmpty imageField) eqn:Hif.
  - destruct (extractFieldFromItem tm item imageField) as [imageURL|]; [|discriminate].
    destruct (extractFieldFromItem tm item _) as [linkURL|]; [|discriminate].
    destruct (nonEmpty linkURL) eqn:Hl; cbn [negb]; [|unfold logEv; discriminate].
    destruct (resolveDate _ _ _ _ st) as [[d|] st1]; [|discriminate].
    intros [= <- _]. cbn. split; [now apply nonEmpty_true|].
    intros ->. discriminate.
  - destruct (Contains filter "no_image") eqn:Hc; cbn [negb].
    + destruct (extractFieldFromItem tm item _) as [linkURL|]; [|discriminate].
      destruct (nonEmpty linkURL) eqn:Hl; cbn [negb]; [|unfold logEv; discriminate].
      destruct (resolveDate _ _ _ _ st) as [[d|] st1]; [|discriminate].
      intros [= <- _]. cbn. split; [now apply nonEmpty_true | reflexivity].
    + destruct (extractFieldFromItem tm item (PImageField _)) as [imageURL|]; [|discriminate].
      destruct (extractFieldFromItem tm item _) as [linkURL|]; [|discriminate].
      destruct (nonEmpty linkURL) eqn:Hl; cbn [negb]; [|unfold logEv; discriminate].
      destruct (resolveDate _ _ _ _ st) as [[d|] st1]; [|discriminate].
      intros [= <- _]. cbn. split; [now apply nonEmpty_true|]. intros _ [=].
Qed.

Lemma fetchEntries_candidates {W} (tm : TimePkg W)
    (filter titleField imageField linkField dateField : string)
    (entries : list gofeed.Item) (newsNum : nat) (items result : list domain.NewsItem)
    (st st' : State W) :
  fetchEntries tm filter titleField imageField linkField dateField newsNum entries items st
  = (Returns result, st') ->
  Forall (candidateOk filter imageField) items ->
  Forall (candidateOk filter imageField) result
  /\ (length result <= length items + length entries)%nat.
Proof.
  revert newsNum items st. induction entries as [|item rest IH]; intros newsNum items st.
  - cbn. intros [= <- _] H. split; [exact H | lia].
  - cbn [fetchEntries]. unfold bind.
    destruct (fetchEntry _ _ _ _ _ _ _ _ st) as [[[n|]|msg] st1] eqn:He.
    + intros Hr Hi. apply IH in Hr as [Hf Hl].
      * split; [exact Hf|]. rewrite length_app in Hl. cbn in *. lia.
      * apply Forall_app. split; [exact Hi|]. constructor; [|constructor].
        exact (fetchEntry_candidate _ _ _ _ _ _ _ _ _ _ _ He).
    + intros Hr Hi. apply IH in Hr as [Hf Hl]; [|exact Hi].
      split; [exact Hf|]. cbn. lia.
    + discriminate.
Qed.

(** X8. Every candidate that [Fetch] returns has a non-empty link; with a
    no-image pattern and no image override it has no image; and there are at
    most as many candidates as the feed has entries. *)
Theorem Fetch_candidates {W} (f : rssFetcher W)
    (url filter titleField imageField linkField dateField : string)
    (items : list domain.NewsItem) (st : State W) :
  fst (Fetch f url filter titleField imageField linkField dateField st) = Returns (inr items) ->
  Forall (candidateOk filter imageField) items
  /\ exists entries,
       fst (ParseURLWithContext f (TrimSpace url) (world st)) = inr entries
       /\ (length items <= length entries)%nat.
Proof.
  unfold Fetch, bind, ret, call.
  destruct (ParseURLWithContext f (TrimSpace url) (world st)) as [[err|entries] w1]; cbn [fst].
  { unfold logEv. cbn. discriminate. }
  destruct (fetchEntries _ _ _ _ _ _ _ _ _ _) as [[result|msg] st1] eqn:He; cbn [fst];
    [|discriminate].
  intros [= <-]. apply fetchEntries_candidates in He as [Hf Hl]; [|constructor].
  split; [exact Hf|]. exists entries. split; [reflexivity | exact Hl].
Qed.

Lemma Fetch_candidates_witness :
  Forall (candidateOk "patron3_no_image" "")
    [Run.item "Third Headline" "http://x/3" "" Run.start]
  /\ exists entries,
       fst (ParseURLWithContext RunFeed.fetcher (TrimSpace "http://c/rss")
              (world (Run.initial []))) = inr entries
       /\ (length [Run.item "Third Headline" "http://x/3" "" Run.start] <= length entries)%nat.
Proof.
  apply (Fetch_candidates RunFeed.fetcher "http://c/rss" "patron3_no_image" "" "" "" ""
           [Run.item "Third Headline" "http://x/3" "" Run.start] (Run.initial [])).
  vm_compute. reflexivity.
Defined.

(** The CDATA cleaning can leave nothing of a title that was not empty. *)
Example cleanCDATA_empties : cleanCDATA "<![CDATA[]]>" = "".
Proof. vm_compute. reflexivity. Qed.

(** The extractor panics only in the description scan, which it enters only
    for an alternative named [description_img]. *)
Lemma extractFieldLoop_panics {W} (tm : TimePkg W) (item : gofeed.Item)
    (alternatives : list string) (msg : string) :
  extractFieldLoop tm item alternatives = Panics msg ->
  existsb (fun f => String.eqb (TrimSpace f) "description_img") alternatives = true
  /\ extractImgFromDescription (gofeed.Description item) = Panics msg.
Proof.
  induction alternatives as [|f rest IH]; [discriminate|].
  cbn [extractFieldLoop existsb].
  destruct (String.eqb_spec (TrimSpace f) "title") as [E|_].
  { rewrite E. cbn [String.eqb Ascii.eqb Bool.eqb orb].
    destruct (nonEmpty _); [discriminate | exact IH]. }
  destruct (String.eqb_spec (TrimSpace f) "media:content") as [E|_].
  { rewrite E. cbn [String.eqb Ascii.eqb Bool.eqb orb].
    destruct (nonEmpty _); [discriminate | exact IH]. }
  destruct (String.eqb_spec (TrimSpace f) "media:thumbnail") as [E|_].
  { rewrite E. cbn [String.eqb Ascii.eqb Bool.eqb orb].
    destruct (nonEmpty _); [discriminate | exact IH]. }
  destruct (String.eqb_spec (TrimSpace f) "enclosure") as [E|_].
  { rewrite E. cbn [String.eqb Ascii.eqb Bool.eqb orb].
    destruct (gofeed.Enclosures item) as [|e0 l]; [exact IH|].
    destruct (HasPrefix _ _); [discriminate | exact IH]. }
  destruct (String.eqb_spec (TrimSpace f) "description_img") as [E|_].
  { cbn [orb]. destruct (extractImgFromDescription _) as [r|m] eqn:Hx.
    - destruct (nonEmpty r); [discriminate|]. intros H. apply IH in H as [_ H].
      congruence.
    - intros [= ->]. split; reflexivity. }
  cbn [orb].
  destruct (String.eqb_spec (TrimSpace f) "link") as [E|_].
  { destruct (nonEmpty _); [discriminate | exact IH]. }
  destruct (String.eqb_spec (TrimSpace f) "pubDate") as [E|_].
  { destruct (gofeed.PublishedParsed item); [discriminate|].
    destruct (gofeed.UpdatedParsed item); [discriminate | exact IH]. }
  exact IH.
Qed.

Lemma extractFieldFromItem_panics {W} (tm : TimePkg W) (item : gofeed.Item)
    (field msg : string) :
  extractFieldFromItem tm item field = Panics msg ->
  usesDescriptionImg field = true
  /\ extractImgFromDescription (gofeed.Description item) = Panics msg.
Proof. apply extractFieldLoop_panics. Qed.

Lemma resolveDate_panics {W} (tm : TimePkg W) (filter dateField : string)
    (item : gofeed.Item) (msg : string) (st st' : State W) :
  resolveDate tm filter dateField item st = (Panics msg, st') ->
  extractFieldFromItem tm item
    (if nonEmpty dateField then dateField else PDateField (patternOf filter)) = Panics msg.
Proof.
  unfold resolveDate, bind, ret, call.
  destruct (nonEmpty dateField).
  - destruct (extractFieldFromItem tm item dateField) as [s|m]; [|now intros [= ->]].
    destruct (Parse_RFC3339 tm s); [discriminate|]. destruct (Now tm _). discriminate.
  - destruct (extractFieldFromItem tm item _) as [s|m]; [|now intros [= ->]].
    destruct (Parse_RFC3339 tm s); [discriminate|].
    destruct (gofeed.PublishedParsed item); [discriminate|].
    destruct (gofeed.UpdatedParsed item); [discriminate|]. destruct (Now tm _). discriminate.
Qed.

Lemma fetchEntry_panics {W} (tm : TimePkg W)
    (filter titleField imageField linkField dateField : string) (newsNum : nat)
    (item : gofeed.Item) (msg : string) (st st' : State W) :
  fetchEntry tm filter titleField imageField linkField dateField newsNum item st
  = (Panics msg, st') ->
  exists field,
    field ∈ effectiveFields filter titleField imageField linkField dateField
    /\ extractFieldFromItem tm item field = Panics msg.
Proof.
  unfold fetchEntry, effectiveFields, bind, ret.
  destruct (extractFieldFromItem tm item (if nonEmpty titleField then _ else _))
    as [title|m] eqn:Ht.
  2:{ intros [= -> _]. eexists. split; [apply list_elem_of_here | exact Ht]. }
  destruct (nonEmpty title); cbn [negb]; [|unfold logEv; discriminate].
  destruct (nonEmpty imageField) eqn:Hif.
  - destruct (extractFieldFromItem tm item imageField) as [imageURL|m] eqn:Hi.
    2:{ intros [= -> _]. eexists. split; [|exact Hi]. set_solver. }
    destruct (extractFieldFromItem tm item (if nonEmpty linkField then _ else _))
      as [linkURL|m] eqn:Hl.
    2:{ intros [= -> _]. eexists. split; [|exact Hl]. set_solver. }
    destruct (nonEmpty linkURL); cbn [negb]; [|unfold logEv; discriminate].
    destruct (resolveDate _ _ _ _ st) as [[d|m] st1] eqn:Hd; [discriminate|].
    intros [= -> _]. apply resolveDate_panics in Hd. eexists. split; [|exact Hd]. set_solver.
  - destruct (Contains filter "no_image"); cbn [negb].
    + destruct (extractFieldFromItem tm item (if nonEmpty linkField then _ else _))
        as [linkURL|m] eqn:Hl.
      2:{ intros [= -> _]. eexists. split; [|exact Hl]. set_solver. }
      destruct (nonEmpty linkURL); cbn [negb]; [|unfold logEv; discriminate].
      destruct (resolveDate _ _ _ _ st) as [[d|m] st1] eqn:Hd; [discriminate|].
      intros [= -> _]. apply resolveDate_panics in Hd. eexists. split; [|exact Hd]. set_solver.
    + destruct (extractFieldFromItem tm item (PImageField _)) as [imageURL|m] eqn:Hi.
      2:{ intros [= -> _]. eexists. split; [|exact Hi]. set_solver. }
      destruct (extractFieldFromItem tm item (if nonEmpty linkField then _ else _))
        as [linkURL|m] eqn:Hl.
      2:{ intros [= -> _]. eexists. split; [|exact Hl]. set_solver. }
      destruct (nonEmpty linkURL); cbn [negb]; [|unfold logEv; discriminate].
      destruct (resolveDate _ _ _ _ st) as [[d|m] st1] eqn:Hd; [discriminate|].
      intros [= -> _]. apply resolveDate_panics in Hd. eexists. split; [|exact Hd]. set_solver.
Qed.

Lemma fetchEntries_panics {W} (tm : TimePkg W)
    (filter titleField imageField linkField dateField : string)
    (entries : list gofeed.Item) (newsNum : nat) (items : list domain.NewsItem)
    (msg : string) (st st' : State W) :
  fetchEntries tm filter titleField imageField linkField dateField newsNum entries items st
  = (Panics msg, st') ->
  exists entry field,
    entry ∈ entries
    /\ field ∈ effectiveFields filter titleField imageField linkField dateField
    /\ extractFieldFromItem tm entry field = Panics msg.
Proof.
  revert newsNum items st. induction entries as [|item rest IH]; intros newsNum items st;
    [discriminate|].
  cbn [fetchEntries]. unfold bind.
  destruct (fetchEntry _ _ _ _ _ _ _ _ st) as [[[n|]|m] st1] eqn:He.
  - intros H. apply IH in H as (entry & field & Hin & H). exists entry, field.
    split; [now apply list_elem_of_further | exact H].
  - intros H. apply IH in H as (entry & field & Hin & H). exists entry, field.
    split; [now apply list_elem_of_further | exact H].
  - intros [= -> _]. apply fetchEntry_panics in He as (field & Hf & Hx).
    exists item, field. split; [apply list_elem_of_here | auto].
Qed.

(** A pattern other than patron3 has no field that names the description
    scan. *)
Lemma pattern_fields_without_scan (filter : string) :
  filter <> "patron3" ->
  Forall (fun field => usesDescriptionImg field = false)
    (effectiveFields filter "" "" "" "").
Proof.
  intros Hne. unfold effectiveFields, patternOf, extractionPatterns.
  cbn [list_to_map foldr fst snd uncurry nonEmpty String.eqb negb].
  repeat (rewrite lookup_insert; case_decide;
          [subst; first [contradiction
                        | repeat (constructor; [vm_compute; reflexivity|]); constructor] |]).
  rewrite lookup_empty. cbn [default PTitleField PImageField PLinkField PDateField].
  destruct (negb (Contains filter "no_image"));
    repeat (constructor; [vm_compute; reflexivity|]); constructor.
Qed.

(** X9. [Fetch] panics only in the scan of a description for an image, which
    it reaches only through a field specification that names
    [description_img], on an entry whose description makes the scan panic;
    without field overrides this can only happen with the pattern patron3. *)
Theorem Fetch_panics_only_in_scan {W} (f : rssFetcher W)
    (url filter titleField imageField linkField dateField msg : string) (st : State W) :
  fst (Fetch f url filter titleField imageField linkField dateField st) = Panics msg ->
  (exists entries entry field,
     fst (ParseURLWithContext f (TrimSpace url) (world st)) = inr entries
     /\ entry ∈ entries
     /\ field ∈ effectiveFields filter titleField imageField linkField dateField
     /\ usesDescriptionImg field = true
     /\ extractImgFromDescription (gofeed.Description entry) = Panics msg)
  /\ (titleField = "" -> imageField = "" -> linkField = "" -> dateField = "" ->
      filter = "patron3").
Proof.
  unfold Fetch, bind, ret, call.
  destruct (ParseURLWithContext f (TrimSpace url) (world st)) as [[err|entries] w1]; cbn [fst].
  { unfold logEv. cbn. discriminate. }
  destruct (fetchEntries _ _ _ _ _ _ _ _ _ _) as [[result|m] st1] eqn:He; cbn [fst];
    [discriminate|].
  intros [= ->]. apply fetchEntries_panics in He as (entry & field & Hin & Hf & Hx).
  apply extractFieldFromItem_panics in Hx as [Hu Hx]. split.
  - exists entries, entry, field. auto.
  - intros -> -> -> ->. destruct (String.eqb_spec filter "patron3") as [|Hne]; [assumption|].
    exfalso. pose proof (pattern_fields_without_scan filter Hne) as Hall.
    rewrite Forall_forall in Hall. specialize (Hall field Hf). congruence.
Qed.

Lemma Fetch_panics_only_in_scan_witness :
  (exists entries entry field,
     fst (ParseURLWithContext RunFeed.fetcher (TrimSpace "http://c/rss")
            (world (Run.initial []))) = inr entries
     /\ entry ∈ entries
     /\ field ∈ effectiveFields "patron3" "" "" "" ""
     /\ usesDescriptionImg field = true
     /\ extractImgFromDescription (gofeed.Description entry) = Panics "index out of range")
  /\ ("" = "" -> "" = "" -> "" = "" -> "" = "" -> "patron3" = "patron3").
Proof.
  apply (Fetch_panics_only_in_scan RunFeed.fetcher "http://c/rss" "patron3" "" "" "" ""
           "index out of range" (Run.initial [])).
  vm_compute. reflexivity.
Defined.

(** ** Field extractor: alternatives *)

Lemma append_eq_empty (s t : string) : s ++ t = "" -> s = "".
Proof. destruct s; [reflexivity|]. rewrite append_cons. discriminate. Qed.

Lemma formatUTC_nonempty (t : Time) : Run.formatUTC t <> "".
Proof.
  unfold Run.formatUTC. destruct (Run.civilFromDays _) as [[y m] d].
  intros H. apply append_eq_empty in H. unfold Run.digits4 in H.
  apply append_eq_empty in H. unfold Run.digits2 in H. discriminate.
Qed.

(** A piece of a split holds no separator, and so splits into itself. *)
Lemma Split_piece (s : string) (sep : ascii) (p : string) :
  p ∈ Split s sep -> Split p sep = [p].
Proof.
  revert p. induction s as [|c s IH]; intros p; cbn [Split].
  - intros H. apply list_elem_of_singleton in H. subst p. reflexivity.
  - destruct (Ascii.eqb c sep) eqn:E.
    + intros H. apply elem_of_cons in H as [->|H]; [reflexivity | now apply IH].
    + destruct (Split s sep) as [|piece rest] eqn:Es.
      * intros H. apply list_elem_of_singleton in H. subst p.
        cbn [Split]. rewrite E. reflexivity.
      * intros H. apply elem_of_cons in H as [->|H].
        -- cbn [Split]. rewrite E, (IH piece) by apply list_elem_of_here. reflexivity.
        -- apply IH. now apply list_elem_of_further.
Qed.

(** One round of the loop of [extractFieldFromItem]: what the alternative
    gives alone, and the rest of the list when that is the empty string. *)
Lemma extractFieldLoop_cons {W} (tm : TimePkg W) (item : gofeed.Item)
    (f : string) (rest : list string) :
  (forall t, Format_RFC3339 tm t <> "") ->
  (forall e0 l, gofeed.Enclosures item = e0 :: l ->
     HasPrefix (gofeed.Type_ e0) "image/" = true -> gofeed.URL e0 <> "") ->
  extractFieldLoop tm item (f :: rest)
  = match extractFieldLoop tm item [f] with
    | Panics msg => Panics msg
    | Returns v => if nonEmpty v then Returns v else extractFieldLoop tm item rest
    end.
Proof.
  intros Hfmt Henc. cbn [extractFieldLoop].
  repeat match goal with
         | |- context [String.eqb ?a ?b] => destruct (String.eqb a b)
         end; try reflexivity.
  - destruct (nonEmpty (gofeed.Title item)) eqn:E; [rewrite E|]; reflexivity.
  - destruct (nonEmpty (getMediaContent item)) eqn:E; [rewrite E|]; reflexivity.
  - destruct (nonEmpty (getMediaThumbnail item)) eqn:E; [rewrite E|]; reflexivity.
  - destruct (gofeed.Enclosures item) as [|e0 l] eqn:E; [reflexivity|].
    destruct (HasPrefix (gofeed.Type_ e0) "image/") eqn:P; [|reflexivity].
    specialize (Henc e0 l eq_refl P). apply nonEmpty_true in Henc as ->. reflexivity.
  - destruct (extractImgFromDescription (gofeed.Description item)) as [v|msg];
      [|reflexivity].
    destruct (nonEmpty v) eqn:E; [rewrite E|]; reflexivity.
  - destruct (nonEmpty (gofeed.Link item)) eqn:E; [rewrite E|]; reflexivity.
  - destruct (gofeed.PublishedParsed item) as [t|].
    { specialize (Hfmt t). apply nonEmpty_true in Hfmt as ->. reflexivity. }
    destruct (gofeed.UpdatedParsed item) as [t|]; [|reflexivity].
    specialize (Hfmt t). apply nonEmpty_true in Hfmt as ->. reflexivity.
Qed.

(** X10. For an entry whose first enclosure, if it is an image, has a URL,
    and with a timestamp layout that never formats to the empty string: when
    the alternatives of a [|]-separated field list that come before one
    alternative each give the empty string on their own, and that
    alternative gives a non-empty value, the extractor returns this value;
    and when every alternative gives the empty string on its own, it returns
    the empty string. *)
Theorem first_non_empty_alternative {W} (tm : TimePkg W) (item : gofeed.Item)
    (field : string) :
  (forall t, Format_RFC3339 tm t <> "") ->
  (forall e0 l, gofeed.Enclosures item = e0 :: l ->
     HasPrefix (gofeed.Type_ e0) "image/" = true -> gofeed.URL e0 <> "") ->
  (forall before alt after v,
     Split field "|" = (before ++ alt :: after)%list ->
     Forall (fun a => extractFieldFromItem tm item a = Returns "") before ->
     extractFieldFromItem tm item alt = Returns v -> v <> "" ->
     extractFieldFromItem tm item field = Returns v)
  /\ (Forall (fun a => extractFieldFromItem tm item a = Returns "") (Split field "|") ->
      extractFieldFromItem tm item field = Returns "").
Proof.
  intros Hfmt Henc.
  assert (Hone : forall a, a ∈ Split field "|" ->
                   extractFieldFromItem tm item a = extractFieldLoop tm item [a]).
  { intros a Ha. unfold extractFieldFromItem. now rewrite (Split_piece field "|" a Ha). }
  unfold extractFieldFromItem at 3 5. revert Hone.
  generalize (Split field "|"). intros alts Hone. split.
  - intros before alt after v -> Hbefore Halt Hv.
    induction before as [|b before IH].
    + cbn [app]. rewrite (extractFieldLoop_cons tm item alt after Hfmt Henc).
      rewrite <- (Hone alt) by apply list_elem_of_here. rewrite Halt.
      apply nonEmpty_true in Hv as ->. reflexivity.
    + apply Forall_cons in Hbefore as [Hb Hbefore].
      cbn [app]. rewrite (extractFieldLoop_cons tm item b _ Hfmt Henc).
      rewrite <- (Hone b) by apply list_elem_of_here. rewrite Hb.
      change (nonEmpty "") with false. cbv iota.
      apply IH; [|exact Hbefore].
      intros a Ha. apply Hone. now apply list_elem_of_further.
  - intros Hall. induction alts as [|a alts IH]; [reflexivity|].
    apply Forall_cons in Hall as [Ha Hall].
    rewrite (extractFieldLoop_cons tm item a alts Hfmt Henc).
    rewrite <- (Hone a) by apply list_elem_of_here. rewrite Ha.
    change (nonEmpty "") with false. cbv iota.
    apply IH; [|exact Hall]. intros a' Ha'. apply Hone. now apply list_elem_of_further.
Qed.

Lemma first_non_empty_alternative_witness :
  extractFieldFromItem Run.utc (RunFeed.plainEntry "Title" "" "http://x/2")
    " media:content | link|title" = Returns "http://x/2".
Proof.
  refine (proj1 (first_non_empty_alternative Run.utc
                   (RunFeed.plainEntry "Title" "" "http://x/2")
                   " media:content | link|title" formatUTC_nonempty _)
            [" media:content "] " link" ["title"] "http://x/2" _ _ _ _).
  - intros e0 l H. discriminate.
  - vm_compute. reflexivity.
  - apply Forall_cons. split; [vm_compute; reflexivity | apply Forall_nil; exact I].
  - vm_compute. reflexivity.
  - discriminate.
Defined.

(** The scan of a description that panics is a panic of the extractor,
    whatever comes after it in the list. *)
Example extract_panics_first :
  extractFieldFromItem Run.utc (RunFeed.plainEntry "Title" "<img src=>" "http://x/2")
    "description_img|title" = Panics "index out of range".
Proof. vm_compute. reflexivity. Qed.

Example extract_second_alternative :
  extractFieldFromItem Run.utc (RunFeed.plainEntry "Title" "" "http://x/2")
    " media:content | link|title" = Returns "http://x/2".
Proof. vm_compute. reflexivity. Qed.

(** X11. A field specification none of whose alternatives is a known field
    name yields the empty string, whatever the entry. *)
Theorem unknown_fields_yield_empty {W} (tm : TimePkg W) (item : gofeed.Item)
    (field : string) :
  Forall (fun f => isKnownField f = false) (Split field "|") ->
  extractFieldFromItem tm item field = Returns "".
Proof.
  unfold extractFieldFromItem. generalize (Split field "|"). intros alts H.
  induction H as [|f rest Hf _ IH]; [reflexivity|].
  cbn [extractFieldLoop]. unfold isKnownField, knownFields in Hf.
  cbn [existsb] in Hf. rewrite orb_false_r in Hf.
  repeat (apply orb_false_iff in Hf as [? Hf]).
  repeat match goal with
         | H : String.eqb ?a ?b = false |- _ => rewrite H; clear H
         end.
  exact IH.
Qed.

Lemma unknown_fields_yield_empty_witness :
  extractFieldFromItem Run.utc entryWithEmptyEnclosure "dc:date|Title| content:encoded"
  = Returns "".
Proof.
  apply (unknown_fields_yield_empty Run.utc entryWithEmptyEnclosure
           "dc:date|Title| content:encoded").
  change (Forall (fun f => isKnownField f = false)
            ["dc:date"; "Title"; " content:encoded"]).
  repeat (apply Forall_cons; split; [vm_compute; reflexivity|]). apply Forall_nil. exact I.
Defined.

(** ** Field extractor: the description scan *)

Lemma HasPrefix_empty (s : string) : HasPrefix s "" = true.
Proof. destruct s; reflexivity. Qed.

Lemma Contains_byte_cons (c d : ascii) (s : string) :
  Contains (String d s) (String c "") = Ascii.eqb c d || Contains s (String c "").
Proof.
  unfold Contains. cbn [Index HasPrefix]. rewrite HasPrefix_empty.
  destruct (Ascii.eqb c d); [reflexivity|]. cbn [orb].
  pose proof (Index_lower_bound s (String c "")).
  destruct (Z.ltb_spec (Index s (String c "")) 0);
    destruct (Z.leb_spec 0 (Index s (String c ""))); try lia; try reflexivity;
    apply Z.leb_le; lia.
Qed.

Lemma Contains_byte_empty (c : ascii) : Contains "" (String c "") = false.
Proof. reflexivity. Qed.

Lemma sliceTo_no_byte (c : ascii) (n : nat) (s : string) :
  Contains s (String c "") = false -> Contains (sliceTo n s) (String c "") = false.
Proof.
  revert s. induction n as [|n IH]; intros [|d s]; cbn [sliceTo]; try reflexivity.
  rewrite !Contains_byte_cons. intros H. apply orb_false_iff in H as [-> H].
  now rewrite IH.
Qed.

Lemma sliceFrom_no_byte (c : ascii) (n : nat) (s : string) :
  Contains s (String c "") = false -> Contains (sliceFrom n s) (String c "") = false.
Proof.
  revert s. induction n as [|n IH]; intros [|d s]; cbn [sliceFrom]; try tauto.
  rewrite Contains_byte_cons. intros H. apply orb_false_iff in H as [_ H]. now apply IH.
Qed.

(** The part of a string before the first occurrence of a byte does not
    contain the byte. *)
Lemma sliceTo_Index_no_byte (c : ascii) (s : string) :
  Contains (sliceTo (Z.to_nat (Index s (String c ""))) s) (String c "") = false.
Proof.
  induction s as [|d s IH]; [reflexivity|].
  cbn [Index HasPrefix]. rewrite HasPrefix_empty.
  destruct (Ascii.eqb c d) eqn:E; [reflexivity|].
  pose proof (Index_lower_bound s (String c "")).
  destruct (Z.ltb_spec (Index s (String c "")) 0); [reflexivity|].
  replace (Z.to_nat (Index s (String c "") + 1)) with (S (Z.to_nat (Index s (String c ""))))
    by lia.
  cbn [sliceTo]. rewrite Contains_byte_cons, E, IH. reflexivity.
Qed.

(** X12. Whatever the scan of a description returns contains no [>]; and it
    returns a non-empty string only for a description that contains
    [<img ]. *)
Theorem extractImg_result (desc u : string) :
  extractImgFromDescription desc = Returns u ->
  Contains u ">" = false /\ (u <> "" -> Contains desc "<img " = true).
Proof.
  unfold extractImgFromDescription.
  destruct (Z.eqb_spec (Index desc "<img ") (-1)) as [E1|E1].
  { intros [= <-]. split; [reflexivity | congruence]. }
  assert (Hc : Contains desc "<img " = true).
  { unfold Contains. apply Z.leb_le. pose proof (Index_lower_bound desc "<img "). lia. }
  set (tag0 := sliceFrom (Z.to_nat (Index desc "<img ")) desc).
  destruct (Z.eqb_spec (Index tag0 ">") (-1)) as [E2|E2].
  { intros [= <-]. split; [reflexivity | congruence]. }
  set (tag := sliceTo (Z.to_nat (Index tag0 ">")) tag0).
  assert (Htag : Contains tag ">" = false) by apply sliceTo_Index_no_byte.
  destruct (Z.eqb_spec (Index tag "src=") (-1)) as [E3|E3].
  { intros [= <-]. split; [reflexivity | congruence]. }
  destruct (String.get _ tag) as [q|]; [|discriminate].
  destruct (IndexRune _ q =? -1).
  { intros [= <-]. split; [reflexivity | congruence]. }
  intros [= <-]. split; [|intros _; exact Hc].
  apply sliceTo_no_byte, sliceFrom_no_byte. exact Htag.
Qed.

Lemma extractImg_result_witness :
  Contains "http://x/a.jpg" ">" = false
  /\ ("http://x/a.jpg" <> "" ->
      Contains "<p><img class='a' src='http://x/a.jpg' alt=''></p>" "<img " = true).
Proof.
  apply (extractImg_result "<p><img class='a' src='http://x/a.jpg' alt=''></p>"
           "http://x/a.jpg").
  vm_compute. reflexivity.
Defined.

(** ** Quota lookups *)

(** X13. The use case's own [getNewsCount] is the lookup [GetNewsCount] of
    the configuration, made on the quota table whose [float64] values are
    converted with [int(f)]: the two lookups differ in nothing but the
    floats that only [getNewsCount] accepts. *)
Theorem getNewsCount_truncates {W} (uc : FetchNewsUseCase W) (lang cat : string) :
  getNewsCount uc lang cat
  = getIntValueFromNestedMap (truncateFloats (NewsCount (config uc))) lang cat 10.
Proof.
  unfold getNewsCount, getIntValueFromNestedMap, truncateFloats.
  destruct (NewsCount (config uc)) as [m|]; cbn; [|reflexivity].
  rewrite !lookup_fmap.
  destruct (m !! "default") as [[]|]; destruct (m !! lang) as [[| | | |lm]|];
    cbn; try reflexivity;
    rewrite !lookup_fmap;
    destruct (lm !! cat) as [[]|]; cbn; try reflexivity;
    destruct (lm !! "default") as [[]|]; reflexivity.
Qed.

Example getNewsCount_float :
  let table : gmap string Value := {[ "es" := VMap {[ "technology" := VFloat 12.5%float ]} ]} in
  let uc := {| newsItemRepo := Run.newsItems; newsSourceRepo := Run.newsSources;
               fallbackImageRepo := Run.fallbackImages; rssFetcher_ := Run.feeds;
               imageDownloader_ := Run.images;
               config := {| NewsCount := Some table; MaxPerSource := None;
                            MaxDays := None; Filters := Run.filters |};
               time_Now := Run.tick; strings_ToLower := Run.lower;
               fallbackFileIsNotExist := fun _ w => (false, w) |} in
  getNewsCount uc "es" "technology" = 12
  /\ GetNewsCount (config uc) "es" "technology" = 10.
Proof. split; vm_compute; reflexivity. Qed.

(** X14. A quota lookup reads the table at [lang] and at [default] and
    nowhere else: two tables that agree on these two keys give the same
    result, so a quota written for another language changes nothing. *)
Theorem quota_lookup_local (m m' : gmap string Value) (lang category : string)
    (fallback : Z) :
  m !! lang = m' !! lang -> m !! "default" = m' !! "default" ->
  getIntValueFromNestedMap (Some m) lang category fallback
  = getIntValueFromNestedMap (Some m') lang category fallback.
Proof.
  intros H1 H2. unfold getIntValueFromNestedMap. rewrite H1, H2. reflexivity.
Qed.

Lemma quota_lookup_local_witness :
  getIntValueFromNestedMap (Some (<["fr" := VInt 1]> Run.maxDaysTable)) "es" "technology" 5
  = getIntValueFromNestedMap (Some Run.maxDaysTable) "es" "technology" 5.
Proof.
  apply (quota_lookup_local (<["fr" := VInt 1]> Run.maxDaysTable) Run.maxDaysTable
           "es" "technology" 5); vm_compute; reflexivity.
Defined.

(** ** Pagination of the news pages *)

Lemma wrap64_id (z : Z) : - 2 ^ 63 <= z < 2 ^ 63 -> wrap64 z = z.
Proof. intros H. unfold wrap64. rewrite Z.mod_small; lia. Qed.

Lemma wrap64_add_l (a b : Z) : wrap64 (wrap64 a + b) = wrap64 (a + b).
Proof.
  unfold wrap64. f_equal.
  replace ((a + 2 ^ 63) mod 2 ^ 64 - 2 ^ 63 + b + 2 ^ 63)
    with ((a + 2 ^ 63) mod 2 ^ 64 + b) by lia.
  rewrite Zplus_mod_idemp_l. f_equal. lia.
Qed.

Lemma wrap64_sub_l (a b : Z) : wrap64 (wrap64 a - b) = wrap64 (a - b).
Proof. unfold Z.sub. apply wrap64_add_l. Qed.

(** Without overflow the filled slice is the run of [n] consecutive numbers
    from [first]. *)
Lemma pagesFrom_run (first n : Z) :
  0 <= n -> - 2 ^ 63 <= first -> first + n <= 2 ^ 63 ->
  pagesFrom first n
  = Returns (map (fun i => first + Z.of_nat i) (seq 0 (Z.to_nat n))).
Proof.
  intros Hn Hf Hl. unfold pagesFrom.
  destruct (Z.ltb_spec n 0); [lia|]. f_equal.
  apply map_ext_in. intros i Hi. apply in_seq in Hi. apply wrap64_id. lia.
Qed.

Lemma calculatePageRange_run (currentPage totalPages : Z) :
  0 <= totalPages < 2 ^ 63 -> - 2 ^ 63 + 3 <= currentPage <= 2 ^ 63 - 4 ->
  exists first,
    calculatePageRange currentPage totalPages
    = Returns (map (fun i => first + Z.of_nat i)
                   (seq 0 (Z.to_nat (Z.min totalPages maxPages))))
    /\ (0 < totalPages ->
        1 <= first /\ first + Z.min totalPages maxPages - 1 <= totalPages)
    /\ (1 <= currentPage <= totalPages ->
        first <= currentPage < first + Z.min totalPages maxPages).
Proof.
  intros Ht Hc. unfold calculatePageRange, maxPages.
  destruct (Z.leb_spec totalPages 7) as [Hs|Hs].
  { exists 1. rewrite pagesFrom_run by lia.
    rewrite Z.min_l by lia. repeat split; lia. }
  rewrite Z.min_r by lia.
  rewrite (wrap64_id (currentPage - 3)) by lia.
  set (start := if currentPage - 3 <? 1 then 1 else currentPage - 3).
  assert (Hstart : start = Z.max 1 (currentPage - 3)).
  { unfold start. destruct (Z.ltb_spec (currentPage - 3) 1); lia. }
  clearbody start.
  rewrite wrap64_sub_l, (wrap64_id (start + 7 - 1)) by lia.
  destruct (Z.ltb_spec totalPages (start + 7 - 1)) as [Hover|Hfit].
  - rewrite wrap64_add_l, (wrap64_id (totalPages - 7 + 1)) by lia.
    destruct (Z.ltb_spec (totalPages - 7 + 1) 1); [lia|].
    rewrite wrap64_add_l, (wrap64_id (totalPages - (totalPages - 7 + 1) + 1)) by lia.
    exists (totalPages - 7 + 1).
    replace (totalPages - (totalPages - 7 + 1) + 1) with 7 by lia.
    rewrite pagesFrom_run by lia. repeat split; lia.
  - rewrite wrap64_add_l, (wrap64_id (start + 7 - 1 - start + 1)) by lia.
    exists start. replace (start + 7 - 1 - start + 1) with 7 by lia.
    rewrite pagesFrom_run by lia. repeat split; lia.
Qed.

(** X15. For a page number that does not overflow, [calculatePageRange]
    returns the run of [min(totalPages, 7)] consecutive page numbers from
    some first page; the run lies within [1..totalPages], and it contains
    the current page whenever that is one of the pages. *)
Theorem calculatePageRange_window (currentPage totalPages : Z) :
  0 <= totalPages < 2 ^ 63 -> - 2 ^ 63 + 3 <= currentPage <= 2 ^ 63 - 4 ->
  exists first,
    calculatePageRange currentPage totalPages
    = Returns (map (fun i => first + Z.of_nat i)
                   (seq 0 (Z.to_nat (Z.min totalPages maxPages))))
    /\ (0 < totalPages ->
        1 <= first /\ first + Z.min totalPages maxPages - 1 <= totalPages)
    /\ (1 <= currentPage <= totalPages ->
        first <= currentPage < first + Z.min totalPages maxPages).
Proof. exact (calculatePageRange_run currentPage totalPages). Qed.

Lemma calculatePageRange_window_witness :
  exists first,
    calculatePageRange 9 10
    = Returns (map (fun i => first + Z.of_nat i) (seq 0 (Z.to_nat (Z.min 10 maxPages))))
    /\ (0 < 10 -> 1 <= first /\ first + Z.min 10 maxPages - 1 <= 10)
    /\ (1 <= 9 <= 10 -> first <= 9 < first + Z.min 10 maxPages).
Proof. apply (calculatePageRange_window 9 10); lia. Defined.

Example calculatePageRange_middle :
  calculatePageRange 9 20 = Returns [6; 7; 8; 9; 10; 11; 12].
Proof. vm_compute. reflexivity. Qed.

Example calculatePageRange_end :
  calculatePageRange 9 10 = Returns [4; 5; 6; 7; 8; 9; 10].
Proof. vm_compute. reflexivity. Qed.

(** Past the last page the window is the last seven pages; a page number
    at the top of the [int] range wraps around. *)
Example calculatePageRange_beyond :
  calculatePageRange 500 10 = Returns [4; 5; 6; 7; 8; 9; 10].
Proof. vm_compute. reflexivity. Qed.

Example calculatePageRange_overflow :
  calculatePageRange (2 ^ 63 - 1) 10
  = Returns [2 ^ 63 - 4; 2 ^ 63 - 3; 2 ^ 63 - 2; 2 ^ 63 - 1;
             - 2 ^ 63; - 2 ^ 63 + 1; - 2 ^ 63 + 2].
Proof. vm_compute. reflexivity. Qed.

(** The length of the page range does not depend on the current page. *)
Lemma calculatePageRange_length (currentPage totalPages : Z) :
  0 <= totalPages < 2 ^ 63 ->
  exists pages,
    calculatePageRange currentPage totalPages = Returns pages
    /\ Z.of_nat (length pages) = Z.min totalPages maxPages.
Proof.
  intros Ht. unfold calculatePageRange, maxPages.
  destruct (Z.leb_spec totalPages 7) as [Hs|Hs].
  { unfold pagesFrom. destruct (Z.ltb_spec totalPages 0); [lia|].
    eexists. split; [reflexivity|]. rewrite length_map, length_seq. lia. }
  set (start := if wrap64 (currentPage - 3) <? 1 then 1 else wrap64 (currentPage - 3)).
  clearbody start.
  assert (H7 : forall first, exists pages,
             pagesFrom first 7 = Returns pages
             /\ Z.of_nat (length pages) = Z.min totalPages 7).
  { intros first. unfold pagesFrom. cbn [Z.ltb Z.compare].
    eexists. split; [reflexivity|]. rewrite length_map, length_seq. lia. }
  destruct (Z.ltb_spec totalPages (wrap64 (wrap64 (start + 7) - 1))) as [Hover|Hfit].
  - rewrite !wrap64_add_l, (wrap64_id (totalPages - 7 + 1)) by lia.
    destruct (Z.ltb_spec (totalPages - 7 + 1) 1); [lia|].
    replace (totalPages - (totalPages - 7 + 1) + 1) with 7 by lia.
    rewrite (wrap64_id 7) by lia. apply H7.
  - rewrite wrap64_add_l.
    replace (wrap64 (wrap64 (start + 7) - 1) - start + 1)
      with (wrap64 (wrap64 (start + 7) - 1) + (- start + 1)) by lia.
    rewrite wrap64_add_l.
    replace (wrap64 (start + 7) - 1 + (- start + 1))
      with (wrap64 (start + 7) + (- start)) by lia.
    rewrite wrap64_add_l.
    replace (start + 7 + - start) with 7 by lia.
    rewrite (wrap64_id 7) by lia. apply H7.
Qed.

(** X16. For a positive page size and a non-negative count, without
    overflow, the pagination block returns: the number of pages is the
    count divided by the page size, rounded up; there is a next page exactly
    when the offset of the next page is below the count, and a previous one
    exactly when the page is not the first; the page range has
    [min(totalPages, 7)] entries. *)
Theorem pagination_counts (page limit totalCount : Z) :
  0 < limit -> 0 <= totalCount -> totalCount + limit <= 2 ^ 63 ->
  1 <= page -> page * limit < 2 ^ 63 ->
  exists p,
    pagination page limit totalCount = Returns p
    /\ (TotalPages p - 1) * limit < totalCount <= TotalPages p * limit
    /\ (HasNext p = true <-> pageOffset (page + 1) limit < totalCount)
    /\ (HasPrev p = true <-> 1 < page)
    /\ Z.of_nat (length (PageRange p)) = Z.min (TotalPages p) maxPages.
Proof.
  intros Hl Hc Hsum Hp Hoff. unfold pagination.
  destruct (Z.eqb_spec limit 0); [lia|].
  rewrite wrap64_sub_l, (wrap64_id (totalCount + limit - 1)) by lia.
  rewrite Z.quot_div_nonneg by lia.
  set (q := (totalCount + limit - 1) / limit).
  assert (Hq1 : limit * q <= totalCount + limit - 1) by (apply Z.mul_div_le; lia).
  assert (Hq2 : totalCount + limit - 1 < limit * Z.succ q)
    by (apply Z.mul_succ_div_gt; lia).
  assert (Hq0 : 0 <= q) by (apply Z.div_pos; lia).
  assert (Hq3 : q <= totalCount + limit - 1).
  { apply Z.le_trans with (limit * q); [nia | exact Hq1]. }
  clearbody q. rewrite (wrap64_id q) by lia.
  assert (Hoffset : pageOffset (page + 1) limit = page * limit).
  { unfold pageOffset. replace (page + 1 - 1) with page by lia.
    rewrite (wrap64_id page) by nia. apply wrap64_id. nia. }
  destruct (calculatePageRange_length page q) as (pages & -> & Hlen); [lia|].
  eexists. split; [reflexivity|]. cbn [TotalPages HasNext HasPrev PageRange].
  rewrite Hoffset, Hlen.
  repeat split; try nia; rewrite ?Z.ltb_lt in *; try nia.
Qed.

Lemma pagination_counts_witness :
  exists p,
    pagination 2 48 100 = Returns p
    /\ (TotalPages p - 1) * 48 < 100 <= TotalPages p * 48
    /\ (HasNext p = true <-> pageOffset (2 + 1) 48 < 100)
    /\ (HasPrev p = true <-> 1 < 2)
    /\ Z.of_nat (length (PageRange p)) = Z.min (TotalPages p) maxPages.
Proof. apply (pagination_counts 2 48 100); lia. Defined.

Example pagination_third_of_three :
  pagination 3 48 100
  = Returns {| CurrentPage := 3; TotalPages := 3; TotalItems := 100;
               HasNext := false; HasPrev := true; NextPage := 4; PrevPage := 2;
               PageRange := [1; 2; 3] |}.
Proof. vm_compute. reflexivity. Qed.

Example pagination_zero_limit :
  pagination 1 0 100 = Panics "integer divide by zero".
Proof. reflexivity. Qed.

(** ** Search of the API handler *)

Lemma HasPrefix_length (s p : string) :
  HasPrefix s p = true -> (String.length p <= String.length s)%nat.
Proof.
  revert s. induction p as [|c p IH]; intros [|d s]; cbn; try lia; try discriminate.
  destruct (Ascii.eqb c d); [|discriminate]. intros H. apply IH in H. lia.
Qed.

(** Comparing the first [len(p)] bytes with [p] is [strings.HasPrefix]. *)
Lemma eqb_sliceTo_HasPrefix (s p : string) :
  String.eqb (sliceTo (String.length p) s) p = HasPrefix s p.
Proof.
  revert s. induction p as [|c p IH]; intros [|d s]; cbn; try reflexivity.
  rewrite IH. rewrite (Ascii.eqb_sym d c). reflexivity.
Qed.

Lemma length_sliceFrom (n : nat) (s : string) :
  String.length (sliceFrom n s) = (String.length s - n)%nat.
Proof. revert s. induction n as [|n IH]; intros [|c s]; cbn; try lia. apply IH. Qed.

Lemma sliceFrom_S (n : nat) (c : ascii) (s : string) :
  sliceFrom (S n) (String c s) = sliceFrom n s.
Proof. reflexivity. Qed.

(** [strings.Contains] holds when [sub] starts at some index. *)
Lemma Contains_iff_HasPrefix (s sub : string) :
  Contains s sub = true <-> exists i, HasPrefix (sliceFrom i s) sub = true.
Proof.
  unfold Contains. rewrite Z.leb_le. induction s as [|c s IH].
  - cbn [Index]. split.
    + intros H. exists 0%nat. cbn [sliceFrom]. destruct (HasPrefix "" sub); [reflexivity|lia].
    + intros [i H]. replace (sliceFrom i "") with "" in H by now destruct i.
      rewrite H. lia.
  - cbn [Index]. destruct (HasPrefix (String c s) sub) eqn:E.
    + split; [|lia]. intros _. exists 0%nat. exact E.
    + pose proof (Index_lower_bound s sub) as Hlow.
      destruct (Z.ltb_spec (Index s sub) 0) as [Hneg|Hpos].
      * split; [lia|]. intros [[|i] H]; [cbn [sliceFrom] in H; congruence|].
        rewrite sliceFrom_S in H. assert (0 <= Index s sub) by (apply IH; eauto). lia.
      * split; [|lia]. intros _. destruct IH as [IH _].
        destruct (IH Hpos) as [i Hi]. exists (S i). exact Hi.
Qed.

Lemma containsSubstringLoop_iff (s substr : string) (todo i : nat) :
  containsSubstringLoop s substr i todo = true
  <-> exists j, (i <= j < i + todo)%nat /\ HasPrefix (sliceFrom j s) substr = true.
Proof.
  revert i. induction todo as [|todo IH]; intros i; cbn [containsSubstringLoop].
  - split; [discriminate|]. intros (j & Hj & _). lia.
  - unfold slice. replace (i + String.length substr - i)%nat with (String.length substr) by lia.
    rewrite eqb_sliceTo_HasPrefix.
    destruct (HasPrefix (sliceFrom i s) substr) eqn:E.
    + split; [|reflexivity]. intros _. exists i. split; [lia|exact E].
    + rewrite IH. split.
      * intros (j & Hj & H). exists j. split; [lia|exact H].
      * intros (j & Hj & H). exists j. split; [|exact H].
        destruct (Nat.eq_dec j i) as [->|]; [congruence|lia].
Qed.

Lemma containsSubstring_Contains (s substr : string) :
  containsSubstring s substr = Contains s substr.
Proof.
  apply eq_true_iff_eq. unfold containsSubstring, len.
  rewrite containsSubstringLoop_iff, Contains_iff_HasPrefix. split.
  - intros (j & _ & H). eauto.
  - intros [j H]. destruct substr as [|c substr].
    + (* the empty string is found at index 0 *)
      exists 0%nat. split; [cbn; lia|]. apply HasPrefix_empty.
    + exists j. split; [|exact H].
      apply HasPrefix_length in H. rewrite length_sliceFrom in H.
      cbn [String.length] in *. lia.
Qed.

(** X17. The search helper [contains] is [strings.Contains] except for two
    strings of the same length, which it reports as a match whatever they
    hold. *)
Theorem contains_same_length_or_Contains (s substr : string) :
  contains s substr
  = (String.length s =? String.length substr)%nat || Contains s substr.
Proof.
  unfold contains, len. rewrite containsSubstring_Contains.
  destruct (Nat.eqb_spec (String.length s) (String.length substr)) as [E|E].
  { rewrite E, Z.leb_refl, Z.eqb_refl. reflexivity. }
  cbn [orb].
  destruct (Z.eqb_spec (Z.of_nat (String.length s)) (Z.of_nat (String.length substr)));
    [lia|]. cbn [orb].
  destruct (Z.leb_spec (Z.of_nat (String.length substr)) (Z.of_nat (String.length s)))
    as [Hle|Hgt]; cbn [andb].
  - destruct (Contains s substr) eqn:C; [apply orb_true_r|].
    rewrite orb_false_r. apply orb_false_iff. split.
    + unfold slice. rewrite Nat.sub_0_r. cbn [sliceFrom]. rewrite eqb_sliceTo_HasPrefix.
      destruct (HasPrefix s substr) eqn:P; [|reflexivity].
      assert (Contains s substr = true) by (apply Contains_iff_HasPrefix; exists 0%nat; exact P).
      congruence.
    + unfold slice.
      replace (String.length s - (String.length s - String.length substr))%nat
        with (String.length substr) by lia.
      rewrite eqb_sliceTo_HasPrefix.
      destruct (HasPrefix _ substr) eqn:P; [|reflexivity].
      assert (Contains s substr = true) by (apply Contains_iff_HasPrefix; eauto).
      congruence.
  - symmetry. destruct (Contains s substr) eqn:C; [|reflexivity].
    apply Contains_iff_HasPrefix in C as [j H].
    apply HasPrefix_length in H. rewrite length_sliceFrom in H. lia.
Qed.

Example contains_unrelated :
  contains "Madrid" "Berlin" = true /\ Contains "Madrid" "Berlin" = false.
Proof. split; vm_compute; reflexivity. Qed.

Example contains_inside :
  contains "El tiempo en Madrid hoy" "Madrid" = true.
Proof. vm_compute. reflexivity. Qed.

(** ** Grouping of the sources *)

Lemma groupSources_snoc (sources : list domain.NewsSource) (src : domain.NewsSource) :
  groupSources (sources ++ [src]) = addToGroup (groupSources sources) src.
Proof. unfold groupSources. apply fold_left_app. Qed.

(** X18. [Execute] puts every active source in the group of its key
    [category_language]: the group of a key holds exactly the sources with
    that key, in the order of the listing, and no group is empty. *)
Theorem groupSources_partition (sources : list domain.NewsSource) (key : string) :
  groupSources sources !! key
  = match filter (fun src => groupKey src = key) sources with
    | [] => None
    | group => Some group
    end.
Proof.
  induction sources as [|src sources IH] using rev_ind; [reflexivity|].
  rewrite groupSources_snoc, filter_app. unfold addToGroup.
  destruct (decide (groupKey src = key)) as [E|E].
  - rewrite E, lookup_insert_eq, IH, (filter_cons_True _ src []) by exact E.
    rewrite filter_nil.
    destruct (filter (fun src0 => groupKey src0 = key) sources); reflexivity.
  - rewrite lookup_insert_ne, IH, (filter_cons_False _ src []) by exact E.
    rewrite filter_nil, app_nil_r. reflexivity.
Qed.

Example groupSources_run :
  groupSources [Run.sourceA; Run.sourceB] !! groupKey Run.sourceA
  = Some [Run.sourceA; Run.sourceB].
Proof. vm_compute. reflexivity. Qed.

(** ** Blacklist *)

Lemma sliceFrom_tail (i : nat) (s : string) :
  sliceFrom (S i) s = sliceFrom 1 (sliceFrom i s).
Proof.
  revert s. induction i as [|i IH]; intros [|c s]; try reflexivity.
  exact (IH s).
Qed.

(** A string that contains [c w] contains [w]. *)
Lemma Contains_tail (s w : string) (c : ascii) :
  Contains s (String c w) = true -> Contains s w = true.
Proof.
  rewrite !Contains_iff_HasPrefix. intros [i H]. exists (S i).
  rewrite sliceFrom_tail. destruct (sliceFrom i s) as [|d r]; [discriminate|].
  cbn [HasPrefix] in H. destruct (Ascii.eqb c d); [exact H|discriminate].
Qed.

(** X19. The second word of the blacklist adds nothing: a title is
    blacklisted exactly when its lower-case form contains the first word,
    of which the second is an extension. *)
Theorem isBlacklisted_first_word (toLower : string -> string) (title : string) :
  isBlacklisted toLower title = Contains (toLower title) (hd "" blacklist).
Proof.
  unfold isBlacklisted, blacklist. cbn [existsb hd]. rewrite orb_false_r.
  destruct (Contains (toLower title) "oróscopo") eqn:E; [reflexivity|].
  cbn [orb]. destruct (Contains (toLower title) "horóscopo") eqn:E2; [|reflexivity].
  apply Contains_tail in E2. congruence.
Qed.

(** ** File extension of an upload *)

Lemma revAcc_append (s acc : string) : revAcc s acc = rev s ++ acc.
Proof.
  unfold rev. revert acc. induction s as [|c s IH]; intros acc; [reflexivity|].
  cbn [revAcc]. rewrite IH, (IH (String c "")), append_assoc. reflexivity.
Qed.

Lemma revAcc_revAcc (s a b : string) : revAcc (revAcc s a) b = revAcc a (s ++ b).
Proof.
  revert a b. induction s as [|c s IH]; intros a b; [reflexivity|].
  cbn [revAcc]. rewrite IH, append_cons. reflexivity.
Qed.

Lemma rev_involutive (s : string) : rev (rev s) = s.
Proof.
  unfold rev. rewrite revAcc_revAcc. cbn [revAcc].
  induction s as [|c s IH]; [reflexivity|]. rewrite append_cons, IH. reflexivity.
Qed.

(** What the loop of [filepath.Ext] returns is empty, or it starts at a dot
    that is followed by neither dot nor separator, and ends the path. *)
Lemma extLoop_shape (backwards suffix : string) :
  Contains suffix "/" = false -> Contains suffix "." = false ->
  extLoop backwards suffix = ""
  \/ exists tail stem,
       extLoop backwards suffix = String "." tail
       /\ Contains tail "/" = false /\ Contains tail "." = false
       /\ revAcc backwards suffix = stem ++ String "." tail.
Proof.
  revert suffix. induction backwards as [|c before IH]; intros suffix H1 H2;
    [left; reflexivity|].
  cbn [extLoop revAcc].
  destruct (Ascii.eqb_spec c "/") as [->|Hs]; [left; reflexivity|].
  destruct (Ascii.eqb_spec c ".") as [->|Hd].
  - right. exists suffix, (rev before). repeat split; try assumption.
    apply revAcc_append.
  - apply IH; rewrite Contains_byte_cons.
    + rewrite H1. destruct (Ascii.eqb_spec "/" c); [congruence|reflexivity].
    + rewrite H2. destruct (Ascii.eqb_spec "." c); [congruence|reflexivity].
Qed.

(** X20. The extension chosen for an uploaded file starts with a dot and
    has no further dot and no [/]; it is [.jpg] or the end of the file
    name. *)
Theorem getFileExtension_shape (filename : string) :
  exists tail,
    getFileExtension filename = String "." tail
    /\ Contains tail "/" = false /\ Contains tail "." = false
    /\ (getFileExtension filename = ".jpg"
        \/ exists stem, filename = stem ++ getFileExtension filename).
Proof.
  unfold getFileExtension, Ext.
  destruct (extLoop_shape (rev filename) "" eq_refl eq_refl)
    as [E|(tail & stem & E & H1 & H2 & H3)]; rewrite E.
  - exists "jpg". repeat split; try reflexivity. left. reflexivity.
  - exists tail. cbn [String.eqb]. repeat split; try assumption.
    right. exists stem. rewrite <- H3. fold (rev (rev filename)).
    symmetry. apply rev_involutive.
Qed.

Example getFileExtension_png : getFileExtension "photo.final.png" = ".png".
Proof. vm_compute. reflexivity. Qed.

Example getFileExtension_hidden_dir : getFileExtension "a.b/photo" = ".jpg".
Proof. vm_compute. reflexivity. Qed.

(** ** CDATA wrapper of a feed field *)

Lemma rev_append (s t : string) : rev (s ++ t) = rev t ++ rev s.
Proof.
  unfold rev. induction s as [|c s IH].
  - rewrite append_nil_l. generalize (revAcc t ""). intros r.
    induction r as [|d r IHr]; [reflexivity|]. rewrite append_cons, <- IHr. reflexivity.
  - rewrite append_cons. cbn [revAcc].
    rewrite (revAcc_append (s ++ t)), (revAcc_append s). unfold rev.
    rewrite IH, append_assoc. reflexivity.
Qed.

(** A string between two bytes that are no part of white space is left as
    it is by [strings.TrimSpace]: here the brackets of the CDATA markers. *)
Lemma TrimSpace_CDATA (t : string) :
  TrimSpace ("<![CDATA[" ++ t ++ "]]>") = "<![CDATA[" ++ t ++ "]]>".
Proof.
  unfold TrimSpace, TrimRightSpace.
  change (TrimLeftSpace ("<![CDATA[" ++ t ++ "]]>")) with ("<![CDATA[" ++ t ++ "]]>").
  rewrite <- (rev_involutive ("<![CDATA[" ++ t ++ "]]>")) at 2. f_equal.
  rewrite !rev_append.
  change (rev "]]>") with (">]]"). rewrite !append_cons. reflexivity.
Qed.

Lemma TrimSuffix_append (t p : string) : TrimSuffix (t ++ p) p = t.
Proof.
  unfold TrimSuffix. rewrite rev_append, HasPrefix_append, length_append.
  replace (String.length t + String.length p - String.length p)%nat
    with (String.length t) by lia.
  apply sliceTo_append.
Qed.

Lemma TrimPrefix_append (p t : string) : TrimPrefix (p ++ t) p = t.
Proof. unfold TrimPrefix. rewrite HasPrefix_append. apply sliceFrom_append. Qed.

(** X21. [cleanCDATA] unwraps: a text without white space around it, put
    between the CDATA markers, comes back as it was. *)
Theorem cleanCDATA_unwraps (t : string) :
  TrimSpace t = t -> cleanCDATA ("<![CDATA[" ++ t ++ "]]>") = t.
Proof.
  intros H. unfold cleanCDATA.
  rewrite TrimSpace_CDATA, TrimPrefix_append, TrimSuffix_append. exact H.
Qed.

Lemma cleanCDATA_unwraps_witness :
  cleanCDATA ("<![CDATA[" ++ "Un titular <b>nuevo</b>" ++ "]]>") = "Un titular <b>nuevo</b>".
Proof. apply (cleanCDATA_unwraps "Un titular <b>nuevo</b>"). vm_compute. reflexivity. Defined.

(** ** Tags in a title *)

(** Removing tags brings no [>] into a text. *)
Lemma stripTags_no_new_close (inTag : bool) (text : string) :
  Contains text ">" = false -> Contains (stripTags inTag text) ">" = false.
Proof.
  revert inTag. induction text as [|c rest IH]; intros inTag; [destruct inTag; reflexivity|].
  rewrite Contains_byte_cons. intros H. apply orb_false_iff in H as [Hc H].
  cbn [stripTags]. rewrite (Ascii.eqb_sym c ">"), Hc, H, andb_false_r.
  destruct inTag; [apply IH, H|].
  rewrite Contains_byte_cons, Hc. apply IH, H.
Qed.

Lemma stripTags_hasTag (inTag : bool) (text : string) :
  hasTag (stripTags inTag text) = false.
Proof.
  revert inTag. induction text as [|c rest IH]; intros inTag; [destruct inTag; reflexivity|].
  cbn [stripTags]. destruct inTag.
  - destruct (Ascii.eqb c ">"); apply IH.
  - destruct (Ascii.eqb c "<" && Contains rest ">") eqn:E; [apply IH|].
    cbn [hasTag]. rewrite IH, orb_false_r.
    apply andb_false_iff in E as [E|E]; [rewrite E; reflexivity|].
    rewrite (stripTags_no_new_close false rest E). apply andb_false_r.
Qed.

(** X22. After the tag removal that [cleanText] starts with, no tag is
    left: the text holds no [<] with a [>] anywhere after it. *)
Theorem stripTags_leaves_no_tag (text : string) :
  hasTag (stripTags false text) = false.
Proof. apply stripTags_hasTag. Qed.

Example stripTags_nested : stripTags false "a<b<c>d>e" = "ad>e".
Proof. vm_compute. reflexivity. Qed.

(** The entities are decoded after the tags are removed, so [cleanText]
    can return a tag. *)
Example cleanText_returns_tag : cleanText "&lt;b&gt;hola&lt;/b&gt;" = "<b>hola</b>".
Proof. vm_compute. reflexivity. Qed.

(** ** Admission pipeline: what the log records *)

Lemma call_logs {W A} (f : W -> A * W) (st : State W) :
  logs (snd (call f st)) = logs st.
Proof. unfold call. destruct (f (world st)). reflexivity. Qed.

Lemma discard_logs {W} (h : Heading) (title : string) (r : Reason) (st : State W) :
  logs (snd (discard h title r st))
  = (logs st ++ verdictLog h title (Discarded r))%list.
Proof.
  unfold discard, report, bind, ret, logEv, verdictLog.
  destruct h; [destruct (isImageError r)|]; reflexivity.
Qed.

(** The candidate is discarded: one entry after the calls made so far. *)
Ltac discarded :=
  rewrite discard_logs, discard_verdict; cbn [snd] in *; congruence.

(** The next call, which leaves the log as it is. *)
Ltac next_call :=
  match goal with
  | |- context [call ?f ?s] =>
      let H := fresh "Hlog" in
      pose proof (call_logs f s) as H; destruct (call f s) as [? ?]; cbn [snd] in H
  end.

(** The candidate is handed to [Create]. *)
Ltac created h :=
  next_call;
  match goal with
  | |- context [match ?err with Some _ => _ | None => _ end] => destruct err
  end;
  unfold reportStorage, logEv, verdictLog; destruct h; cbn [snd fst logs];
  rewrite ?app_nil_r; congruence.

(** X23. In [Execute], for a candidate that comes with an image of its own
    (not empty and not under [/images/fallback/]), the body of the candidate
    loop writes one entry with [utils.NewsWarn] or [utils.NewsError] when it
    does not store the candidate, with the cleaned title and the reason or
    the storage error, and none when it stores it; the calls it makes
    through the interfaces of the use case are not its own entries. *)
Theorem candidate_logged_once {W} (uc : FetchNewsUseCase W) (cat lang : string)
    (maxDays : Z) (src : domain.NewsSource) (linksSeen titlesSeen : gset string)
    (item : domain.NewsItem) (st : State W) :
  domain.Image item <> "" ->
  Contains (domain.Image item) "/images/fallback/" = false ->
  let r := admitCandidate uc (NewsLog cat lang) cat lang maxDays src
             linksSeen titlesSeen item st in
  logs (snd r)
  = (logs st ++ verdictLog (NewsLog cat lang) (cleanText (domain.Title item)) (fst r))%list.
Proof.
  intros Himg Hown. cbv zeta. unfold admitCandidate, bind, ret.
  apply nonEmpty_true in Himg. rewrite Himg. cbn [negb].
  destruct (isBlacklisted _ _); [discarded|].
  destruct (_ || _); [discarded|].
  destruct (bool_decide (domain.Link item ∈ linksSeen)); [discarded|].
  destruct (bool_decide (_ ∈ titlesSeen)); [discarded|].
  unfold Since, bind, ret. next_call.
  destruct (_ >? maxAge maxDays); [discarded|].
  cbv beta iota zeta. rewrite Hown. cbn [negb].
  next_call. destruct p as [[|] [e|]]; try discarded.
  created (NewsLog cat lang).
Qed.

Lemma candidate_logged_once_witness :
  let item := Run.item "<b>Tu  horóscopo</b> de hoy" "http://a/1" "http://img/1.jpg"
                Run.start in
  let r := admitCandidate Run.useCase (NewsLog "technology" "es") "technology" "es" 5
             Run.sourceA ∅ ∅ item (Run.initial []) in
  logs (snd r)
  = (logs (Run.initial [])
     ++ verdictLog (NewsLog "technology" "es") (cleanText (domain.Title item)) (fst r))%list.
Proof.
  apply (candidate_logged_once Run.useCase "technology" "es" 5 Run.sourceA ∅ ∅
           (Run.item "<b>Tu  horóscopo</b> de hoy" "http://a/1" "http://img/1.jpg" Run.start)
           (Run.initial [])).
  - discriminate.
  - vm_compute. reflexivity.
Defined.

Example candidate_logged_blacklisted :
  logs (snd (admitCandidate Run.useCase (NewsLog "technology" "es") "technology" "es" 5
               Run.sourceA ∅ ∅
               (Run.item "<b>Tu  horóscopo</b> de hoy" "http://a/1" "http://img/1.jpg" Run.start)
               (Run.initial [])))
  = [EvNewsWarn "technology" "es" "Tu horóscopo de hoy" RBlacklisted].
Proof. vm_compute. reflexivity. Qed.

(** ** Group loop: the cap stops the fetching *)

(** X24. Once a group that was below its cap has reached it, [Execute]
    fetches no further source of the group: the sources that follow in the
    list change neither the result nor the state. *)
Theorem full_group_stops_fetching {W} (uc : FetchNewsUseCase W) (cat lang : string)
    (tope maxDays : Z) (srcs rest : list domain.NewsSource) (g : GroupState)
    (st : State W) :
  Z.of_nat (length (noticias g)) < tope ->
  tope <= Z.of_nat (length (noticias (fst (processSources uc cat lang tope maxDays srcs g st)))) ->
  processSources uc cat lang tope maxDays (srcs ++ rest) g st
  = processSources uc cat lang tope maxDays srcs g st.
Proof.
  revert g st. induction srcs as [|src srcs IH]; intros g st Hbelow Hfull.
  - cbn in Hfull. lia.
  - rewrite <- app_comm_cons. cbn [processSources] in *. unfold bind, ret in *.
    destruct (fetchSource uc src st) as [[feedItems [err|]] st1].
    + unfold logEv in *. cbv beta iota in *. apply IH; assumption.
    + destruct (processItems uc cat lang tope maxDays _ src feedItems g 0 st1)
        as [[g' count] st2].
      destruct (count =? 0); unfold logEv in *; cbv beta iota in *;
        (destruct (Z.geb_spec (Z.of_nat (length (noticias g'))) tope);
         [reflexivity | apply IH; [lia | assumption]]).
Qed.

Lemma full_group_stops_fetching_witness :
  processSources Run.useCase "technology" "es" 1 5 ([Run.sourceA] ++ [Run.sourceB])
    emptyGroup (Run.initial [])
  = processSources Run.useCase "technology" "es" 1 5 [Run.sourceA]
      emptyGroup (Run.initial []).
Proof.
  apply (full_group_stops_fetching Run.useCase "technology" "es" 1 5
           [Run.sourceA] [Run.sourceB] emptyGroup (Run.initial [])).
  - vm_compute. reflexivity.
  - vm_compute. discriminate.
Defined.
